(** * The screensaver settings editor (settings.py)

    A shallow embedding of the configuration logic of [settings.py]:
    loading the persisted document ([load_config]), discovering the
    assets ([get_available_assets]), the start of a session
    ([__init__], [create_widgets], [build_config_tab],
    [build_chars_tab]), saving ([save_config]) and the preview action
    ([preview_screensaver]).

    Python objects are modelled as follows.
    - The configuration document is a Python [dict] with string keys: a
      [gmap string value].  Only lookups and updates of the dict are
      observed by the code, and the text produced for it belongs to the
      [json] module, which is a parameter of the model.
    - [self.char_vars] is a [dict] whose iteration order (the insertion
      order) decides the order of the saved selection: an association
      list, updated in place by [dict_set].
    - Exceptions are explicit: a call yields an [outcome], and the
      functions of the class run in a state-and-exception monad whose
      state survives a raised exception, as the heap of Python does.
    - A Tk variable is modelled by what its [get()] yields at the time
      it is read: the value it was made with or set to, or the exception
      raised for a content that is not of its type.
    - The builtins [str], [float] and [int], like the [json] module,
      belong to the Python runtime and are parameters of the model. *)

From Stdlib Require Import ZArith Lia Ascii Floats.PrimFloat Floats.FloatOps Floats.SpecFloat
  Floats.FloatAxioms.
From stdpp Require Import gmap strings list fin_maps.

Set Warnings "-register-all".
Open Scope string_scope.

(** ** Python values and exceptions *)

(** The values a configuration document holds: what [json.load] can
    return, and what [save_config] stores. *)
Inductive value : Type :=
  | VNone
  | VBool (b : bool)
  | VInt (n : Z)
  | VFloat (x : float)
  | VStr (s : string)
  | VList (l : list value)
  | VDict (d : gmap string value).

(** The two exception classes [save_config] tells apart: [ValueError]
    (with its subclasses, such as [json.JSONDecodeError]) and every other
    subclass of [Exception] ([OSError], [TclError], ...).  The string is
    [str(e)]. *)
Inductive exn : Type :=
  | ValueError (msg : string)
  | Exception (msg : string).

Definition exn_str (e : exn) : string :=
  match e with ValueError msg => msg | Exception msg => msg end.

Inductive outcome (A : Type) : Type :=
  | Returns (a : A)
  | Raises (e : exn).
Arguments Returns {A} a.
Arguments Raises {A} e.

(** ** The state-and-exception monad *)

Definition M (S A : Type) : Type := S -> outcome A * S.

Definition ret {S A} (a : A) : M S A := fun s => (Returns a, s).

Definition raise {S A} (e : exn) : M S A := fun s => (Raises e, s).

Definition bind {S A B} (m : M S A) (k : A -> M S B) : M S B :=
  fun s =>
    match m s with
    | (Returns a, s') => k a s'
    | (Raises e, s') => (Raises e, s')
    end.

(** [try: body / except Exception as e: handler e]. *)
Definition try_except {S A} (body : M S A) (handler : exn -> M S A) : M S A :=
  fun s =>
    match body s with
    | (Returns a, s') => (Returns a, s')
    | (Raises e, s') => handler e s'
    end.

(** A computation without effect on the state. *)
Definition lift {S A} (o : outcome A) : M S A := fun s => (o, s).

Definition when {S} (b : bool) (m : M S unit) : M S unit :=
  if b then m else ret tt.

Notation "'let!' x ':=' m 'in' k" := (bind m (fun x => k))
  (at level 10, x name, m at level 100, k at level 200, only parsing).
Notation "m '>>>' k" := (bind m (fun _ => k))
  (at level 90, right associativity, only parsing).

(** ** The widgets and the world around the editor *)

(** A call of [messagebox.showerror] or [messagebox.showinfo]. *)
Inductive dialog : Type :=
  | ShowError (title message : string)
  | ShowInfo (title message : string).

(** The [ScreensaverSettings] object.  A numeric Tk variable holds what
    [float(var.get())] or [int(var.get())] yields when it is read: a
    number, or the exception raised for a content that is not one.  The
    variables behind the read-only comboboxes and the checkbuttons always
    hold a string or a boolean. *)
Record ScreensaverSettings : Type := {
  config_data : gmap string value;
  available_assets : list string;
  speed_var : outcome float;
  population_var : outcome Z;
  scale_var : outcome float;
  rand_var : outcome float;
  bg_var : string;
  cycle_settings_var : bool;
  bg_cycle_sec_var : outcome Z;
  lens_var : string;
  char_vars : list (string * bool)
}.

(** The content of the eight scalar controls. *)
Record controls : Type := {
  c_speed : outcome float;
  c_population : outcome Z;
  c_scale : outcome float;
  c_rand : outcome float;
  c_bg : string;
  c_cycle_settings : bool;
  c_bg_cycle_sec : outcome Z;
  c_lens : string
}.

(** How the operating system answers [open(CONFIG_FILE, 'w')] followed by
    [json.dump]. *)
Inductive write_answer : Type :=
  | WriteOk
  | OpenFails (e : exn)
  | DumpFails (e : exn) (written : string).

(** What the editor reads from and leaves in its environment.
    [config_file] is the text of config.json, [None] when the path does
    not exist; [assets_dir] is the listing of the assets directory.
    [read_fault], [write_fault] and [popen_fault] are the answers of the
    operating system to opening the file for reading, to writing it, and
    to starting a process.  [dialogs], [stdout], [popen_calls] and
    [processes] record, oldest first, the message boxes shown, the lines
    printed, the calls of [subprocess.Popen] and the processes started. *)
Record world : Type := {
  config_file : option string;
  assets_dir : option (list string);
  read_fault : option exn;
  write_fault : write_answer;
  popen_fault : list string -> option exn;
  dialogs : list dialog;
  stdout : list string;
  popen_calls : list (list string);
  processes : list (list string)
}.

Definition set_config_data (d : gmap string value) (self : ScreensaverSettings)
  : ScreensaverSettings :=
  {| config_data := d;
     available_assets := available_assets self;
     speed_var := speed_var self;
     population_var := population_var self;
     scale_var := scale_var self;
     rand_var := rand_var self;
     bg_var := bg_var self;
     cycle_settings_var := cycle_settings_var self;
     bg_cycle_sec_var := bg_cycle_sec_var self;
     lens_var := lens_var self;
     char_vars := char_vars self |}.

Definition set_char_vars (cv : list (string * bool)) (self : ScreensaverSettings)
  : ScreensaverSettings :=
  {| config_data := config_data self;
     available_assets := available_assets self;
     speed_var := speed_var self;
     population_var := population_var self;
     scale_var := scale_var self;
     rand_var := rand_var self;
     bg_var := bg_var self;
     cycle_settings_var := cycle_settings_var self;
     bg_cycle_sec_var := bg_cycle_sec_var self;
     lens_var := lens_var self;
     char_vars := cv |}.

Definition set_controls (c : controls) (self : ScreensaverSettings)
  : ScreensaverSettings :=
  {| config_data := config_data self;
     available_assets := available_assets self;
     speed_var := c_speed c;
     population_var := c_population c;
     scale_var := c_scale c;
     rand_var := c_rand c;
     bg_var := c_bg c;
     cycle_settings_var := c_cycle_settings c;
     bg_cycle_sec_var := c_bg_cycle_sec c;
     lens_var := c_lens c;
     char_vars := char_vars self |}.

Definition set_config_file (f : option string) (w : world) : world :=
  {| config_file := f;
     assets_dir := assets_dir w;
     read_fault := read_fault w;
     write_fault := write_fault w;
     popen_fault := popen_fault w;
     dialogs := dialogs w;
     stdout := stdout w;
     popen_calls := popen_calls w;
     processes := processes w |}.

Definition add_dialog (d : dialog) (w : world) : world :=
  {| config_file := config_file w;
     assets_dir := assets_dir w;
     read_fault := read_fault w;
     write_fault := write_fault w;
     popen_fault := popen_fault w;
     dialogs := dialogs w ++ [d];
     stdout := stdout w;
     popen_calls := popen_calls w;
     processes := processes w |}.

Definition add_stdout (line : string) (w : world) : world :=
  {| config_file := config_file w;
     assets_dir := assets_dir w;
     read_fault := read_fault w;
     write_fault := write_fault w;
     popen_fault := popen_fault w;
     dialogs := dialogs w;
     stdout := stdout w ++ [line];
     popen_calls := popen_calls w;
     processes := processes w |}.

Definition add_popen (cmd : list string) (started : bool) (w : world) : world :=
  {| config_file := config_file w;
     assets_dir := assets_dir w;
     read_fault := read_fault w;
     write_fault := write_fault w;
     popen_fault := popen_fault w;
     dialogs := dialogs w;
     stdout := stdout w;
     popen_calls := popen_calls w ++ [cmd];
     processes := if started then processes w ++ [cmd] else processes w |}.

Definition set_faults (rf : option exn) (wf : write_answer)
    (pf : list string -> option exn) (w : world) : world :=
  {| config_file := config_file w;
     assets_dir := assets_dir w;
     read_fault := rf;
     write_fault := wf;
     popen_fault := pf;
     dialogs := dialogs w;
     stdout := stdout w;
     popen_calls := popen_calls w;
     processes := processes w |}.

(** The running editor: the object and its environment. *)
Definition session : Type := ScreensaverSettings * world.

(** An effect on the environment, run next to the object. *)
Definition in_world {A} (m : M world A) : M session A :=
  fun st =>
    match m (snd st) with
    | (r, w') => (r, (fst st, w'))
    end.

Definition showerror (title message : string) : M world unit :=
  fun w => (Returns tt, add_dialog (ShowError title message) w).

Definition showinfo (title message : string) : M world unit :=
  fun w => (Returns tt, add_dialog (ShowInfo title message) w).

Definition print (line : string) : M world unit :=
  fun w => (Returns tt, add_stdout line w).

(** [subprocess.Popen(cmd)]: the call is recorded, and the process is
    started unless the operating system refuses. *)
Definition Popen (cmd : list string) : M world unit :=
  fun w =>
    match popen_fault w cmd with
    | None => (Returns tt, add_popen cmd true w)
    | Some e => (Raises e, add_popen cmd false w)
    end.

(** ** Module constants *)

Definition CONFIG_FILE : string := "config.json".
Definition ASSETS_DIR : string := "assets".

Definition DEFAULT_CONFIG : gmap string value :=
  list_to_map
    [ ("speed", VFloat 1.0);
      ("population", VInt 17);
      ("background_effect", VStr "pure-black");
      ("scale", VFloat 1.0);
      ("randomness", VFloat 0.5);
      ("cycle_settings", VBool false);
      ("bg_cycle_seconds", VInt 10);
      ("lens_effect", VStr "none");
      ("enabled_characters", VList []) ].

(** The keys [save_config] writes. *)
Definition managed_keys : list string :=
  [ "speed"; "population"; "scale"; "randomness"; "background_effect";
    "cycle_settings"; "bg_cycle_seconds"; "lens_effect"; "enabled_characters" ].

(** ** Asset discovery *)

(** [os.path.join(ASSETS_DIR, name)] and [os.path.basename(path)] on a
    POSIX system. *)
Definition path_join (dir name : string) : string := dir ++ "/" ++ name.

Fixpoint basename_from (seen path : string) : string :=
  match path with
  | EmptyString => seen
  | String c rest =>
      if Ascii.eqb c "/"%char then basename_from EmptyString rest
      else basename_from (seen ++ String c EmptyString) rest
  end.

Definition basename (path : string) : string := basename_from EmptyString path.

Fixpoint ends_with (suffix s : string) : bool :=
  String.eqb suffix s
  || match s with
     | EmptyString => false
     | String _ rest => ends_with suffix rest
     end.

(** The entries of a directory that the pattern [*.svg] matches: [glob]
    skips the names that start with a dot. *)
Definition matches_svg (name : string) : bool :=
  ends_with ".svg" name
  && match name with
     | String c _ => negb (Ascii.eqb c "."%char)
     | EmptyString => false
     end.

Definition glob_svg (dir : string) (listing : list string) : list string :=
  path_join dir <$> List.filter matches_svg listing.

Definition get_available_assets : M world (list string) :=
  fun w =>
    match assets_dir w with
    | None => (Returns [], w)
    | Some listing =>
        let svgs := glob_svg ASSETS_DIR listing in
        (Returns (basename <$> svgs), w)
    end.

(** ** The selection of a document *)

(** [saved_chars] of [__init__] and of [build_chars_tab]:
    [config_data.get('enabled_characters', [])], replaced by [[]] when it
    is not a list. *)
Definition saved_chars (config_data : gmap string value) : list value :=
  match config_data !! "enabled_characters" with
  | Some (VList l) => l
  | _ => []
  end.

(** [asset in saved_chars]: a string equals only a string. *)
Definition py_in (asset : string) (l : list value) : bool :=
  existsb (fun v => match v with VStr s => String.eqb asset s | _ => false end) l.

(** Lines 38 to 44 of [__init__] ("Initialize enabled characters if empty
    or missing"), which the specification calls reconciliation. *)
Definition initialize_enabled_characters
    (config_data : gmap string value) (available_assets : list string)
  : gmap string value :=
  match saved_chars config_data with
  | [] => <["enabled_characters" := VList (VStr <$> available_assets)]> config_data
  | _ :: _ => config_data
  end.

(** [d[k] = v] on a dict in insertion order. *)
Fixpoint dict_set {V} (k : string) (v : V) (d : list (string * V))
  : list (string * V) :=
  match d with
  | [] => [(k, v)]
  | (k', v') :: rest =>
      if String.eqb k k' then (k, v) :: rest else (k', v') :: dict_set k v rest
  end.

(** The checkboxes of [build_chars_tab]: one per asset, ticked when the
    asset is in the selection of the document. *)
Definition build_chars_tab (self : ScreensaverSettings) : ScreensaverSettings :=
  match available_assets self with
  | [] => self
  | _ :: _ =>
      let saved := saved_chars (config_data self) in
      set_char_vars
        (foldl (fun cv asset => dict_set asset (py_in asset saved) cv)
               (char_vars self) (available_assets self))
        self
  end.

(** ** The scalar controls at the start *)

(** [d.get(k, default)]. *)
Definition dict_get (d : gmap string value) (k : string) (default : value) : value :=
  match d !! k with
  | Some v => v
  | None => default
  end.

(** [bool(v)]: [None], [False], zero, the empty string, the empty list and
    the empty dict are false, every other value is true. *)
Definition truth (v : value) : bool :=
  match v with
  | VNone => false
  | VBool b => b
  | VInt n => negb (n =? 0)%Z
  | VFloat x => negb (PrimFloat.eqb x 0%float)
  | VStr s => negb (String.eqb s EmptyString)
  | VList l => match l with [] => false | _ :: _ => true end
  | VDict d => negb (Nat.eqb (size d) 0)
  end.

(** The object when [create_widgets] is called: the reconciled document,
    the catalog, the variables as [__init__] declares them (a Tk variable
    made without a value holds 0, the empty string or false) and no
    checkbox. *)
Definition declared (config_data : gmap string value) (available_assets : list string)
  : ScreensaverSettings :=
  {| config_data := config_data;
     available_assets := available_assets;
     speed_var := Returns 0.0%float;
     population_var := Returns 0%Z;
     scale_var := Returns 0.0%float;
     rand_var := Returns 0.0%float;
     bg_var := EmptyString;
     cycle_settings_var := false;
     bg_cycle_sec_var := Returns 0%Z;
     lens_var := EmptyString;
     char_vars := [] |}.

(** ** Saving *)

(** The casts of [save_config].  A numeric Tk variable yields a [float]
    or an [int], and the other variables a [str] or a [bool]; on these the
    casts are the identity. *)
Definition py_float (x : float) : float := x.
Definition py_int (n : Z) : Z := n.
Definition py_str (s : string) : string := s.
Definition py_bool (b : bool) : bool := b.

Definition outcome_bind {A B} (o : outcome A) (k : A -> outcome B) : outcome B :=
  match o with
  | Returns a => k a
  | Raises e => Raises e
  end.

(** [chosen_chars]: the ticked checkboxes, in the order of the dict. *)
Definition chosen_chars (self : ScreensaverSettings) : list string :=
  fst <$> List.filter snd (char_vars self).

(** The dict display [new_config]; its entries are evaluated in the order
    they are written, so the first variable that cannot be read decides
    the exception. *)
Definition new_config (self : ScreensaverSettings) (chosen : list string)
  : outcome (gmap string value) :=
  outcome_bind (speed_var self) (fun speed =>
  outcome_bind (population_var self) (fun population =>
  outcome_bind (scale_var self) (fun scale =>
  outcome_bind (rand_var self) (fun randomness =>
  let background_effect := py_str (bg_var self) in
  let cycle_settings := py_bool (cycle_settings_var self) in
  outcome_bind (bg_cycle_sec_var self) (fun bg_cycle_seconds =>
  let lens_effect := py_str (lens_var self) in
  Returns (list_to_map
    [ ("speed", VFloat (py_float speed));
      ("population", VInt (py_int population));
      ("scale", VFloat (py_float scale));
      ("randomness", VFloat (py_float randomness));
      ("background_effect", VStr background_effect);
      ("cycle_settings", VBool cycle_settings);
      ("bg_cycle_seconds", VInt (py_int bg_cycle_seconds));
      ("lens_effect", VStr lens_effect);
      ("enabled_characters", VList (VStr <$> chosen)) ])))))).

(** [self.config_data.update(new_config)]. *)
Definition dict_update (d new : gmap string value) : gmap string value := new ∪ d.

Definition newline : string := String (Ascii.ascii_of_nat 10) EmptyString.

Definition MSG_EMPTY : dialog :=
  ShowError "Error" "You must select at least one character.".
Definition MSG_NUMERIC : dialog :=
  ShowError "Error" "Invalid numeric values entered.".
Definition MSG_SAVED : dialog :=
  ShowInfo "Success"
    ("Settings saved successfully!" ++ newline
     ++ "They will apply next time the screensaver starts.").
Definition MSG_NOT_SAVED (e : exn) : dialog :=
  ShowError "Error" ("Could not save config: " ++ exn_str e).
Definition MSG_PREVIEW (e : exn) : dialog :=
  ShowError "Error" ("Failed to open preview: " ++ exn_str e).

Definition show (d : dialog) : M world unit :=
  fun w => (Returns tt, add_dialog d w).

Definition get_self : M session ScreensaverSettings :=
  fun st => (Returns (fst st), st).

Definition put_self (self : ScreensaverSettings) : M session unit :=
  fun st => (Returns tt, (self, snd st)).

Section Editor.

(** The [json] module of Python: [json_dump v] is the text
    [json.dump(v, f, indent=2)] writes, and [json_load text] is what
    [json.load] yields on a file holding [text]. *)
Variable json_dump : value -> string.
Variable json_load : string -> outcome value.

(** The builtins of Python that [build_config_tab] applies to the fields
    of the document: [builtin_str v] is [str(v)], and [builtin_float s]
    and [builtin_int s] are [float(s)] and [int(s)] on a string. *)
Variable builtin_str : value -> string.
Variable builtin_float : string -> outcome float.
Variable builtin_int : string -> outcome Z.

(** [with open(CONFIG_FILE, 'w') as f: json.dump(doc, f, indent=2)].
    Opening for writing truncates the file, so a failure while dumping
    leaves the part that was written. *)
Definition write_config (doc : gmap string value) : M world unit :=
  fun w =>
    match write_fault w with
    | WriteOk => (Returns tt, set_config_file (Some (json_dump (VDict doc))) w)
    | OpenFails e => (Raises e, w)
    | DumpFails e written => (Raises e, set_config_file (Some written) w)
    end.

(** The two [except] clauses of [save_config]. *)
Definition save_failed (show_msg : bool) (e : exn) : M session bool :=
  match e with
  | ValueError _ => in_world (when show_msg (show MSG_NUMERIC)) >>> ret false
  | Exception _ => in_world (when show_msg (show (MSG_NOT_SAVED e))) >>> ret false
  end.

Definition save_config (show_msg : bool) : M session bool :=
  try_except
    (let! self := get_self in
     let chosen := chosen_chars self in
     match chosen with
     | [] => in_world (when show_msg (show MSG_EMPTY)) >>> ret false
     | _ :: _ =>
         let! new := lift (new_config self chosen) in
         put_self (set_config_data (dict_update (config_data self) new) self) >>>
         let! self := get_self in
         in_world (write_config (config_data self)) >>>
         in_world (when show_msg (show MSG_SAVED)) >>>
         ret true
     end)
    (save_failed show_msg).

(** ** Preview *)

Definition SERVER_CMD : list string := ["python3"; "-m"; "http.server"; "8080"].
Definition BROWSER_CMD : list string :=
  [ "chromium-browser";
    "--app=http://localhost:8080/index.html?preview=1";
    "--kiosk"; "--incognito"; "--new-window" ].

Definition launch_preview : M world unit :=
  try_except
    (Popen SERVER_CMD >>> Popen BROWSER_CMD)
    (fun e => show (MSG_PREVIEW e)).

Definition preview_screensaver : M session unit :=
  let! saved := save_config false in
  if saved then in_world launch_preview else ret tt.

(** ** Loading and the start of a session *)

Definition os_path_exists_config : M world bool :=
  fun w => (Returns (bool_decide (is_Some (config_file w))), w).

(** [open(CONFIG_FILE, 'r')] and the read [json.load] makes of it. *)
Definition read_config : M world string :=
  fun w =>
    match config_file w, read_fault w with
    | Some text, None => (Returns text, w)
    | Some _, Some e => (Raises e, w)
    | None, _ => (Raises (Exception "No such file or directory"), w)
    end.

Definition load_config : M world value :=
  let! present := os_path_exists_config in
  if negb present then ret (VDict DEFAULT_CONFIG)
  else
    try_except
      (let! text := read_config in lift (json_load text))
      (fun e =>
         print ("Error loading config: " ++ exn_str e) >>>
         ret (VDict DEFAULT_CONFIG)).

(** [build_config_tab]: the eight scalar variables are made with the
    fields of the document in memory, a missing field counting as its
    default.  The conversions run in the order of the lines, outside any
    [try]: the first that raises ends the constructor.  A variable made
    with a value yields this value when it is read. *)
Definition build_config_tab (self : ScreensaverSettings) : outcome ScreensaverSettings :=
  let d := config_data self in
  outcome_bind (builtin_float (builtin_str (dict_get d "speed" (VFloat 1.0)))) (fun speed =>
  outcome_bind (builtin_int (builtin_str (dict_get d "population" (VInt 17)))) (fun population =>
  outcome_bind (builtin_float (builtin_str (dict_get d "scale" (VFloat 1.0)))) (fun scale =>
  outcome_bind (builtin_float (builtin_str (dict_get d "randomness" (VFloat 0.5)))) (fun randomness =>
  let cycle_settings := truth (dict_get d "cycle_settings" (VBool false)) in
  let background_effect := builtin_str (dict_get d "background_effect" (VStr "pure-black")) in
  outcome_bind (builtin_int (builtin_str (dict_get d "bg_cycle_seconds" (VInt 10)))) (fun bg_cycle_seconds =>
  let lens_effect := builtin_str (dict_get d "lens_effect" (VStr "none")) in
  Returns
    (set_controls
       {| c_speed := Returns speed;
          c_population := Returns population;
          c_scale := Returns scale;
          c_rand := Returns randomness;
          c_bg := background_effect;
          c_cycle_settings := cycle_settings;
          c_bg_cycle_sec := Returns bg_cycle_seconds;
          c_lens := lens_effect |}
       self)))))).

(** [create_widgets]: the configuration tab, then the characters tab. *)
Definition create_widgets (self : ScreensaverSettings) : outcome ScreensaverSettings :=
  outcome_bind (build_config_tab self) (fun self => Returns (build_chars_tab self)).

(** [__init__].  A document that is not a dict has no [get]: the
    constructor raises.  The variables are declared first, and
    [create_widgets] makes them anew. *)
Definition init : M world ScreensaverSettings :=
  let! loaded := load_config in
  let! assets := get_available_assets in
  match loaded with
  | VDict d =>
      lift (create_widgets (declared (initialize_enabled_characters d assets) assets))
  | _ => raise (Exception "object has no attribute 'get'")
  end.

(** The numeric fields of a document convert: [build_config_tab] raises
    on none of them. *)
Definition numeric_fields_convert (d : gmap string value) : Prop :=
  (exists x, builtin_float (builtin_str (dict_get d "speed" (VFloat 1.0))) = Returns x)
  /\ (exists n, builtin_int (builtin_str (dict_get d "population" (VInt 17))) = Returns n)
  /\ (exists x, builtin_float (builtin_str (dict_get d "scale" (VFloat 1.0))) = Returns x)
  /\ (exists x, builtin_float (builtin_str (dict_get d "randomness" (VFloat 0.5))) = Returns x)
  /\ (exists n, builtin_int (builtin_str (dict_get d "bg_cycle_seconds" (VInt 10))) = Returns n).

(** ** The events of a session *)

Fixpoint dict_toggle (k : string) (d : list (string * bool)) : list (string * bool) :=
  match d with
  | [] => []
  | (k', b) :: rest =>
      if String.eqb k k' then (k', negb b) :: rest else (k', b) :: dict_toggle k rest
  end.

(** What happens between the start of the session and its end: the user
    edits the scalar controls, clicks the checkbox of an asset, or
    presses one of the two buttons, and the operating system changes its
    answers. *)
Inductive event : Type :=
  | Edit (c : controls)
  | Click (asset : string)
  | Faults (rf : option exn) (wf : write_answer) (pf : list string -> option exn)
  | SaveButton
  | PreviewButton.

Definition step (st : session) (ev : event) : session :=
  match ev with
  | Edit c => (set_controls c (fst st), snd st)
  | Click asset => (set_char_vars (dict_toggle asset (char_vars (fst st))) (fst st), snd st)
  | Faults rf wf pf => (fst st, set_faults rf wf pf (snd st))
  | SaveButton => snd (save_config true st)
  | PreviewButton => snd (preview_screensaver st)
  end.

Definition run (evs : list event) (st : session) : session := foldl step st evs.

End Editor.

(** ** A reference [json] module

    Python's [json] module is not part of the editor.  The theorems below
    hold for every pair [json_dump], [json_load], but for the round trip
    of a save, which is proved of this module; the module also lets the
    model run on concrete documents.  [dump]
    writes the layout of [indent=2], with the keys of a dict in the order
    of the map and a float in its exact decimal expansion (Python writes
    the shortest decimal that reads back as the same float); [load] reads
    JSON text, a number with a fraction or an exponent as the nearest
    float.  The messages of its errors carry no position. *)
Module Json.

(** *** Writing *)

Definition quote : string := String (ascii_of_nat 34) EmptyString.
Definition backslash : ascii := ascii_of_nat 92.

Fixpoint digits_from (fuel : nat) (n : Z) (acc : string) : string :=
  match fuel with
  | O => acc
  | S fuel' =>
      let acc' := String (ascii_of_nat (48 + Z.to_nat (n mod 10))) acc in
      if (n <? 10)%Z then acc' else digits_from fuel' (n / 10) acc'
  end.

(** The decimal digits of a natural number. *)
Definition digits (n : Z) : string :=
  digits_from (S (Z.to_nat (Z.log2 n))) n EmptyString.

Definition dump_int (n : Z) : string :=
  if (n <? 0)%Z then "-" ++ digits (- n) else digits n.

Fixpoint repeat_string (n : nat) (s : string) : string :=
  match n with O => EmptyString | S n' => s ++ repeat_string n' s end.

(** The [k] last decimal digits of [f], in front of [acc]. *)
Fixpoint fixed_digits (k : nat) (f : Z) (acc : string) : string :=
  match k with
  | O => acc
  | S k' =>
      fixed_digits k' (f / 10) (String (ascii_of_nat (48 + Z.to_nat (f mod 10))) acc)
  end.

(** The fraction [f / 10^k] without its trailing zeros, the first digit
    apart. *)
Fixpoint strip_zeros (k : nat) (f : Z) : nat * Z :=
  match k with
  | S (S _ as k') => if (f mod 10 =? 0)%Z then strip_zeros k' (f / 10) else (k, f)
  | _ => (k, f)
  end.

(** [n / 10^k], for [k] that is not zero, written with a decimal point
    and no trailing zero beyond the first fractional digit. *)
Definition decimal (n : Z) (k : nat) : string :=
  let '(k', f) := strip_zeros k (n mod 10 ^ Z.of_nat k) in
  digits (n / 10 ^ Z.of_nat k) ++ "." ++ fixed_digits k' f EmptyString.

(** A float is written with its exact decimal expansion. *)
Definition dump_float (x : float) : string :=
  match Prim2SF x with
  | S754_nan => "NaN"
  | S754_infinity false => "Infinity"
  | S754_infinity true => "-Infinity"
  | S754_zero false => "0.0"
  | S754_zero true => "-0.0"
  | S754_finite s m e =>
      (if s then "-" else "")
      ++ match e with
         | Zneg k => decimal (Zpos m * 5 ^ Zpos k) (Pos.to_nat k)
         | _ => digits (Zpos m * 2 ^ e) ++ ".0"
         end
  end.

Definition hex_digit (n : nat) : ascii :=
  ascii_of_nat (if (n <? 10)%nat then 48 + n else 87 + n).

Definition dump_char (c : ascii) : string :=
  let n := nat_of_ascii c in
  if (n =? 34)%nat then String backslash quote
  else if (n =? 92)%nat then String backslash (String backslash EmptyString)
  else if (n =? 10)%nat then String backslash "n"
  else if (n =? 13)%nat then String backslash "r"
  else if (n =? 9)%nat then String backslash "t"
  else if (n =? 8)%nat then String backslash "b"
  else if (n =? 12)%nat then String backslash "f"
  else if ((n <? 32) || (126 <? n))%nat then
    String backslash ("u00" ++ String (hex_digit (n / 16)) (String (hex_digit (n mod 16)) EmptyString))
  else String c EmptyString.

Fixpoint dump_chars (s : string) : string :=
  match s with
  | EmptyString => EmptyString
  | String c rest => dump_char c ++ dump_chars rest
  end.

Definition dump_string (s : string) : string := quote ++ dump_chars s ++ quote.

Definition indent (level : nat) : string := repeat_string level "  ".

Fixpoint join (sep : string) (l : list string) : string :=
  match l with
  | [] => EmptyString
  | [s] => s
  | s :: rest => s ++ sep ++ join sep rest
  end.

Definition block (opening closing : string) (level : nat) (items : list string) : string :=
  match items with
  | [] => opening ++ closing
  | _ =>
      opening ++ newline ++ indent (S level)
      ++ join ("," ++ newline ++ indent (S level)) items
      ++ newline ++ indent level ++ closing
  end.

Fixpoint dump_at (level : nat) (v : value) : string :=
  match v with
  | VNone => "null"
  | VBool true => "true"
  | VBool false => "false"
  | VInt n => dump_int n
  | VFloat x => dump_float x
  | VStr s => dump_string s
  | VList l => block "[" "]" level (map (dump_at (S level)) l)
  | VDict d =>
      block "{" "}" level
        (map_fold (fun k v' acc => app acc [dump_string k ++ ": " ++ dump_at (S level) v']) [] d)
  end.

Definition dump (v : value) : string := dump_at 0 v.

(** *** Reading *)

Definition code (c : ascii) : nat := nat_of_ascii c.

Definition is_ws (c : ascii) : bool :=
  let n := code c in ((n =? 32) || (n =? 9) || (n =? 10) || (n =? 13))%nat.

Fixpoint skip_ws (s : string) : string :=
  match s with
  | String c rest => if is_ws c then skip_ws rest else s
  | EmptyString => s
  end.

Definition is_digit (c : ascii) : bool :=
  ((48 <=? code c) && (code c <=? 57))%nat.

(** The digits at the front of [s]: their value on top of [acc], how
    many they are, and what follows them. *)
Fixpoint read_digits (s : string) (acc : Z) (count : nat) : Z * nat * string :=
  match s with
  | String c rest =>
      if is_digit c
      then read_digits rest (10 * acc + Z.of_nat (code c - 48)) (S count)
      else (acc, count, s)
  | EmptyString => (acc, count, s)
  end.

(** The float nearest to [n * 10^e10], ties to even: the quotient is
    computed with more than 64 bits and a sticky bit, and rounded once. *)
Definition float_of_decimal (negative : bool) (n e10 : Z) : float :=
  if (n =? 0)%Z then (if negative then neg_zero else zero)
  else
    let p := if (0 <=? e10)%Z then (n * 10 ^ e10)%Z else n in
    let q := if (0 <=? e10)%Z then 1%Z else (10 ^ (- e10))%Z in
    let s := Z.max 0 (66 + Z.log2 q - Z.log2 p) in
    let num := (p * 2 ^ s)%Z in
    let m := (2 * (num / q) + (if (num mod q =? 0)%Z then 0 else 1))%Z in
    SF2Prim (binary_normalize prec emax (if negative then (- m)%Z else m) (- s - 1) false).

Definition starts_with (prefix s : string) : option string :=
  if String.prefix prefix s
  then Some (String.substring (String.length prefix) (String.length s - String.length prefix) s)
  else None.

(** A number after its optional sign: an [int] when it has neither a
    fraction nor an exponent, a [float] otherwise. *)
Definition read_number (negative : bool) (s : string) : outcome (value * string) :=
  match s with
  | String c rest =>
      if is_digit c then
        let '(int_part, _, after_int) :=
          if (code c =? 48)%nat then (0%Z, 1%nat, rest) else read_digits s 0 0 in
        let '(mantissa, frac_len, after_frac, has_frac) :=
          match after_int with
          | String dot rest1 =>
              if (code dot =? 46)%nat then
                match read_digits rest1 int_part 0 with
                | (_, O, _) => (int_part, 0%nat, after_int, false)
                | (m, k, r) => (m, k, r, true)
                end
              else (int_part, 0%nat, after_int, false)
          | EmptyString => (int_part, 0%nat, after_int, false)
          end in
        let '(exponent, after_exp, has_exp) :=
          match after_frac with
          | String e rest1 =>
              if ((code e =? 101) || (code e =? 69))%nat then
                let '(exp_negative, rest2) :=
                  match rest1 with
                  | String sign rest2 =>
                      if (code sign =? 45)%nat then (true, rest2)
                      else if (code sign =? 43)%nat then (false, rest2)
                      else (false, rest1)
                  | EmptyString => (false, rest1)
                  end in
                match read_digits rest2 0 0 with
                | (_, O, _) => (0%Z, after_frac, false)
                | (x, _, r) => (if exp_negative then (- x)%Z else x, r, true)
                end
              else (0%Z, after_frac, false)
          | EmptyString => (0%Z, after_frac, false)
          end in
        if has_frac || has_exp
        then Returns (VFloat (float_of_decimal negative mantissa (exponent - Z.of_nat frac_len)), after_exp)
        else Returns (VInt (if negative then (- int_part)%Z else int_part), after_exp)
      else Raises (ValueError "Expecting value")
  | EmptyString => Raises (ValueError "Expecting value")
  end.

Definition hex_value (c : ascii) : option nat :=
  let n := code c in
  if ((48 <=? n) && (n <=? 57))%nat then Some (n - 48)%nat
  else if ((97 <=? n) && (n <=? 102))%nat then Some (n - 87)%nat
  else if ((65 <=? n) && (n <=? 70))%nat then Some (n - 55)%nat
  else None.

(** The characters of a string up to its closing quote.  A character is
    a code point below 256; an escape of a larger one is refused. *)
Fixpoint read_string (s : string) : outcome (string * string) :=
  match s with
  | EmptyString => Raises (ValueError "Unterminated string")
  | String c rest =>
      if (code c =? 34)%nat then Returns (EmptyString, rest)
      else if (code c <? 32)%nat then Raises (ValueError "Invalid control character")
      else if (code c =? 92)%nat then
        match rest with
        | String e rest1 =>
            let plain (n : nat) :=
              match read_string rest1 with
              | Returns (str, r) => Returns (String (ascii_of_nat n) str, r)
              | Raises err => Raises err
              end in
            let n := code e in
            if (n =? 34)%nat then plain 34%nat
            else if (n =? 92)%nat then plain 92%nat
            else if (n =? 47)%nat then plain 47%nat
            else if (n =? 98)%nat then plain 8%nat
            else if (n =? 102)%nat then plain 12%nat
            else if (n =? 110)%nat then plain 10%nat
            else if (n =? 114)%nat then plain 13%nat
            else if (n =? 116)%nat then plain 9%nat
            else if (n =? 117)%nat then
              match rest1 with
              | String h1 (String h2 (String h3 (String h4 rest2))) =>
                  match hex_value h1, hex_value h2, hex_value h3, hex_value h4 with
                  | Some a, Some b, Some c', Some d =>
                      if ((a =? 0) && (b =? 0))%nat then
                        match read_string rest2 with
                        | Returns (str, r) => Returns (String (ascii_of_nat (16 * c' + d)) str, r)
                        | Raises err => Raises err
                        end
                      else Raises (Exception "code point above 255")
                  | _, _, _, _ => Raises (ValueError "Invalid \uXXXX escape")
                  end
              | _ => Raises (ValueError "Invalid \uXXXX escape")
              end
            else Raises (ValueError "Invalid \escape")
        | EmptyString => Raises (ValueError "Unterminated string")
        end
      else
        match read_string rest with
        | Returns (str, r) => Returns (String c str, r)
        | Raises err => Raises err
        end
  end.

Fixpoint read_value (fuel : nat) (s : string) : outcome (value * string) :=
  match fuel with
  | O => Raises (Exception "maximum recursion depth exceeded")
  | S fuel' =>
      match skip_ws s with
      | EmptyString => Raises (ValueError "Expecting value")
      | String c rest as s' =>
          if (code c =? 34)%nat then
            match read_string rest with
            | Returns (str, r) => Returns (VStr str, r)
            | Raises e => Raises e
            end
          else if (code c =? 91)%nat then
            match skip_ws rest with
            | String c' r =>
                if (code c' =? 93)%nat then Returns (VList [], r)
                else
                  match read_elements fuel' rest [] with
                  | Returns (l, r') => Returns (VList l, r')
                  | Raises e => Raises e
                  end
            | EmptyString => Raises (ValueError "Expecting value")
            end
          else if (code c =? 123)%nat then
            match skip_ws rest with
            | String c' r =>
                if (code c' =? 125)%nat then Returns (VDict ∅, r)
                else
                  match read_members fuel' rest ∅ with
                  | Returns (d, r') => Returns (VDict d, r')
                  | Raises e => Raises e
                  end
            | EmptyString =>
                Raises (ValueError "Expecting property name enclosed in double quotes")
            end
          else if (code c =? 45)%nat then
            match starts_with "Infinity" rest with
            | Some r => Returns (VFloat neg_infinity, r)
            | None => read_number true rest
            end
          else
            match starts_with "null" s', starts_with "true" s', starts_with "false" s',
                  starts_with "NaN" s', starts_with "Infinity" s' with
            | Some r, _, _, _, _ => Returns (VNone, r)
            | _, Some r, _, _, _ => Returns (VBool true, r)
            | _, _, Some r, _, _ => Returns (VBool false, r)
            | _, _, _, Some r, _ => Returns (VFloat nan, r)
            | _, _, _, _, Some r => Returns (VFloat infinity, r)
            | _, _, _, _, _ => read_number false s'
            end
      end
  end
with read_elements (fuel : nat) (s : string) (seen : list value)
  : outcome (list value * string) :=
  match fuel with
  | O => Raises (Exception "maximum recursion depth exceeded")
  | S fuel' =>
      match read_value fuel' s with
      | Returns (v, r) =>
          match skip_ws r with
          | String c r' =>
              if (code c =? 44)%nat then read_elements fuel' r' (List.app seen [v])
              else if (code c =? 93)%nat then Returns (List.app seen [v], r')
              else Raises (ValueError "Expecting ',' delimiter")
          | EmptyString => Raises (ValueError "Expecting ',' delimiter")
          end
      | Raises e => Raises e
      end
  end
with read_members (fuel : nat) (s : string) (seen : gmap string value)
  : outcome (gmap string value * string) :=
  match fuel with
  | O => Raises (Exception "maximum recursion depth exceeded")
  | S fuel' =>
      match skip_ws s with
      | String q r0 =>
          if (code q =? 34)%nat then
            match read_string r0 with
            | Returns (key, r1) =>
                match skip_ws r1 with
                | String colon r2 =>
                    if (code colon =? 58)%nat then
                      match read_value fuel' r2 with
                      | Returns (v, r3) =>
                          match skip_ws r3 with
                          | String c r4 =>
                              if (code c =? 44)%nat then read_members fuel' r4 (<[key := v]> seen)
                              else if (code c =? 125)%nat then Returns (<[key := v]> seen, r4)
                              else Raises (ValueError "Expecting ',' delimiter")
                          | EmptyString => Raises (ValueError "Expecting ',' delimiter")
                          end
                      | Raises e => Raises e
                      end
                    else Raises (ValueError "Expecting ':' delimiter")
                | EmptyString => Raises (ValueError "Expecting ':' delimiter")
                end
            | Raises e => Raises e
            end
          else Raises (ValueError "Expecting property name enclosed in double quotes")
      | EmptyString => Raises (ValueError "Expecting property name enclosed in double quotes")
      end
  end.

Definition load (text : string) : outcome value :=
  match read_value (2 * String.length text + 2) text with
  | Returns (v, r) =>
      match skip_ws r with
      | EmptyString => Returns v
      | String _ _ => Raises (ValueError "Extra data")
      end
  | Raises e => Raises e
  end.

End Json.

(** ** Reference builtins

    [str], [float] and [int] belong to Python as well.  This module gives
    a version of them on which the model runs.  [str] writes a float in
    its exact decimal expansion, where Python writes the shortest decimal
    that reads back as the same float, and a list or a dict as its JSON
    text, where Python writes its repr.  [float] and [int] read a decimal
    literal with an optional sign; Python also accepts blanks around it
    and underscores between digits, and [float] the words inf and nan. *)
Module Py.

Definition str (v : value) : string :=
  match v with
  | VNone => "None"
  | VBool true => "True"
  | VBool false => "False"
  | VInt n => Json.dump_int n
  | VFloat x => Json.dump_float x
  | VStr s => s
  | VList _ | VDict _ => Json.dump v
  end.

(** The sign at the front of a literal, and what follows it. *)
Definition read_sign (s : string) : bool * string :=
  match s with
  | String c rest =>
      if (Json.code c =? 45)%nat then (true, rest)
      else if (Json.code c =? 43)%nat then (false, rest)
      else (false, s)
  | EmptyString => (false, s)
  end.

Definition float (s : string) : outcome PrimFloat.float :=
  let refused := Raises (ValueError ("could not convert string to float: '" ++ s ++ "'")) in
  let '(negative, body) := read_sign s in
  let '(int_part, int_len, after_int) := Json.read_digits body 0 0 in
  let '(mantissa, frac_len, after_frac) :=
    match after_int with
    | String dot rest =>
        if (Json.code dot =? 46)%nat then Json.read_digits rest int_part 0
        else (int_part, 0%nat, after_int)
    | EmptyString => (int_part, 0%nat, after_int)
    end in
  if (int_len + frac_len =? 0)%nat then refused
  else
    match after_frac with
    | EmptyString => Returns (Json.float_of_decimal negative mantissa (- Z.of_nat frac_len))
    | String e rest =>
        if ((Json.code e =? 101) || (Json.code e =? 69))%nat then
          let '(exp_negative, digits) := read_sign rest in
          match Json.read_digits digits 0 0 with
          | (x, S _, EmptyString) =>
              Returns (Json.float_of_decimal negative mantissa
                         ((if exp_negative then (- x)%Z else x) - Z.of_nat frac_len))
          | _ => refused
          end
        else refused
    end.

Definition int (s : string) : outcome Z :=
  let '(negative, body) := read_sign s in
  match Json.read_digits body 0 0 with
  | (n, S _, EmptyString) => Returns (if negative then (- n)%Z else n)
  | _ => Raises (ValueError ("invalid literal for int() with base 10: '" ++ s ++ "'"))
  end.

End Py.

(** ** Vocabulary of the properties *)

(** The world after [if show_msg: messagebox...]. *)
Definition report (show_msg : bool) (d : dialog) (w : world) : world :=
  if show_msg then add_dialog d w else w.

(** The message box of the [except] clause that catches [e]. *)
Definition failure_dialog (e : exn) : dialog :=
  match e with
  | ValueError _ => MSG_NUMERIC
  | Exception _ => MSG_NOT_SAVED e
  end.

(** A numeric control holds a non-numeric value: reading it raises.  The
    [get()] of a Tk variable raises [TclError], which is not a
    [ValueError], for a text that is not a number; the cast around it
    raises [ValueError] or [OverflowError] for a float that is no
    integer. *)
Definition non_numeric {A} (o : outcome A) : Prop :=
  match o with
  | Raises _ => True
  | Returns _ => False
  end.

(** Reading a numeric control raises no exception other than
    [ValueError]. *)
Definition number_or_not {A} (o : outcome A) : Prop :=
  match o with
  | Raises (Exception _) => False
  | _ => True
  end.

Definition some_non_numeric (self : ScreensaverSettings) : Prop :=
  non_numeric (speed_var self) \/ non_numeric (population_var self)
  \/ non_numeric (scale_var self) \/ non_numeric (rand_var self)
  \/ non_numeric (bg_cycle_sec_var self).

Definition all_number_or_not (self : ScreensaverSettings) : Prop :=
  number_or_not (speed_var self) /\ number_or_not (population_var self)
  /\ number_or_not (scale_var self) /\ number_or_not (rand_var self)
  /\ number_or_not (bg_cycle_sec_var self).

(** The exception of the launch step, if the operating system refuses one
    of its two processes. *)
Definition launch_fault (w : world) : option exn :=
  match popen_fault w SERVER_CMD with
  | Some e => Some e
  | None => popen_fault w BROWSER_CMD
  end.

(** The keys of [self.char_vars], in the order of the dict. *)
Definition char_keys (self : ScreensaverSettings) : list string :=
  fst <$> char_vars self.


(** What stays true of a session started on the document [doc] with the
    catalog [assets]: the catalog is a snapshot, the checkboxes are those
    built from it, and the keys [save_config] does not write keep the
    value the document gave them. *)
Definition session_inv (doc : gmap string value) (assets : list string)
    (st : session) : Prop :=
  available_assets (fst st) = assets
  /\ char_keys (fst st) `sublist_of` assets
  /\ forall k, k ∉ managed_keys -> config_data (fst st) !! k = doc !! k.


(** ** Concrete sessions *)

Definition quiet_world (file : option string) (assets : option (list string)) : world :=
  {| config_file := file;
     assets_dir := assets;
     read_fault := None;
     write_fault := WriteOk;
     popen_fault := fun _ => None;
     dialogs := [];
     stdout := [];
     popen_calls := [];
     processes := [] |}.

(** The scenario of the stale reference: config.json selects ghost.svg
    and carries a key of a later schema; the assets directory holds a.svg
    and a file that is not an asset. *)
Definition ghost_doc : gmap string value :=
  <["enabled_characters" := VList [VStr "ghost.svg"]]>
    (<["theme" := VStr "dark"]> DEFAULT_CONFIG).

Definition ghost_world : world :=
  quiet_world (Some (Json.dump (VDict ghost_doc))) (Some ["a.svg"; "README.md"]).

Definition ghost_self : ScreensaverSettings :=
  {| config_data := ghost_doc;
     available_assets := ["a.svg"];
     speed_var := Returns 1.0%float;
     population_var := Returns 17%Z;
     scale_var := Returns 1.0%float;
     rand_var := Returns 0.5%float;
     bg_var := "pure-black";
     cycle_settings_var := false;
     bg_cycle_sec_var := Returns 10%Z;
     lens_var := "none";
     char_vars := [("a.svg", false)] |}.


(** The user ticks a.svg, then saves. *)
Definition ticked_session : session :=
  run Json.dump [Click "a.svg"] (ghost_self, ghost_world).

Definition saved_session : session :=
  snd (save_config Json.dump true ticked_session).

(** The [TclError] of a Tk variable whose content is the text [text]
    instead of a number. *)
Definition tcl_error (text : string) : exn :=
  Exception ("expected floating-point number but got "
             ++ Json.quote ++ text ++ Json.quote).

(** Controls with a text instead of a number. *)
Definition bad_speed_controls : controls :=
  {| c_speed := Raises (ValueError "could not convert string to float: 'fast'");
     c_population := Returns 17%Z;
     c_scale := Returns 1.0%float;
     c_rand := Returns 0.5%float;
     c_bg := "stars";
     c_cycle_settings := true;
     c_bg_cycle_sec := Returns 10%Z;
     c_lens := "trails" |}.

Definition bad_cycle_controls : controls :=
  {| c_speed := Returns 2.5%float;
     c_population := Returns 40%Z;
     c_scale := Returns 1.0%float;
     c_rand := Returns 0.5%float;
     c_bg := "random";
     c_cycle_settings := false;
     c_bg_cycle_sec := Raises (tcl_error "soon");
     c_lens := "none" |}.

(** No config.json and no assets directory. *)
Definition bare_world : world := quiet_world None None.

(** No config.json, three assets. *)
Definition fresh_world : world :=
  quiet_world None (Some ["a.svg"; "b.svg"; "c.svg"]).

(** config.json is not JSON. *)
Definition broken_world : world := quiet_world (Some "{oops") (Some ["a.svg"]).

(** The session started in [fresh_world] ticks every asset; the user
    unticks b.svg. *)
Definition fresh_self : ScreensaverSettings :=
  {| config_data :=
       <["enabled_characters" := VList [VStr "a.svg"; VStr "b.svg"; VStr "c.svg"]]>
         DEFAULT_CONFIG;
     available_assets := ["a.svg"; "b.svg"; "c.svg"];
     speed_var := Returns 1.0%float;
     population_var := Returns 17%Z;
     scale_var := Returns 1.0%float;
     rand_var := Returns 0.5%float;
     bg_var := "pure-black";
     cycle_settings_var := false;
     bg_cycle_sec_var := Returns 10%Z;
     lens_var := "none";
     char_vars := [("a.svg", true); ("b.svg", true); ("c.svg", true)] |}.

Definition unticked_session : session :=
  run Json.dump [Click "b.svg"] (fresh_self, fresh_world).

(** The browser of the preview is not installed. *)
Definition no_browser (w : world) : world :=
  set_faults None WriteOk
    (fun cmd =>
       match cmd with
       | "chromium-browser" :: _ =>
           Some (Exception "[Errno 2] No such file or directory: 'chromium-browser'")
       | _ => None
       end)
    w.

Definition resaved_session : session :=
  snd (save_config Json.dump true unticked_session).

(** ** Vocabulary of the further properties *)

(** A directory entry is a name without a slash. *)
Fixpoint plain_name (name : string) : bool :=
  match name with
  | EmptyString => true
  | String c rest => negb (Ascii.eqb c "/"%char) && plain_name rest
  end.

(** The checkbox [build_chars_tab] makes for an asset. *)
Definition checkbox_of (saved : list value) (asset : string) : string * bool :=
  (asset, py_in asset saved).

(** The exception of the first numeric control that cannot be read, in
    the order the dict display of [save_config] reads them. *)
Definition first_unreadable (self : ScreensaverSettings) : option exn :=
  match speed_var self with
  | Raises e => Some e
  | Returns _ =>
  match population_var self with
  | Raises e => Some e
  | Returns _ =>
  match scale_var self with
  | Raises e => Some e
  | Returns _ =>
  match rand_var self with
  | Raises e => Some e
  | Returns _ =>
  match bg_cycle_sec_var self with
  | Raises e => Some e
  | Returns _ => None
  end end end end end.

(** The environment [w'] continues [w]: the logs have grown at their
    end, nothing was printed, the assets directory is the same, and
    config.json, if it existed, still exists. *)
Definition continues (w w' : world) : Prop :=
  dialogs w `prefix_of` dialogs w'
  /\ popen_calls w `prefix_of` popen_calls w'
  /\ processes w `prefix_of` processes w'
  /\ stdout w' = stdout w
  /\ assets_dir w' = assets_dir w
  /\ (is_Some (config_file w) -> is_Some (config_file w')).

(** ** Further concrete sessions *)

(** An assets directory with entries that are not assets. *)
Definition cluttered_listing : list string :=
  ["b.svg"; ".hidden.svg"; "notes.txt"; "a.svg"; "c.SVG"; "svg"].

Definition cluttered_world : world := quiet_world None (Some cluttered_listing).

(** config.json selects b.svg and an asset that is gone; the catalog is
    a.svg, b.svg, c.svg. *)
Definition partial_doc : gmap string value :=
  <["enabled_characters" := VList [VStr "b.svg"; VStr "gone.svg"]]> DEFAULT_CONFIG.

Definition partial_world : world :=
  quiet_world (Some (Json.dump (VDict partial_doc))) (Some ["a.svg"; "b.svg"; "c.svg"]).

Definition partial_self : ScreensaverSettings :=
  {| config_data := partial_doc;
     available_assets := ["a.svg"; "b.svg"; "c.svg"];
     speed_var := Returns 1.0%float;
     population_var := Returns 17%Z;
     scale_var := Returns 1.0%float;
     rand_var := Returns 0.5%float;
     bg_var := "pure-black";
     cycle_settings_var := false;
     bg_cycle_sec_var := Returns 10%Z;
     lens_var := "none";
     char_vars := [("a.svg", false); ("b.svg", true); ("c.svg", false)] |}.

(** config.json holds a JSON list. *)
Definition list_world : world := quiet_world (Some "[1, 2]") (Some ["a.svg"]).

(** The speed cannot be read, with an exception that is not a
    [ValueError], and the cycle time is not a number. *)
Definition unreadable_controls : controls :=
  {| c_speed := Raises (Exception "expected floating-point number but got 'fast'");
     c_population := Returns 17%Z;
     c_scale := Returns 1.0%float;
     c_rand := Returns 0.5%float;
     c_bg := "random";
     c_cycle_settings := false;
     c_bg_cycle_sec := Raises (ValueError "invalid literal for int() with base 10: 'soon'");
     c_lens := "none" |}.

(** config.json cannot be opened for writing. *)
Definition read_only (w : world) : world :=
  set_faults None
    (OpenFails (Exception "[Errno 13] Permission denied: 'config.json'"))
    (fun _ => None) w.

(** The disk is full after the first character of the document. *)
Definition disk_full (w : world) : world :=
  set_faults None
    (DumpFails (Exception "[Errno 28] No space left on device") "{")
    (fun _ => None) w.

(** The interpreter of the web server is not installed. *)
Definition no_server (w : world) : world :=
  set_faults None WriteOk
    (fun cmd =>
       match cmd with
       | "python3" :: _ =>
           Some (Exception "[Errno 2] No such file or directory: 'python3'")
       | _ => None
       end)
    w.

(** The session that starts on a config.json that is not JSON. *)
Definition recovered_self : ScreensaverSettings :=
  {| config_data := <["enabled_characters" := VList [VStr "a.svg"]]> DEFAULT_CONFIG;
     available_assets := ["a.svg"];
     speed_var := Returns 1.0%float;
     population_var := Returns 17%Z;
     scale_var := Returns 1.0%float;
     rand_var := Returns 0.5%float;
     bg_var := "pure-black";
     cycle_settings_var := false;
     bg_cycle_sec_var := Returns 10%Z;
     lens_var := "none";
     char_vars := [("a.svg", true)] |}.

(** The session that starts without config.json and without assets. *)
Definition bare_self : ScreensaverSettings :=
  {| config_data := DEFAULT_CONFIG;
     available_assets := [];
     speed_var := Returns 1.0%float;
     population_var := Returns 17%Z;
     scale_var := Returns 1.0%float;
     rand_var := Returns 0.5%float;
     bg_var := "pure-black";
     cycle_settings_var := false;
     bg_cycle_sec_var := Returns 10%Z;
     lens_var := "none";
     char_vars := [] |}.

(** A config.json whose speed is a word. *)
Definition fast_doc : gmap string value := <["speed" := VStr "fast"]> DEFAULT_CONFIG.

Definition fast_world : world :=
  quiet_world (Some (Json.dump (VDict fast_doc))) (Some ["a.svg"]).

(** ** Vocabulary of the reference [json] module *)

(** The character of the decimal digit [d]. *)
Definition digit_char (d : Z) : ascii := ascii_of_nat (48 + Z.to_nat d).

(** A text that does not go on with a digit. *)
Definition no_digit (s : string) : Prop :=
  match s with
  | String c _ => Json.is_digit c = false
  | EmptyString => True
  end.

(** What follows a value in the text [dump] writes: nothing, a comma or
    a line break. *)
Definition ends_value (s : string) : Prop :=
  match s with
  | EmptyString => True
  | String c _ => c = ","%char \/ c = ascii_of_nat 10
  end.

(** A value of the declared schema: a scalar or a list of strings. *)
Definition schema_value (v : value) : Prop :=
  match v with
  | VList l => Forall (fun x => match x with VStr _ => True | _ => False end) l
  | VDict _ => False
  | _ => True
  end.

(** A document all of whose values are of the declared schema. *)
Definition schema_document (d : gmap string value) : Prop :=
  map_Forall (fun _ v => schema_value v) d.

#[global] Instance schema_value_dec v : Decision (schema_value v).
Proof.
  destruct v as [| | | | |l|]; try (left; exact I); [|right; exact id].
  apply Forall_dec. intros [| | | | | |]; (left; exact I) || (right; exact id).
Defined.

#[global] Instance schema_document_dec d : Decision (schema_document d).
Proof. unfold schema_document. apply _. Defined.

(** The text of one member of a dict written at [level]. *)
Definition member_text (level : nat) (kv : string * value) : string :=
  Json.dump_string kv.1 ++ ": " ++ Json.dump_at (S level) kv.2.

(** What [read_members] does once it has read the key and the colon of
    a member, with the outcome of reading the value. *)
Definition read_members_rest (fuel : nat) (key : string) (seen : gmap string value)
    (r : outcome (value * string)) : outcome (gmap string value * string) :=
  match r with
  | Returns (v, r3) =>
      match Json.skip_ws r3 with
      | String c r4 =>
          if (Json.code c =? 44)%nat then Json.read_members fuel r4 (<[key := v]> seen)
          else if (Json.code c =? 125)%nat then Returns (<[key := v]> seen, r4)
          else Raises (ValueError "Expecting ',' delimiter")
      | EmptyString => Raises (ValueError "Expecting ',' delimiter")
      end
  | Raises e => Raises e
  end.

(** * The reference [json] module reads what it writes

    [Json.load] gives back every document of the schema that [Json.dump]
    wrote: the digits of an integer are read as the integer, the exact
    decimal expansion of a float rounds to the float, the escapes of a
    string are undone, and the members of a dict are read in the order
    they were written. *)

(** ** Appending *)

Lemma append_cons a s t : String a s ++ t = String a (s ++ t).
Proof. reflexivity. Qed.

Lemma append_empty_l t : EmptyString ++ t = t.
Proof. reflexivity. Qed.

Lemma append_empty_r s : s ++ EmptyString = s.
Proof. induction s as [|a s IH]; [done|]. rewrite append_cons. by f_equal. Qed.

Lemma append_assoc (s t u : string) : (s ++ t) ++ u = s ++ (t ++ u).
Proof. induction s as [|a s IH]; [done|]. rewrite !append_cons. by f_equal. Qed.

Lemma length_append (s t : string) :
  String.length (s ++ t) = (String.length s + String.length t)%nat.
Proof. induction s as [|a s IH]; [done|]. rewrite append_cons. simpl. by rewrite IH. Qed.


(** ** Digits *)

Lemma code_digit_char d : (0 <= d < 10)%Z -> Json.code (digit_char d) = (48 + Z.to_nat d)%nat.
Proof.
  intros Hd. unfold Json.code, digit_char. apply nat_ascii_embedding. lia.
Qed.

Lemma is_digit_digit_char d : (0 <= d < 10)%Z -> Json.is_digit (digit_char d) = true.
Proof.
  intros Hd. unfold Json.is_digit. rewrite code_digit_char by done.
  apply andb_true_intro. split; apply Nat.leb_le; lia.
Qed.

Lemma read_digits_stop s acc count :
  no_digit s -> Json.read_digits s acc count = (acc, count, s).
Proof. destruct s as [|c s]; [done|]. simpl. by intros ->. Qed.

Lemma read_digits_fixed k : forall f acc a count,
  (0 <= f < 10 ^ Z.of_nat k)%Z ->
  Json.read_digits (Json.fixed_digits k f acc) a count
  = Json.read_digits acc (a * 10 ^ Z.of_nat k + f)%Z (count + k)%nat.
Proof.
  induction k as [|k IH]; intros f acc a count Hf.
  - simpl. f_equal; [|lia]. simpl in Hf. lia.
  - cbn [Json.fixed_digits].
    assert (Hpow : (10 ^ Z.of_nat (S k) = 10 * 10 ^ Z.of_nat k)%Z).
    { rewrite Nat2Z.inj_succ, Z.pow_succ_r by lia. done. }
    rewrite Hpow in Hf.
    assert (Hd : (0 <= f mod 10 < 10)%Z) by (apply Z.mod_pos_bound; lia).
    rewrite IH.
    + change (ascii_of_nat (48 + Z.to_nat (f mod 10))) with (digit_char (f mod 10)).
      cbn [Json.read_digits]. rewrite is_digit_digit_char, code_digit_char by done.
      f_equal; [|lia]. rewrite Hpow.
      replace (Z.of_nat (48 + Z.to_nat (f mod 10) - 48)) with (f mod 10)%Z by lia.
      pose proof (Z.div_mod f 10). lia.
    + split; [apply Z.div_pos; lia|]. apply Z.div_lt_upper_bound; lia.
Qed.

Lemma fixed_digits_acc k : forall f acc,
  Json.fixed_digits k f acc = Json.fixed_digits k f EmptyString ++ acc.
Proof.
  induction k as [|k IH]; intros f acc; [done|].
  cbn [Json.fixed_digits]. rewrite IH, (IH _ (String _ EmptyString)).
  by rewrite append_assoc.
Qed.

Lemma fixed_digits_head k : forall f acc,
  (0 <= f < 10 ^ Z.of_nat (S k))%Z ->
  exists tail,
    Json.fixed_digits (S k) f acc = String (digit_char (f / 10 ^ Z.of_nat k)) tail.
Proof.
  induction k as [|k IH]; intros f acc Hf.
  - exists acc. cbn [Json.fixed_digits]. unfold digit_char.
    change (10 ^ Z.of_nat 1)%Z with 10%Z in Hf.
    rewrite Z.mod_small by done. by rewrite Z.div_1_r.
  - assert (Hpow : forall n, (10 ^ Z.of_nat (S n) = 10 * 10 ^ Z.of_nat n)%Z).
    { intros n. rewrite Nat2Z.inj_succ, Z.pow_succ_r by lia. done. }
    change (Json.fixed_digits (S (S k)) f acc)
      with (Json.fixed_digits (S k) (f / 10)
              (String (ascii_of_nat (48 + Z.to_nat (f mod 10))) acc)).
    destruct (IH (f / 10)%Z (String (ascii_of_nat (48 + Z.to_nat (f mod 10))) acc))
      as [tail ->].
    + rewrite (Hpow (S k)) in Hf.
      split; [apply Z.div_pos; lia|]. apply Z.div_lt_upper_bound; lia.
    + exists tail. rewrite (Hpow k), Z.div_div by lia. done.
Qed.

(** [digits] writes a number with as many digits as it has. *)
Lemma digits_from_fixed fuel : forall n acc,
  (0 <= n < 2 ^ Z.of_nat (S fuel))%Z ->
  exists k,
    Json.digits_from (S fuel) n acc = Json.fixed_digits (S k) n acc
    /\ (n < 10 ^ Z.of_nat (S k))%Z
    /\ (0 < n -> 10 ^ Z.of_nat k <= n)%Z.
Proof.
  induction fuel as [|fuel IH]; intros n acc Hn.
  - exists 0%nat. change (2 ^ Z.of_nat 1)%Z with 2%Z in Hn.
    cbn [Json.digits_from]. destruct (Z.ltb_spec n 10); [|lia].
    split; [done|]. simpl. lia.
  - remember (S fuel) as fuel' eqn:Hfuel.
    cbn [Json.digits_from]. destruct (Z.ltb_spec n 10) as [Hlt|Hge].
    + exists 0%nat. split; [done|]. simpl. lia.
    + subst fuel'.
      destruct (IH (n / 10)%Z (String (ascii_of_nat (48 + Z.to_nat (n mod 10))) acc))
        as (k & -> & Hk & Hk').
      * rewrite (Nat2Z.inj_succ (S fuel)), Z.pow_succ_r in Hn by lia.
        split; [apply Z.div_pos; lia|]. apply Z.div_lt_upper_bound; lia.
      * exists (S k). split; [done|].
        assert (Hpow : forall m, (10 ^ Z.of_nat (S m) = 10 * 10 ^ Z.of_nat m)%Z).
        { intros m. rewrite Nat2Z.inj_succ, Z.pow_succ_r by lia. done. }
        assert (0 < n / 10)%Z by (apply Z.div_str_pos; lia).
        pose proof (Z.div_mod n 10). pose proof (Z.mod_pos_bound n 10).
        split; [rewrite (Hpow (S k))|rewrite (Hpow k)]; lia.
Qed.

Lemma digits_fixed n :
  (0 <= n)%Z ->
  exists k,
    Json.digits n = Json.fixed_digits (S k) n EmptyString
    /\ (n < 10 ^ Z.of_nat (S k))%Z
    /\ (0 < n -> 10 ^ Z.of_nat k <= n)%Z.
Proof.
  intros Hn. unfold Json.digits. apply digits_from_fixed. split; [done|].
  rewrite Nat2Z.inj_succ, Z2Nat.id by apply Z.log2_nonneg.
  destruct (Z.eq_dec n 0%Z) as [->|]; [done|]. apply Z.log2_spec. lia.
Qed.

(** ** Rounding a float that is exact *)

Lemma iter_pos_nat {A} (f : A -> A) p : forall x,
  SpecFloat.iter_pos f p x = Nat.iter (Pos.to_nat p) f x.
Proof.
  induction p as [p IH|p IH|]; intros x; cbn [SpecFloat.iter_pos].
  - rewrite !IH, <- Nat.iter_add, <- Nat.iter_succ_r. f_equal. lia.
  - rewrite !IH, <- Nat.iter_add. f_equal. lia.
  - reflexivity.
Qed.

Lemma shr_1_shifted n : forall m,
  Nat.iter n shr_1 {| shr_m := Zpos (Pos.shiftl_nat m n); shr_r := false; shr_s := false |}
  = {| shr_m := Zpos m; shr_r := false; shr_s := false |}.
Proof.
  induction n as [|n IH]; intros m; [done|].
  rewrite Nat.iter_succ_r.
  change (Pos.shiftl_nat m (S n)) with (xO (Pos.shiftl_nat m n)).
  cbn [shr_1 orb]. apply IH.
Qed.

Lemma shiftl_nat_pow2 m n : Zpos (Pos.shiftl_nat m n) = (Zpos m * 2 ^ Z.of_nat n)%Z.
Proof.
  induction n as [|n IH]; [simpl; lia|].
  rewrite Nat2Z.inj_succ, Z.pow_succ_r by lia.
  change (Pos.shiftl_nat m (S n)) with (xO (Pos.shiftl_nat m n)).
  rewrite Pos2Z.inj_xO, IH. lia.
Qed.

Lemma digits2_shiftl_nat m n :
  Zpos (digits2_pos (Pos.shiftl_nat m n)) = (Zpos (digits2_pos m) + Z.of_nat n)%Z.
Proof.
  induction n as [|n IH]; [simpl; lia|].
  change (Pos.shiftl_nat m (S n)) with (xO (Pos.shiftl_nat m n)).
  cbn [digits2_pos]. rewrite Pos2Z.inj_succ, IH. lia.
Qed.

Lemma digits2_log2 m : Zpos (digits2_pos m) = (Z.log2 (Zpos m) + 1)%Z.
Proof.
  assert (Hsize : forall p, digits2_pos p = Pos.size p).
  { induction p as [p IH|p IH|]; simpl; by rewrite ?IH. }
  destruct m as [p|p|]; simpl; rewrite ?Hsize; lia.
Qed.

(** A mantissa and an exponent that denote a float, with the mantissa
    shifted to the left, are rounded to this float. *)
Lemma binary_round_shifted sx mx ex t :
  bounded prec emax mx ex = true ->
  binary_round prec emax sx (Pos.shiftl_nat mx t) (ex - Z.of_nat t) = S754_finite sx mx ex.
Proof.
  intros [Hcanon Hmax]%andb_prop.
  unfold canonical_mantissa in Hcanon. apply Z.eqb_eq in Hcanon.
  unfold binary_round.
  replace (Zpos (digits2_pos (Pos.shiftl_nat mx t)) + (ex - Z.of_nat t))%Z
    with (Zpos (digits2_pos mx) + ex)%Z by (rewrite digits2_shiftl_nat; lia).
  rewrite Hcanon. unfold shl_align.
  destruct (ex - (ex - Z.of_nat t))%Z as [|d|d] eqn:Hd; [| |lia];
    unfold binary_round_aux, shr_fexp, Zdigits2;
    replace (Zpos (digits2_pos (Pos.shiftl_nat mx t)) + (ex - Z.of_nat t))%Z
      with (Zpos (digits2_pos mx) + ex)%Z by (rewrite digits2_shiftl_nat; lia);
    rewrite Hcanon, Hd; cbn [shr_record_of_loc shr].
  - assert (t = 0)%nat as -> by lia. change (Pos.shiftl_nat mx 0) with mx.
    cbn [shr_m loc_of_shr_record round_nearest_even].
    replace (ex - Z.of_nat 0)%Z with ex by lia.
    rewrite Hcanon, Z.sub_diag. cbn [shr_record_of_loc shr shr_m]. by rewrite Hmax.
  - rewrite iter_pos_nat.
    replace (Pos.to_nat d) with t by lia. rewrite shr_1_shifted.
    cbn [shr_m loc_of_shr_record round_nearest_even].
    replace (ex - Z.of_nat t + Zpos d)%Z with ex by lia.
    rewrite Hcanon, Z.sub_diag. cbn [shr_record_of_loc shr shr_m]. by rewrite Hmax.
Qed.

Lemma bounded_log2 mx ex :
  bounded prec emax mx ex = true -> (Z.log2 (Zpos mx) <= 52)%Z.
Proof.
  intros [Hcanon _]%andb_prop.
  unfold canonical_mantissa, fexp in Hcanon. apply Z.eqb_eq in Hcanon.
  rewrite digits2_log2 in Hcanon. unfold prec in Hcanon. lia.
Qed.

(** The decimal [M / 10^j] of a float is read as this float. *)
Lemma float_of_decimal_exact sgn M j mx ex :
  (0 < M)%Z -> (0 < j)%Z ->
  bounded prec emax mx ex = true ->
  (if (0 <=? ex)%Z then M = Zpos mx * 2 ^ ex * 10 ^ j
   else M * 2 ^ (- ex) = Zpos mx * 10 ^ j)%Z ->
  Json.float_of_decimal sgn M (- j) = SF2Prim (S754_finite sgn mx ex).
Proof.
  intros HM Hj Hb Hval. unfold Json.float_of_decimal.
  destruct (Z.eqb_spec M 0); [lia|].
  destruct (Z.leb_spec 0 (- j)); [lia|].
  replace (- - j)%Z with j by lia.
  set (Q := (10 ^ j)%Z) in *.
  assert (HQ : (0 < Q)%Z) by (apply Z.pow_pos_nonneg; lia).
  set (s := Z.max 0 (66 + Z.log2 Q - Z.log2 M)).
  assert (Hs : (0 <= s /\ 0 <= ex + s)%Z).
  { split; [lia|]. destruct (Z.leb_spec 0 ex) as [Hex|Hex]; [lia|].
    pose proof (bounded_log2 _ _ Hb) as Hlog.
    assert (Hl1 : (Z.log2 (M * 2 ^ (- ex)) = - ex + Z.log2 M)%Z)
      by (apply Z.log2_mul_pow2; lia).
    assert (Hl2 : (Z.log2 (Zpos mx * Q) <= Z.log2 (Zpos mx) + Z.log2 Q + 1)%Z)
      by (apply Z.log2_mul_above; lia).
    rewrite Hval in Hl1. lia. }
  destruct Hs as [Hs0 Hs1].
  assert (Hnum : (M * 2 ^ s = Zpos mx * 2 ^ (ex + s) * Q)%Z).
  { destruct (Z.leb_spec 0 ex) as [Hex|Hex].
    - rewrite Hval, Z.pow_add_r by lia. subst Q. ring.
    - replace s with (- ex + (ex + s))%Z at 1 by lia.
      rewrite Z.pow_add_r by lia.
      replace (M * (2 ^ (- ex) * 2 ^ (ex + s)))%Z with (M * 2 ^ (- ex) * 2 ^ (ex + s))%Z
        by ring.
      rewrite Hval. ring. }
  rewrite Hnum, Z.div_mul, Z.mod_mul by lia. simpl (0 =? 0)%Z. cbv iota.
  replace (2 * (Zpos mx * 2 ^ (ex + s)) + 0)%Z
    with (Zpos (Pos.shiftl_nat mx (Z.to_nat (ex + s + 1)))).
  2:{ rewrite shiftl_nat_pow2, Z2Nat.id by lia.
      rewrite (Z.pow_add_r 2 (ex + s) 1) by lia. lia. }
  replace (- s - 1)%Z with (ex - Z.of_nat (Z.to_nat (ex + s + 1)))%Z by lia.
  f_equal. destruct sgn; cbn [Z.opp binary_normalize]; by apply binary_round_shifted.
Qed.

Lemma ends_value_no_digit s : ends_value s -> no_digit s.
Proof. destruct s as [|c s]; [done|]. by intros [->| ->]. Qed.

(** ** Numbers *)

Lemma digits_zero : Json.digits 0 = "0".
Proof. reflexivity. Qed.

Lemma digits_head ip X :
  (0 <= ip)%Z ->
  exists d tail, (0 <= d < 10)%Z /\ Json.digits ip ++ X = String (digit_char d) tail.
Proof.
  intros Hip. destruct (digits_fixed ip Hip) as (k & -> & Hk & _).
  rewrite <- fixed_digits_acc.
  destruct (fixed_digits_head k ip X) as [tail ->]; [lia|].
  exists (ip / 10 ^ Z.of_nat k)%Z, tail. split; [|done].
  assert (0 < 10 ^ Z.of_nat k)%Z by (apply Z.pow_pos_nonneg; lia).
  split; [apply Z.div_pos; lia|].
  apply Z.div_lt_upper_bound; [lia|].
  rewrite Nat2Z.inj_succ, Z.pow_succ_r in Hk by lia. lia.
Qed.

(** The integer part of a number is read back, a zero standing alone. *)
Lemma read_int_part ip X :
  (0 <= ip)%Z -> no_digit X ->
  exists c tail n,
    Json.digits ip ++ X = String c tail
    /\ Json.is_digit c = true
    /\ (if (Json.code c =? 48)%nat then (0%Z, 1%nat, tail)
        else Json.read_digits (String c tail) 0 0) = (ip, n, X).
Proof.
  intros Hip HX. destruct (Z.eq_dec ip 0%Z) as [->|Hne].
  - exists "0"%char, X, 1%nat. by rewrite digits_zero.
  - destruct (digits_fixed ip Hip) as (k & Hd & Hk & Hk').
    assert (Hpow : (0 < 10 ^ Z.of_nat k)%Z) by (apply Z.pow_pos_nonneg; lia).
    assert (Hlow : (10 ^ Z.of_nat k <= ip)%Z) by (apply Hk'; lia).
    destruct (fixed_digits_head k ip X) as [tail Htail]; [lia|].
    assert (Hdigit : (1 <= ip / 10 ^ Z.of_nat k < 10)%Z).
    { split; [apply Z.div_le_lower_bound; lia|].
      apply Z.div_lt_upper_bound; [lia|].
      rewrite Nat2Z.inj_succ, Z.pow_succ_r in Hk by lia. lia. }
    exists (digit_char (ip / 10 ^ Z.of_nat k)), tail, (S k).
    rewrite Hd, <- fixed_digits_acc, Htail.
    split; [done|]. split; [apply is_digit_digit_char; lia|].
    rewrite code_digit_char by lia.
    destruct (Nat.eqb_spec (48 + Z.to_nat (ip / 10 ^ Z.of_nat k)) 48); [lia|].
    rewrite <- Htail, read_digits_fixed by lia.
    rewrite read_digits_stop by done. f_equal.
Qed.

Lemma read_number_int negative ip rest :
  (0 <= ip)%Z -> ends_value rest ->
  Json.read_number negative (Json.digits ip ++ rest)
  = Returns (VInt (if negative then (- ip)%Z else ip), rest).
Proof.
  intros Hip Hrest.
  destruct (read_int_part ip rest Hip (ends_value_no_digit _ Hrest))
    as (c & tail & n & -> & Hc & Hint).
  unfold Json.read_number. rewrite Hc, Hint.
  destruct rest as [|e rest]; [done|]. by destruct Hrest as [->| ->].
Qed.

Lemma read_number_decimal negative ip k f rest :
  (0 <= ip)%Z -> (0 <= f < 10 ^ Z.of_nat (S k))%Z -> ends_value rest ->
  Json.read_number negative
    (Json.digits ip ++ "." ++ Json.fixed_digits (S k) f EmptyString ++ rest)
  = Returns
      (VFloat (Json.float_of_decimal negative (ip * 10 ^ Z.of_nat (S k) + f)
                 (0 - Z.of_nat (S k))),
       rest).
Proof.
  intros Hip Hf Hrest.
  rewrite <- fixed_digits_acc.
  change ("." ++ Json.fixed_digits (S k) f rest)
    with (String "."%char (Json.fixed_digits (S k) f rest)).
  destruct (read_int_part ip (String "."%char (Json.fixed_digits (S k) f rest)) Hip)
    as (c & tail & n & -> & Hc & Hint); [done|].
  unfold Json.read_number. rewrite Hc, Hint.
  cbv beta iota. change (Json.code "." =? 46)%nat with true. cbv iota.
  rewrite read_digits_fixed by done.
  rewrite read_digits_stop by (by apply ends_value_no_digit).
  change (0 + S k)%nat with (S k). cbv beta iota.
  destruct rest as [|e rest]; [done|]. by destruct Hrest as [->| ->].
Qed.

(** ** The first character of a number decides how it is read *)

Lemma read_value_digit fuel d tail :
  (0 <= d < 10)%Z ->
  Json.read_value (S fuel) (String (digit_char d) tail)
  = Json.read_number false (String (digit_char d) tail).
Proof.
  intros Hd.
  assert (d = 0 \/ d = 1 \/ d = 2 \/ d = 3 \/ d = 4 \/ d = 5 \/ d = 6 \/ d = 7
          \/ d = 8 \/ d = 9)%Z as Hcases by lia.
  repeat (destruct Hcases as [->|Hcases]; [reflexivity|]). by subst.
Qed.

Lemma read_value_minus fuel d tail :
  (0 <= d < 10)%Z ->
  Json.read_value (S fuel) (String "-"%char (String (digit_char d) tail))
  = Json.read_number true (String (digit_char d) tail).
Proof.
  intros Hd.
  assert (d = 0 \/ d = 1 \/ d = 2 \/ d = 3 \/ d = 4 \/ d = 5 \/ d = 6 \/ d = 7
          \/ d = 8 \/ d = 9)%Z as Hcases by lia.
  repeat (destruct Hcases as [->|Hcases]; [reflexivity|]). by subst.
Qed.

Lemma read_value_int fuel n rest :
  ends_value rest ->
  Json.read_value (S fuel) (Json.dump_int n ++ rest) = Returns (VInt n, rest).
Proof.
  intros Hrest. unfold Json.dump_int. destruct (Z.ltb_spec n 0) as [Hneg|Hpos].
  - rewrite append_assoc.
    change ("-" ++ (Json.digits (- n) ++ rest))
      with (String "-"%char (Json.digits (- n) ++ rest)).
    destruct (digits_head (- n) rest) as (d & tail & Hd & Heq); [lia|].
    rewrite Heq, read_value_minus, <- Heq by done.
    rewrite read_number_int by (done || lia). by rewrite Z.opp_involutive.
  - destruct (digits_head n rest) as (d & tail & Hd & Heq); [lia|].
    rewrite Heq, read_value_digit, <- Heq by done.
    by rewrite read_number_int.
Qed.

(** ** Floats *)

Lemma strip_zeros_spec k : forall f,
  (0 <= f < 10 ^ Z.of_nat (S k))%Z ->
  exists k' f',
    Json.strip_zeros (S k) f = (S k', f')
    /\ (k' <= k)%nat
    /\ (0 <= f' < 10 ^ Z.of_nat (S k'))%Z
    /\ f = (f' * 10 ^ Z.of_nat (k - k'))%Z.
Proof.
  induction k as [|k IH]; intros f Hf.
  - exists 0%nat, f. repeat split; try done; try lia. simpl. lia.
  - change (Json.strip_zeros (S (S k)) f)
      with (if (f mod 10 =? 0)%Z then Json.strip_zeros (S k) (f / 10) else (S (S k), f)).
    destruct (Z.eqb_spec (f mod 10) 0) as [Hz|Hnz].
    + destruct (IH (f / 10)%Z) as (k' & f' & -> & Hk' & Hf' & Heq).
      * rewrite (Nat2Z.inj_succ (S k)), Z.pow_succ_r in Hf by lia.
        split; [apply Z.div_pos; lia|]. apply Z.div_lt_upper_bound; lia.
      * exists k', f'. split; [done|]. split; [lia|]. split; [done|].
        replace (S k - k')%nat with (S (k - k')) by lia.
        rewrite Nat2Z.inj_succ, Z.pow_succ_r by lia.
        pose proof (Z.div_mod f 10). lia.
    + exists (S k), f. split; [done|]. split; [lia|]. split; [done|].
      rewrite Nat.sub_diag. simpl. lia.
Qed.

(** The text of a finite float starts with a digit and is read as the
    float. *)
Lemma read_number_finite negative mx ex rest :
  bounded prec emax mx ex = true ->
  ends_value rest ->
  Json.read_number negative
    (match ex with
     | Zneg k => Json.decimal (Zpos mx * 5 ^ Zpos k) (Pos.to_nat k)
     | _ => Json.digits (Zpos mx * 2 ^ ex) ++ ".0"
     end ++ rest)
  = Returns (VFloat (SF2Prim (S754_finite negative mx ex)), rest).
Proof.
  intros Hb Hrest.
  assert (Hnonneg : (0 <= ex)%Z ->
    Json.read_number negative ((Json.digits (Zpos mx * 2 ^ ex) ++ ".0") ++ rest)
    = Returns (VFloat (SF2Prim (S754_finite negative mx ex)), rest)).
  { intros Hex. rewrite append_assoc.
    change (".0" ++ rest) with ("." ++ Json.fixed_digits 1 0 EmptyString ++ rest).
    assert (0 < 2 ^ ex)%Z by (apply Z.pow_pos_nonneg; lia).
    rewrite read_number_decimal by (done || simpl; lia).
    do 3 f_equal.
    apply (float_of_decimal_exact negative _ 1); [simpl; lia|lia|done|].
    destruct (Z.leb_spec 0 ex); [|lia]. simpl. lia. }
  destruct ex as [|p|p]; [by apply Hnonneg|by apply Hnonneg|].
  unfold Json.decimal.
  set (k := Pos.to_nat p). set (N := (Zpos mx * 5 ^ Zpos p)%Z).
  assert (Hk : (Z.of_nat k = Zpos p)%Z) by (subst k; lia).
  assert (Hpow : (0 < 10 ^ Z.of_nat k)%Z) by (apply Z.pow_pos_nonneg; lia).
  assert (HN : (0 < N)%Z).
  { subst N. apply Z.mul_pos_pos; [lia|]. apply Z.pow_pos_nonneg; lia. }
  destruct k as [|k0] eqn:Hk0; [lia|].
  destruct (strip_zeros_spec k0 (N mod 10 ^ Z.of_nat (S k0))%Z)
    as (k' & f' & -> & Hk' & Hf' & Heq); [apply Z.mod_pos_bound; lia|].
  rewrite !append_assoc.
  rewrite read_number_decimal; [|apply Z.div_pos; lia|done|done].
  do 3 f_equal. replace (0 - Z.of_nat (S k'))%Z with (- Z.of_nat (S k'))%Z by lia.
  set (M := (N / 10 ^ Z.of_nat (S k0) * 10 ^ Z.of_nat (S k') + f')%Z).
  assert (Hsplit : (Z.of_nat (S k0) = Z.of_nat (k0 - k') + Z.of_nat (S k'))%Z) by lia.
  assert (Hp1 : (0 < 10 ^ Z.of_nat (k0 - k'))%Z) by (apply Z.pow_pos_nonneg; lia).
  assert (Hp2 : (0 < 10 ^ Z.of_nat (S k'))%Z) by (apply Z.pow_pos_nonneg; lia).
  assert (HM : (M * 10 ^ Z.of_nat (k0 - k') = N)%Z).
  { subst M.
    assert (Hpw : (10 ^ Z.of_nat (S k0)
                   = 10 ^ Z.of_nat (k0 - k') * 10 ^ Z.of_nat (S k'))%Z)
      by (rewrite <- Z.pow_add_r by lia; f_equal; lia).
    transitivity (10 ^ Z.of_nat (S k0) * (N / 10 ^ Z.of_nat (S k0))
                  + N mod 10 ^ Z.of_nat (S k0))%Z; [|symmetry; apply Z.div_mod; lia].
    rewrite Heq. rewrite Hpw at 2. ring. }
  apply float_of_decimal_exact; [nia|lia|done|].
  change (0 <=? Zneg p)%Z with false. cbv iota.
  change (- Zneg p)%Z with (Zpos p). rewrite <- Hk.
  apply (Z.mul_reg_r _ _ (10 ^ Z.of_nat (k0 - k'))); [lia|].
  replace (M * 2 ^ Z.of_nat (S k0) * 10 ^ Z.of_nat (k0 - k'))%Z
    with (M * 10 ^ Z.of_nat (k0 - k') * 2 ^ Z.of_nat (S k0))%Z by ring.
  rewrite HM. subst N. rewrite <- Hk.
  replace (Zpos mx * 10 ^ Z.of_nat (S k') * 10 ^ Z.of_nat (k0 - k'))%Z
    with (Zpos mx * (10 ^ Z.of_nat (k0 - k') * 10 ^ Z.of_nat (S k')))%Z by ring.
  rewrite <- Z.pow_add_r, <- Hsplit by lia.
  replace 10%Z with (5 * 2)%Z at 1 by lia. rewrite Z.pow_mul_l. ring.
Qed.

Lemma finite_head mx ex rest :
  exists d tail,
    (0 <= d < 10)%Z
    /\ match ex with
       | Zneg k => Json.decimal (Zpos mx * 5 ^ Zpos k) (Pos.to_nat k)
       | _ => Json.digits (Zpos mx * 2 ^ ex) ++ ".0"
       end ++ rest
       = String (digit_char d) tail.
Proof.
  assert (Hpos : forall e, (0 <= e)%Z -> (0 <= Zpos mx * 2 ^ e)%Z).
  { intros e He. apply Z.mul_nonneg_nonneg; [lia|]. apply Z.pow_nonneg. lia. }
  destruct ex as [|p|p].
  - rewrite append_assoc. apply digits_head. by apply Hpos.
  - rewrite append_assoc. apply digits_head. by apply Hpos.
  - unfold Json.decimal. destruct (Json.strip_zeros _ _) as [k' f'].
    rewrite append_assoc. apply digits_head. apply Z.div_pos.
    + apply Z.mul_nonneg_nonneg; [lia|]. apply Z.pow_nonneg. lia.
    + apply Z.pow_pos_nonneg; lia.
Qed.

(** ** Words *)

Lemma substring_all s : String.substring 0 (String.length s) s = s.
Proof. induction s as [|c s IH]; [done|]. simpl. by rewrite IH. Qed.

Lemma prefix_append p rest : String.prefix p (p ++ rest) = true.
Proof.
  induction p as [|a p IH]; [by destruct rest|].
  rewrite append_cons. simpl. by destruct (ascii_dec a a).
Qed.

Lemma substring_append p rest :
  String.substring (String.length p) (String.length rest) (p ++ rest) = rest.
Proof.
  induction p as [|a p IH]; [apply substring_all|].
  rewrite append_cons. simpl. apply IH.
Qed.

Lemma starts_with_append p rest : Json.starts_with p (p ++ rest) = Some rest.
Proof.
  unfold Json.starts_with. rewrite prefix_append, length_append.
  replace (String.length p + String.length rest - String.length p)%nat
    with (String.length rest) by lia.
  by rewrite substring_append.
Qed.

Lemma read_value_null fuel rest :
  Json.read_value (S fuel) ("null" ++ rest) = Returns (VNone, rest).
Proof.
  transitivity (match Json.starts_with "null" ("null" ++ rest) with
                | Some r => Returns (VNone, r)
                | None => Raises (ValueError "Expecting value")
                end); [reflexivity|by rewrite starts_with_append].
Qed.

Lemma read_value_true fuel rest :
  Json.read_value (S fuel) ("true" ++ rest) = Returns (VBool true, rest).
Proof.
  transitivity (match Json.starts_with "true" ("true" ++ rest) with
                | Some r => Returns (VBool true, r)
                | None => Raises (ValueError "Expecting value")
                end); [reflexivity|by rewrite starts_with_append].
Qed.

Lemma read_value_false fuel rest :
  Json.read_value (S fuel) ("false" ++ rest) = Returns (VBool false, rest).
Proof.
  transitivity (match Json.starts_with "false" ("false" ++ rest) with
                | Some r => Returns (VBool false, r)
                | None => Raises (ValueError "Expecting value")
                end); [reflexivity|by rewrite starts_with_append].
Qed.

Lemma read_value_float fuel x rest :
  ends_value rest ->
  Json.read_value (S fuel) (Json.dump_float x ++ rest) = Returns (VFloat x, rest).
Proof.
  intros Hrest. unfold Json.dump_float.
  pose proof (Prim2SF_valid x) as Hvalid.
  rewrite <- (SF2Prim_Prim2SF x) at 2.
  destruct (Prim2SF x) as [[|]|[|]| |s mx ex].
  - destruct rest as [|c rest]; [reflexivity|]. by destruct Hrest as [->| ->].
  - destruct rest as [|c rest]; [reflexivity|]. by destruct Hrest as [->| ->].
  - transitivity (match Json.starts_with "Infinity" ("Infinity" ++ rest) with
                  | Some r => Returns (VFloat neg_infinity, r)
                  | None => Raises (ValueError "Expecting value")
                  end); [reflexivity|by rewrite starts_with_append].
  - transitivity (match Json.starts_with "Infinity" ("Infinity" ++ rest) with
                  | Some r => Returns (VFloat infinity, r)
                  | None => Raises (ValueError "Expecting value")
                  end); [reflexivity|by rewrite starts_with_append].
  - transitivity (match Json.starts_with "NaN" ("NaN" ++ rest) with
                  | Some r => Returns (VFloat nan, r)
                  | None => Raises (ValueError "Expecting value")
                  end); [reflexivity|by rewrite starts_with_append].
  - simpl in Hvalid.
    destruct (finite_head mx ex rest) as (d & tail & Hd & Heq).
    destruct s.
    + rewrite append_assoc.
      change ("-" ++ ?t) with (String "-"%char t).
      rewrite Heq, read_value_minus, <- Heq by done.
      by apply read_number_finite.
    + rewrite append_empty_l.
      rewrite Heq, read_value_digit, <- Heq by done.
      by apply read_number_finite.
Qed.

(** ** Strings *)

Lemma read_string_dump_char c tail :
  Json.read_string (Json.dump_char c ++ tail)
  = match Json.read_string tail with
    | Returns (str, r) => Returns (String c str, r)
    | Raises e => Raises e
    end.
Proof. destruct c as [[] [] [] [] [] [] [] []]; reflexivity. Qed.

Lemma read_string_dump_chars s rest :
  Json.read_string (Json.dump_chars s ++ Json.quote ++ rest) = Returns (s, rest).
Proof.
  induction s as [|c s IH]; [reflexivity|].
  cbn [Json.dump_chars]. by rewrite append_assoc, read_string_dump_char, IH.
Qed.

Lemma read_value_string fuel s rest :
  Json.read_value (S fuel) (Json.dump_string s ++ rest) = Returns (VStr s, rest).
Proof.
  unfold Json.dump_string. rewrite !append_assoc.
  transitivity (match Json.read_string (Json.dump_chars s ++ Json.quote ++ rest) with
                | Returns (str, r) => Returns (VStr str, r)
                | Raises e => Raises e
                end); [reflexivity|by rewrite read_string_dump_chars].
Qed.

(** ** Blanks *)

Lemma skip_ws_newline s : Json.skip_ws (newline ++ s) = Json.skip_ws s.
Proof. reflexivity. Qed.

Lemma skip_ws_indent n s : Json.skip_ws (Json.indent n ++ s) = Json.skip_ws s.
Proof.
  unfold Json.indent. induction n as [|n IH]; [done|].
  cbn [Json.repeat_string]. rewrite append_assoc. apply IH.
Qed.

Lemma skip_ws_skip_ws s : Json.skip_ws (Json.skip_ws s) = Json.skip_ws s.
Proof.
  induction s as [|c s IH]; [done|]. simpl.
  destruct (Json.is_ws c) eqn:Hc; [done|]. simpl. by rewrite Hc.
Qed.

Lemma read_value_skip_ws fuel s :
  Json.read_value fuel s = Json.read_value fuel (Json.skip_ws s).
Proof.
  destruct fuel as [|fuel]; [done|].
  cbn [Json.read_value]. by rewrite skip_ws_skip_ws.
Qed.

(** ** Lists of strings *)

Lemma join_cons sep s t tl :
  Json.join sep (s :: t :: tl) = s ++ sep ++ Json.join sep (t :: tl).
Proof. reflexivity. Qed.

Lemma length_dump_string s : (2 <= String.length (Json.dump_string s))%nat.
Proof. unfold Json.dump_string. rewrite !length_append. simpl. lia. Qed.

Lemma dump_string_head s rest :
  exists tail, Json.dump_string s ++ rest = String (ascii_of_nat 34) tail.
Proof. unfold Json.dump_string. rewrite append_assoc. by eexists. Qed.

Lemma read_elements_unfold fuel s seen :
  Json.read_elements (S fuel) s seen
  = match Json.read_value fuel s with
    | Returns (v, r) =>
        match Json.skip_ws r with
        | String c r' =>
            if (Json.code c =? 44)%nat then Json.read_elements fuel r' (List.app seen [v])
            else if (Json.code c =? 93)%nat then Returns (List.app seen [v], r')
            else Raises (ValueError "Expecting ',' delimiter")
        | EmptyString => Raises (ValueError "Expecting ',' delimiter")
        end
    | Raises e => Raises e
    end.
Proof. reflexivity. Qed.

Lemma read_elements_strings level rest ss : forall seen fuel,
  ss <> [] ->
  (String.length (Json.join ("," ++ newline ++ Json.indent (S level))
                    (Json.dump_string <$> ss)) <= fuel)%nat ->
  Json.read_elements fuel
    (newline ++ Json.indent (S level)
     ++ Json.join ("," ++ newline ++ Json.indent (S level)) (Json.dump_string <$> ss)
     ++ newline ++ Json.indent level ++ "]" ++ rest) seen
  = Returns ((seen ++ (VStr <$> ss))%list, rest).
Proof.
  induction ss as [|s ss IH]; intros seen fuel Hne Hfuel; [done|].
  pose proof (length_dump_string s) as Hlen.
  destruct ss as [|t ss].
  - cbn [fmap list_fmap Json.join] in *.
    destruct fuel as [|[|fuel]]; [lia|lia|].
    rewrite read_elements_unfold, read_value_skip_ws.
    rewrite skip_ws_newline, skip_ws_indent, <- read_value_skip_ws.
    rewrite read_value_string.
    rewrite skip_ws_newline, skip_ws_indent. reflexivity.
  - rewrite fmap_cons, (fmap_cons _ t), join_cons in *.
    rewrite !length_append in Hfuel.
    destruct fuel as [|[|fuel]]; [lia|lia|].
    rewrite read_elements_unfold, read_value_skip_ws.
    rewrite skip_ws_newline, skip_ws_indent, <- read_value_skip_ws.
    rewrite !append_assoc, read_value_string.
    change (Json.skip_ws ("," ++ ?t)) with (String ","%char t).
    cbv beta iota. change (Json.code "," =? 44)%nat with true. cbv iota.
    rewrite <- (fmap_cons Json.dump_string t).
    rewrite IH; [|done|simpl in Hfuel |- *; lia].
    by rewrite <- app_assoc.
Qed.

Lemma strings_of l :
  Forall (fun x => match x with VStr _ => True | _ => False end) l ->
  exists ss, l = VStr <$> ss.
Proof.
  induction 1 as [|x l Hx _ [ss ->]]; [by exists []|].
  destruct x as [| | | |s| |]; try done. by exists (s :: ss).
Qed.

Lemma dump_at_strings level ss :
  Json.dump_at level (VList (VStr <$> ss))
  = Json.block "[" "]" level (Json.dump_string <$> ss).
Proof.
  change (Json.dump_at level (VList (VStr <$> ss)))
    with (Json.block "[" "]" level (map (Json.dump_at (S level)) (VStr <$> ss))).
  f_equal. induction ss as [|s ss IH]; [done|]. csimpl. by rewrite IH.
Qed.

Lemma read_value_list_unfold fuel tail :
  Json.read_value (S fuel) (String "["%char tail)
  = match Json.skip_ws tail with
    | String c' r =>
        if (Json.code c' =? 93)%nat then Returns (VList [], r)
        else
          match Json.read_elements fuel tail [] with
          | Returns (l, r') => Returns (VList l, r')
          | Raises e => Raises e
          end
    | EmptyString => Raises (ValueError "Expecting value")
    end.
Proof. reflexivity. Qed.

Lemma join_strings_head sep ss rest :
  ss <> [] ->
  exists tail,
    Json.join sep (Json.dump_string <$> ss) ++ rest = String (ascii_of_nat 34) tail.
Proof.
  destruct ss as [|s [|t ss]]; [done| |]; intros _.
  - apply dump_string_head.
  - rewrite !fmap_cons, join_cons, append_assoc. apply dump_string_head.
Qed.

Lemma block_cons opening closing level item items :
  Json.block opening closing level (item :: items)
  = opening ++ newline ++ Json.indent (S level)
    ++ Json.join ("," ++ newline ++ Json.indent (S level)) (item :: items)
    ++ newline ++ Json.indent level ++ closing.
Proof. reflexivity. Qed.

Lemma read_value_strings fuel level ss rest :
  (String.length (Json.dump_at level (VList (VStr <$> ss))) < fuel)%nat ->
  Json.read_value fuel (Json.dump_at level (VList (VStr <$> ss)) ++ rest)
  = Returns (VList (VStr <$> ss), rest).
Proof.
  rewrite dump_at_strings. intros Hfuel.
  destruct fuel as [|fuel]; [lia|].
  destruct ss as [|s ss]; [reflexivity|].
  assert (Hne : s :: ss <> []) by done. revert Hne Hfuel.
  generalize (s :: ss). clear s ss. intros ss Hne.
  destruct (Json.dump_string <$> ss) as [|item items] eqn:Hitems;
    [by destruct ss|].
  rewrite block_cons, <- Hitems. clear item items Hitems.
  rewrite !length_append. intros Hfuel.
  rewrite !append_assoc.
  change ("[" ++ ?t) with (String "["%char t).
  rewrite read_value_list_unfold, skip_ws_newline, skip_ws_indent.
  rewrite read_elements_strings; [| done | simpl in Hfuel; lia].
  destruct (join_strings_head ("," ++ newline ++ Json.indent (S level)) ss
              (newline ++ Json.indent level ++ "]" ++ rest) Hne) as [tail ->].
  reflexivity.
Qed.

(** ** Values of the schema *)

Lemma read_value_schema fuel level v rest :
  schema_value v ->
  ends_value rest ->
  (String.length (Json.dump_at level v) < fuel)%nat ->
  Json.read_value fuel (Json.dump_at level v ++ rest) = Returns (v, rest).
Proof.
  intros Hv Hrest Hfuel. destruct fuel as [|fuel]; [lia|].
  destruct v as [|[|]|n|x|s|l|d]; try done.
  - apply read_value_null.
  - apply read_value_true.
  - apply read_value_false.
  - by apply read_value_int.
  - by apply read_value_float.
  - apply read_value_string.
  - destruct (strings_of l Hv) as [ss ->]. by apply read_value_strings.
Qed.

(** ** Documents *)

Lemma read_members_skip_ws fuel s seen :
  Json.read_members fuel s seen = Json.read_members fuel (Json.skip_ws s) seen.
Proof.
  destruct fuel as [|fuel]; [done|].
  cbn [Json.read_members]. by rewrite skip_ws_skip_ws.
Qed.

Lemma read_members_member fuel k tail seen :
  Json.read_members (S fuel) (Json.dump_string k ++ ": " ++ tail) seen
  = read_members_rest fuel k seen (Json.read_value fuel tail).
Proof.
  unfold Json.dump_string. rewrite !append_assoc.
  transitivity
    (match Json.read_string (Json.dump_chars k ++ Json.quote ++ ": " ++ tail) with
     | Returns (key, r1) =>
         match Json.skip_ws r1 with
         | String colon r2 =>
             if (Json.code colon =? 58)%nat
             then read_members_rest fuel key seen (Json.read_value fuel r2)
             else Raises (ValueError "Expecting ':' delimiter")
         | EmptyString => Raises (ValueError "Expecting ':' delimiter")
         end
     | Raises e => Raises e
     end); [reflexivity|].
  rewrite read_string_dump_chars.
  change (Json.skip_ws (": " ++ ?t)) with (String ":"%char (" " ++ t)).
  cbv beta iota. change (Json.code ":" =? 58)%nat with true. cbv iota.
  rewrite (read_value_skip_ws fuel (" " ++ tail)).
  change (Json.skip_ws (" " ++ tail)) with (Json.skip_ws tail).
  by rewrite <- read_value_skip_ws.
Qed.

Lemma length_member_text level kv :
  (String.length (Json.dump_at (S level) kv.2) + 4 <= String.length (member_text level kv))%nat.
Proof.
  destruct kv as [k v]. unfold member_text. cbn [fst snd].
  pose proof (length_dump_string k).
  rewrite !length_append. change (String.length ": ") with 2%nat. lia.
Qed.

Lemma read_members_text level rest kvs : forall seen fuel,
  kvs <> [] ->
  Forall (fun kv => schema_value kv.2) kvs ->
  (String.length (Json.join ("," ++ newline ++ Json.indent (S level))
                    (member_text level <$> kvs)) <= fuel)%nat ->
  Json.read_members fuel
    (newline ++ Json.indent (S level)
     ++ Json.join ("," ++ newline ++ Json.indent (S level)) (member_text level <$> kvs)
     ++ newline ++ Json.indent level ++ "}" ++ rest) seen
  = Returns (foldl (fun acc kv => <[kv.1 := kv.2]> acc) seen kvs, rest).
Proof.
  induction kvs as [|kv kvs IH]; intros seen fuel Hne Hall Hfuel; [done|].
  pose proof (length_member_text level kv) as Hlen.
  apply Forall_cons in Hall as [Hv Hall].
  destruct kvs as [|kv' kvs].
  - cbn [fmap list_fmap Json.join] in *.
    destruct fuel as [|fuel]; [lia|].
    rewrite read_members_skip_ws, skip_ws_newline, skip_ws_indent, <- read_members_skip_ws.
    unfold member_text at 1. rewrite !append_assoc, read_members_member.
    rewrite read_value_schema; [|done|by right|lia].
    unfold read_members_rest.
    rewrite skip_ws_newline, skip_ws_indent. reflexivity.
  - rewrite fmap_cons, (fmap_cons _ kv'), join_cons in *.
    rewrite !length_append in Hfuel.
    destruct fuel as [|fuel]; [lia|].
    rewrite read_members_skip_ws, skip_ws_newline, skip_ws_indent, <- read_members_skip_ws.
    unfold member_text at 1. rewrite !append_assoc, read_members_member.
    rewrite read_value_schema; [|done|by left|lia].
    unfold read_members_rest.
    change (Json.skip_ws ("," ++ ?t)) with (String ","%char t).
    cbv beta iota. change (Json.code "," =? 44)%nat with true. cbv iota.
    rewrite <- (fmap_cons (member_text level) kv').
    rewrite IH; [done|done|done|simpl in Hfuel |- *; lia].
Qed.

Lemma members_of_list level (kvs : list (string * value)) :
  foldr (uncurry (fun k v' acc =>
           app acc [Json.dump_string k ++ ": " ++ Json.dump_at (S level) v'])) [] kvs
  = member_text level <$> reverse kvs.
Proof.
  induction kvs as [|[k v] kvs IH]; [done|].
  cbn [foldr]. by rewrite IH, reverse_cons, fmap_app.
Qed.

Lemma dump_at_dict level d :
  Json.dump_at level (VDict d)
  = Json.block "{" "}" level (member_text level <$> reverse (map_to_list d)).
Proof.
  change (Json.dump_at level (VDict d))
    with (Json.block "{" "}" level
            (map_fold (fun k v' acc =>
               app acc [Json.dump_string k ++ ": " ++ Json.dump_at (S level) v']) [] d)).
  by rewrite map_fold_foldr, members_of_list.
Qed.

Lemma foldl_insert_reverse (kvs : list (string * value)) :
  foldl (fun acc kv => <[kv.1 := kv.2]> acc) ∅ (reverse kvs)
  = (list_to_map kvs : gmap string value).
Proof.
  induction kvs as [|[k v] kvs IH]; [done|].
  by rewrite reverse_cons, foldl_snoc, IH.
Qed.

Lemma read_value_dict_unfold fuel tail :
  Json.read_value (S fuel) (String "{"%char tail)
  = match Json.skip_ws tail with
    | String c' r =>
        if (Json.code c' =? 125)%nat then Returns (VDict ∅, r)
        else
          match Json.read_members fuel tail ∅ with
          | Returns (d, r') => Returns (VDict d, r')
          | Raises e => Raises e
          end
    | EmptyString =>
        Raises (ValueError "Expecting property name enclosed in double quotes")
    end.
Proof. reflexivity. Qed.

Lemma join_members_head sep level kvs rest :
  kvs <> [] ->
  exists tail,
    Json.join sep (member_text level <$> kvs) ++ rest = String (ascii_of_nat 34) tail.
Proof.
  destruct kvs as [|kv [|kv' kvs]]; [done| |]; intros _.
  - cbn [fmap list_fmap Json.join]. unfold member_text.
    rewrite append_assoc. apply dump_string_head.
  - rewrite !fmap_cons, join_cons. unfold member_text at 1.
    rewrite !append_assoc. apply dump_string_head.
Qed.

(** A document of the schema is read back from its text. *)
Lemma read_value_document fuel level d rest :
  schema_document d ->
  (String.length (Json.dump_at level (VDict d)) < fuel)%nat ->
  Json.read_value fuel (Json.dump_at level (VDict d) ++ rest) = Returns (VDict d, rest).
Proof.
  intros Hd. rewrite dump_at_dict.
  rewrite <- (list_to_map_to_list d) at 3.
  apply map_Forall_to_list in Hd. revert Hd.
  generalize (map_to_list d). clear d. intros kvs Hall Hfuel.
  rewrite <- foldl_insert_reverse.
  assert (Hall' : Forall (fun kv => schema_value kv.2) (reverse kvs)).
  { apply Forall_reverse. eapply Forall_impl; [exact Hall|]. by intros [k v]. }
  revert Hfuel Hall'. generalize (reverse kvs). clear kvs Hall. intros kvs Hfuel Hall.
  destruct fuel as [|fuel]; [lia|].
  destruct kvs as [|kv kvs]; [reflexivity|].
  assert (Hne : kv :: kvs <> []) by done. revert Hne Hall Hfuel.
  generalize (kv :: kvs). clear kv kvs. intros kvs Hne Hall.
  destruct (member_text level <$> kvs) as [|item items] eqn:Hitems;
    [by destruct kvs|].
  rewrite block_cons, <- Hitems. clear item items Hitems.
  rewrite !length_append. intros Hfuel.
  rewrite !append_assoc.
  change ("{" ++ ?t) with (String "{"%char t).
  rewrite read_value_dict_unfold, skip_ws_newline, skip_ws_indent.
  rewrite read_members_text; [| done | done | simpl in Hfuel; lia].
  destruct (join_members_head ("," ++ newline ++ Json.indent (S level)) level kvs
              (newline ++ Json.indent level ++ "}" ++ rest) Hne) as [tail ->].
  reflexivity.
Qed.

(** The reference module reads its own text of a document of the schema
    back as the document. *)
Lemma load_dump d :
  schema_document d -> Json.load (Json.dump (VDict d)) = Returns (VDict d).
Proof.
  intros Hd. unfold Json.load, Json.dump.
  pose proof (read_value_document
                (2 * String.length (Json.dump_at 0 (VDict d)) + 2) 0 d EmptyString Hd) as H.
  rewrite append_empty_r in H. rewrite H; [done|lia].
Qed.


Section Properties.

Variable json_dump : value -> string.
Variable json_load : string -> outcome value.
Variable builtin_str : value -> string.
Variable builtin_float : string -> outcome float.
Variable builtin_int : string -> outcome Z.

(** ** The equation of [save_config] *)

Lemma save_config_unfold show_msg (st : session) :
  save_config json_dump show_msg st =
  match chosen_chars (fst st) with
  | [] => (Returns false, (fst st, report show_msg MSG_EMPTY (snd st)))
  | _ :: _ =>
      match new_config (fst st) (chosen_chars (fst st)) with
      | Raises e =>
          (Returns false, (fst st, report show_msg (failure_dialog e) (snd st)))
      | Returns new =>
          let self' :=
            set_config_data (dict_update (config_data (fst st)) new) (fst st) in
          match write_fault (snd st) with
          | WriteOk =>
              (Returns true,
               (self', report show_msg MSG_SAVED
                  (set_config_file (Some (json_dump (VDict (config_data self')))) (snd st))))
          | OpenFails e =>
              (Returns false, (self', report show_msg (failure_dialog e) (snd st)))
          | DumpFails e written =>
              (Returns false,
               (self', report show_msg (failure_dialog e)
                  (set_config_file (Some written) (snd st))))
          end
      end
  end.
Proof.
  unfold save_config, try_except, bind, get_self, put_self, in_world, lift,
    write_config, save_failed, when, show, ret, report, failure_dialog.
  simpl.
  destruct (chosen_chars (fst st)) as [|c cs] eqn:Hc; simpl.
  - destruct show_msg; reflexivity.
  - destruct (new_config (fst st) (c :: cs)) as [new|[m|m]]; simpl;
      try (destruct show_msg; reflexivity).
    destruct (write_fault (snd st)) as [|[m|m]|[m|m] written]; simpl;
      destruct show_msg; reflexivity.
Qed.

Lemma config_file_report show_msg d w :
  config_file (report show_msg d w) = config_file w.
Proof. destruct show_msg; reflexivity. Qed.

Lemma dialogs_report show_msg d w :
  dialogs (report show_msg d w) = if show_msg then (dialogs w ++ [d])%list else dialogs w.
Proof. destruct show_msg; reflexivity. Qed.

Lemma popen_calls_report show_msg d w :
  popen_calls (report show_msg d w) = popen_calls w.
Proof. destruct show_msg; reflexivity. Qed.

Lemma popen_fault_report show_msg d w :
  popen_fault (report show_msg d w) = popen_fault w.
Proof. destruct show_msg; reflexivity. Qed.

(** What a successful save did. *)
Lemma save_config_success show_msg (st st' : session) :
  save_config json_dump show_msg st = (Returns true, st') ->
  exists new,
    chosen_chars (fst st) <> []
    /\ new_config (fst st) (chosen_chars (fst st)) = Returns new
    /\ write_fault (snd st) = WriteOk
    /\ fst st' = set_config_data (dict_update (config_data (fst st)) new) (fst st)
    /\ snd st' = report show_msg MSG_SAVED
         (set_config_file (Some (json_dump (VDict (config_data (fst st'))))) (snd st)).
Proof.
  rewrite save_config_unfold.
  destruct (chosen_chars (fst st)) as [|c cs] eqn:Hc; [intros [=]|].
  destruct (new_config (fst st) (c :: cs)) as [new|e] eqn:Hn; [|intros [=]].
  simpl. destruct (write_fault (snd st)) eqn:Hw; intros [= <-].
  exists new. repeat split; done.
Qed.

(** [save_config] returns, whatever happens inside: its [except] clauses
    catch every exception. *)
Lemma save_config_returns show_msg (st : session) :
  exists b st', save_config json_dump show_msg st = (Returns b, st').
Proof.
  rewrite save_config_unfold.
  destruct (chosen_chars (fst st)); [eauto|].
  destruct (new_config (fst st) _); [|eauto].
  simpl. destruct (write_fault (snd st)); eauto.
Qed.

(** ** The dict display *)

Lemma new_config_inv self chosen new :
  new_config self chosen = Returns new ->
  exists speed population scale randomness bg_cycle_seconds,
    speed_var self = Returns speed
    /\ population_var self = Returns population
    /\ scale_var self = Returns scale
    /\ rand_var self = Returns randomness
    /\ bg_cycle_sec_var self = Returns bg_cycle_seconds
    /\ new = list_to_map
         [ ("speed", VFloat speed);
           ("population", VInt population);
           ("scale", VFloat scale);
           ("randomness", VFloat randomness);
           ("background_effect", VStr (bg_var self));
           ("cycle_settings", VBool (cycle_settings_var self));
           ("bg_cycle_seconds", VInt bg_cycle_seconds);
           ("lens_effect", VStr (lens_var self));
           ("enabled_characters", VList (VStr <$> chosen)) ].
Proof.
  unfold new_config, outcome_bind, py_float, py_int, py_str, py_bool.
  destruct (speed_var self) as [speed|]; [|discriminate].
  destruct (population_var self) as [population|]; [|discriminate].
  destruct (scale_var self) as [scale|]; [|discriminate].
  destruct (rand_var self) as [randomness|]; [|discriminate].
  destruct (bg_cycle_sec_var self) as [bg_cycle_seconds|]; [|discriminate].
  intros [= <-]. exists speed, population, scale, randomness, bg_cycle_seconds.
  repeat split; reflexivity.
Qed.

Lemma new_config_unmanaged self chosen new k :
  new_config self chosen = Returns new -> k ∉ managed_keys -> new !! k = None.
Proof.
  intros Hn Hk. apply new_config_inv in Hn as (?&?&?&?&?&_&_&_&_&_&->).
  unfold managed_keys in Hk. rewrite !not_elem_of_cons in Hk.
  destruct Hk as (?&?&?&?&?&?&?&?&?&_).
  simpl. rewrite !lookup_insert_ne by congruence. apply lookup_empty.
Qed.

Lemma new_config_enabled self chosen new :
  new_config self chosen = Returns new ->
  new !! "enabled_characters" = Some (VList (VStr <$> chosen)).
Proof.
  intros Hn. apply new_config_inv in Hn as (?&?&?&?&?&_&_&_&_&_&->).
  reflexivity.
Qed.

Lemma dict_update_lookup d new k :
  dict_update d new !! k = match new !! k with Some v => Some v | None => d !! k end.
Proof.
  unfold dict_update. destruct (new !! k) as [v|] eqn:Hk.
  - by apply lookup_union_Some_l.
  - by rewrite lookup_union_r.
Qed.

(** The first variable that cannot be read decides the exception: with
    non-numeric values only, it is a [ValueError]. *)
Lemma new_config_non_numeric self chosen :
  some_non_numeric self -> all_number_or_not self ->
  exists msg, new_config self chosen = Raises (ValueError msg).
Proof.
  unfold some_non_numeric, all_number_or_not, new_config, outcome_bind.
  intros Hsome (H1&H2&H3&H4&H5).
  destruct (speed_var self) as [?|[m|m]]; simpl in *; try done; eauto.
  destruct (population_var self) as [?|[m|m]]; simpl in *; try done; eauto.
  destruct (scale_var self) as [?|[m|m]]; simpl in *; try done; eauto.
  destruct (rand_var self) as [?|[m|m]]; simpl in *; try done; eauto.
  destruct (bg_cycle_sec_var self) as [?|[m|m]]; simpl in *; try done; eauto.
  tauto.
Qed.

(** ** The checkboxes *)

Lemma dict_toggle_keys k (d : list (string * bool)) :
  (dict_toggle k d).*1 = d.*1.
Proof.
  induction d as [|[k' b] d IH]; simpl; [done|].
  destruct (String.eqb k k'); csimpl; by rewrite ?IH.
Qed.

Lemma dict_set_keys {V} k (v : V) (d : list (string * V)) :
  (dict_set k v d).*1 = if decide (k ∈ d.*1) then d.*1 else (d.*1 ++ [k])%list.
Proof.
  induction d as [|[k' v'] d IH]; csimpl; [done|].
  destruct (String.eqb_spec k k') as [->|Hne]; csimpl.
  - rewrite decide_True by apply list_elem_of_here. done.
  - rewrite IH. destruct (decide (k ∈ d.*1)) as [Hin|Hin].
    + rewrite decide_True by (by apply list_elem_of_further). done.
    + rewrite decide_False; [done|]. by rewrite not_elem_of_cons.
Qed.

(** Ticking the assets one after the other adds, behind the keys that are
    there, a subsequence of the assets. *)
Lemma foldl_dict_set_keys (f : string -> bool) assets (cv : list (string * bool)) :
  exists added,
    (foldl (fun cv asset => dict_set asset (f asset) cv) cv assets).*1
      = (cv.*1 ++ added)%list
    /\ added `sublist_of` assets.
Proof.
  revert cv. induction assets as [|a assets IH]; intros cv; simpl.
  - exists []. by rewrite app_nil_r.
  - destruct (IH (dict_set a (f a) cv)) as (added & -> & Hsub).
    rewrite dict_set_keys. destruct (decide (a ∈ cv.*1)).
    + exists added. split; [done|]. by apply sublist_cons.
    + exists (a :: added). split; [by rewrite <- app_assoc|]. by apply sublist_skip.
Qed.

Lemma build_chars_tab_keys self :
  char_vars self = [] ->
  char_keys (build_chars_tab self) `sublist_of` available_assets self.
Proof.
  intros Hcv. unfold build_chars_tab, char_keys.
  destruct (available_assets self) as [|a assets] eqn:Ha.
  - by rewrite Hcv.
  - cbn [char_vars set_char_vars]. rewrite Hcv.
    destruct (foldl_dict_set_keys (fun asset => py_in asset (saved_chars (config_data self)))
                (a :: assets) []) as (added & -> & Hsub).
    done.
Qed.

Lemma chosen_chars_sublist self :
  chosen_chars self `sublist_of` char_keys self.
Proof.
  unfold chosen_chars, char_keys.
  induction (char_vars self) as [|[k b] cv IH]; simpl; [done|].
  destruct b; simpl; by constructor.
Qed.

(** ** Preview *)

Lemma launch_preview_unfold w :
  launch_preview w =
  match popen_fault w SERVER_CMD with
  | Some e => (Returns tt, add_dialog (MSG_PREVIEW e) (add_popen SERVER_CMD false w))
  | None =>
      match popen_fault w BROWSER_CMD with
      | Some e =>
          (Returns tt,
           add_dialog (MSG_PREVIEW e)
             (add_popen BROWSER_CMD false (add_popen SERVER_CMD true w)))
      | None => (Returns tt, add_popen BROWSER_CMD true (add_popen SERVER_CMD true w))
      end
  end.
Proof.
  unfold launch_preview, try_except, bind, Popen, show.
  destruct (popen_fault w SERVER_CMD) as [e|]; simpl; [done|].
  by destruct (popen_fault w BROWSER_CMD).
Qed.

Lemma preview_screensaver_unfold (st : session) :
  preview_screensaver json_dump st =
  match save_config json_dump false st with
  | (Returns true, st1) =>
      (fst (launch_preview (snd st1)), (fst st1, snd (launch_preview (snd st1))))
  | (Returns false, st1) => (Returns tt, st1)
  | (Raises e, st1) => (Raises e, st1)
  end.
Proof.
  unfold preview_screensaver, bind.
  destruct (save_config json_dump false st) as [[[|]|e] st1]; try done.
  unfold in_world. by destruct (launch_preview (snd st1)).
Qed.

(** ** The invariant of a session *)

(** What [save_config] leaves in the object: the object as it was, or the
    object with its document updated by the dict display. *)
Lemma save_config_self show_msg (st : session) :
  fst (snd (save_config json_dump show_msg st)) = fst st
  \/ exists new,
       new_config (fst st) (chosen_chars (fst st)) = Returns new
       /\ fst (snd (save_config json_dump show_msg st))
          = set_config_data (dict_update (config_data (fst st)) new) (fst st).
Proof.
  rewrite save_config_unfold.
  destruct (chosen_chars (fst st)) as [|c cs]; [by left|].
  destruct (new_config (fst st) (c :: cs)) as [new|e] eqn:Hn; [|by left].
  right. exists new. split; [done|].
  simpl. by destruct (write_fault (snd st)).
Qed.

Lemma save_config_preserves doc assets show_msg (st : session) :
  session_inv doc assets st ->
  session_inv doc assets (snd (save_config json_dump show_msg st)).
Proof.
  intros (Ha & Hk & Hd).
  destruct (save_config_self show_msg st) as [Heq|(new & Hn & Heq)];
    unfold session_inv, char_keys in *; rewrite Heq; [done|].
  simpl. repeat split; [done..|].
  intros k Hk'. rewrite dict_update_lookup.
  rewrite (new_config_unmanaged _ _ _ _ Hn Hk'). by apply Hd.
Qed.

Lemma preview_screensaver_self (st : session) :
  fst (snd (preview_screensaver json_dump st))
  = fst (snd (save_config json_dump false st)).
Proof.
  rewrite preview_screensaver_unfold.
  by destruct (save_config json_dump false st) as [[[|]|e] st1].
Qed.

Lemma step_preserves doc assets (st : session) ev :
  session_inv doc assets st -> session_inv doc assets (step json_dump st ev).
Proof.
  intros Hinv. destruct ev; simpl.
  - destruct Hinv as (?&?&?). by repeat split.
  - destruct Hinv as (?&?&?). repeat split; [done| |done].
    unfold char_keys. simpl. by rewrite dict_toggle_keys.
  - done.
  - by apply save_config_preserves.
  - pose proof (save_config_preserves doc assets false st Hinv) as (?&?&?).
    unfold session_inv, char_keys. by rewrite preview_screensaver_self.
Qed.

Lemma run_preserves doc assets evs (st : session) :
  session_inv doc assets st -> session_inv doc assets (run json_dump evs st).
Proof.
  revert st. induction evs as [|ev evs IH]; intros st Hinv; simpl; [done|].
  apply IH. by apply step_preserves.
Qed.

(** ** The start of a session *)

Lemma get_available_assets_world w :
  snd (get_available_assets w) = w
  /\ exists assets, fst (get_available_assets w) = Returns assets.
Proof. unfold get_available_assets. destruct (assets_dir w); eauto. Qed.

Lemma initialize_enabled_characters_unmanaged d assets k :
  k ∉ managed_keys -> initialize_enabled_characters d assets !! k = d !! k.
Proof.
  intros Hk. unfold initialize_enabled_characters.
  destruct (saved_chars d); [|done].
  apply lookup_insert_ne. intros <-. apply Hk. unfold managed_keys.
  repeat first [apply list_elem_of_here | apply list_elem_of_further].
Qed.

(** [build_config_tab] makes the scalar variables and touches nothing
    else of the object. *)
Lemma build_config_tab_frame self tab :
  build_config_tab builtin_str builtin_float builtin_int self = Returns tab ->
  config_data tab = config_data self
  /\ available_assets tab = available_assets self
  /\ char_vars tab = char_vars self.
Proof.
  unfold build_config_tab, outcome_bind.
  destruct (builtin_float _); [|done]. destruct (builtin_int _); [|done].
  destruct (builtin_float _); [|done]. destruct (builtin_float _); [|done].
  destruct (builtin_int _); [|done]. by intros [= <-].
Qed.

(** What the constructor went through when it returns. *)
Lemma init_returns w0 self0 w1 :
  init json_load builtin_str builtin_float builtin_int w0 = (Returns self0, w1) ->
  exists doc assets tab,
    load_config json_load w0 = (Returns (VDict doc), w1)
    /\ get_available_assets w1 = (Returns assets, w1)
    /\ build_config_tab builtin_str builtin_float builtin_int
         (declared (initialize_enabled_characters doc assets) assets) = Returns tab
    /\ self0 = build_chars_tab tab.
Proof.
  unfold init, bind.
  destruct (load_config json_load w0) as [[loaded|e] w0'] eqn:Hload; [|done].
  destruct (get_available_assets_world w0') as (Hw & assets & Ha).
  destruct (get_available_assets w0') as [r w0''] eqn:Hget. simpl in Hw, Ha. subst.
  destruct loaded as [| | | | | |doc]; try done.
  unfold lift, create_widgets, outcome_bind.
  destruct (build_config_tab _ _ _ _) as [tab|e] eqn:Htab; [|done].
  intros [= <- <-]. by exists doc, assets, tab.
Qed.

Lemma build_chars_tab_frame self :
  config_data (build_chars_tab self) = config_data self
  /\ available_assets (build_chars_tab self) = available_assets self.
Proof.
  unfold build_chars_tab.
  destruct (available_assets self) eqn:Ha; by rewrite <- ?Ha.
Qed.

(** A session that starts was given a dict by [load_config], holds the
    reconciled document, and satisfies the invariant. *)
Lemma init_inv w0 self0 w1 :
  init json_load builtin_str builtin_float builtin_int w0 = (Returns self0, w1) ->
  exists doc,
    fst (load_config json_load w0) = Returns (VDict doc)
    /\ config_data self0 = initialize_enabled_characters doc (available_assets self0)
    /\ session_inv doc (available_assets self0) (self0, w1).
Proof.
  intros (doc & assets & tab & Hload & _ & Htab & ->)%init_returns.
  destruct (build_config_tab_frame _ _ Htab) as (Hdata & Hassets & Hcv).
  destruct (build_chars_tab_frame tab) as (Hdata' & Hassets').
  simpl in Hdata, Hassets, Hcv.
  exists doc. rewrite Hload, Hassets', Hdata', Hassets, Hdata.
  split; [done|]. split; [done|].
  repeat split; simpl; [congruence| |].
  - rewrite <- Hassets. by apply build_chars_tab_keys.
  - intros k Hk. rewrite Hdata', Hdata.
    by apply initialize_enabled_characters_unmanaged.
Qed.

(** The constructor once the document and the catalog are there. *)
Lemma init_equation w0 doc w1 assets :
  load_config json_load w0 = (Returns (VDict doc), w1) ->
  get_available_assets w1 = (Returns assets, w1) ->
  init json_load builtin_str builtin_float builtin_int w0
  = (match build_config_tab builtin_str builtin_float builtin_int
             (declared (initialize_enabled_characters doc assets) assets) with
     | Returns tab => Returns (build_chars_tab tab)
     | Raises e => Raises e
     end, w1).
Proof.
  intros Hload Hget. unfold init, bind. rewrite Hload, Hget.
  unfold lift, create_widgets, outcome_bind. by destruct (build_config_tab _ _ _ _).
Qed.

(** Reconciliation leaves the fields of the scalar controls alone. *)
Lemma dict_get_reconciled d assets k default :
  k <> "enabled_characters" ->
  dict_get (initialize_enabled_characters d assets) k default = dict_get d k default.
Proof.
  intros Hk. unfold dict_get, initialize_enabled_characters.
  destruct (saved_chars d); [|done]. by rewrite lookup_insert_ne.
Qed.

(** [build_config_tab] returns exactly when the five numeric fields
    convert. *)
Lemma build_config_tab_returns_iff d assets :
  numeric_fields_convert builtin_str builtin_float builtin_int d
  <-> exists tab,
        build_config_tab builtin_str builtin_float builtin_int
          (declared (initialize_enabled_characters d assets) assets) = Returns tab.
Proof.
  unfold numeric_fields_convert, build_config_tab, outcome_bind. simpl config_data.
  rewrite !dict_get_reconciled by (by intros [=]).
  destruct (builtin_float (builtin_str (dict_get d "speed" _))) as [?|e1];
    [|split; [by intros ([? [=]] & _)|by intros [? [=]]]].
  destruct (builtin_int (builtin_str (dict_get d "population" _))) as [?|e2];
    [|split; [by intros (_ & [? [=]] & _)|by intros [? [=]]]].
  destruct (builtin_float (builtin_str (dict_get d "scale" _))) as [?|e3];
    [|split; [by intros (_ & _ & [? [=]] & _)|by intros [? [=]]]].
  destruct (builtin_float (builtin_str (dict_get d "randomness" _))) as [?|e4];
    [|split; [by intros (_ & _ & _ & [? [=]] & _)|by intros [? [=]]]].
  destruct (builtin_int (builtin_str (dict_get d "bg_cycle_seconds" _))) as [?|e5];
    [|split; [by intros (_ & _ & _ & _ & [? [=]])|by intros [? [=]]]].
  split; [eauto|]. intros _. repeat split; eauto.
Qed.

Lemma load_config_unfold w :
  load_config json_load w =
  match config_file w with
  | None => (Returns (VDict DEFAULT_CONFIG), w)
  | Some text =>
      match read_fault w with
      | Some e =>
          (Returns (VDict DEFAULT_CONFIG),
           add_stdout ("Error loading config: " ++ exn_str e) w)
      | None =>
          match json_load text with
          | Returns v => (Returns v, w)
          | Raises e =>
              (Returns (VDict DEFAULT_CONFIG),
               add_stdout ("Error loading config: " ++ exn_str e) w)
          end
      end
  end.
Proof.
  unfold load_config, bind, os_path_exists_config, try_except, read_config, lift, print, ret.
  destruct (config_file w) as [text|] eqn:Hf; simpl; [|done].
  rewrite Hf. destruct (read_fault w) as [e|]; simpl; [done|].
  by destruct (json_load text).
Qed.

(** [load_config] returns, whatever the file holds. *)
Lemma load_config_returns w :
  exists v w', load_config json_load w = (Returns v, w').
Proof.
  rewrite load_config_unfold.
  destruct (config_file w); [|eauto].
  destruct (read_fault w); [eauto|]. destruct (json_load _); eauto.
Qed.

(** ** The claims *)

(** C2.  Whatever the other controls hold, [save_config] with no ticked
    checkbox returns [False], shows the empty-selection error when it may
    show messages, and leaves the object and config.json as they were. *)
Theorem empty_selection_rejected show_msg (st : session) :
  chosen_chars (fst st) = [] ->
  exists w',
    save_config json_dump show_msg st = (Returns false, (fst st, w'))
    /\ w' = report show_msg MSG_EMPTY (snd st)
    /\ config_file w' = config_file (snd st)
    /\ dialogs w' = if show_msg then (dialogs (snd st) ++ [MSG_EMPTY])%list
                    else dialogs (snd st).
Proof.
  intros Hc. eexists. split; [|split; [reflexivity|]].
  - rewrite save_config_unfold, Hc. reflexivity.
  - split; [apply config_file_report | apply dialogs_report].
Qed.

(** C3, amended.  The selection is checked before the numeric controls
    are read: with no ticked checkbox and a non-numeric value in a numeric
    control, the failure reported is the empty-selection error, which is
    not the numeric-format error. *)
Theorem empty_selection_checked_first (st : session) :
  chosen_chars (fst st) = [] ->
  some_non_numeric (fst st) ->
  save_config json_dump true st
    = (Returns false, (fst st, add_dialog MSG_EMPTY (snd st)))
  /\ dialogs (snd (snd (save_config json_dump true st)))
     = (dialogs (snd st) ++ [MSG_EMPTY])%list
  /\ MSG_EMPTY <> MSG_NUMERIC.
Proof.
  intros Hc _. rewrite save_config_unfold, Hc. simpl. by repeat split.
Qed.

(** The numeric-format error is reported for a non-empty selection only. *)
Lemma numeric_error_needs_selection show_msg (st : session) d :
  snd (snd (save_config json_dump show_msg st)) = add_dialog d (snd st) ->
  d = MSG_NUMERIC ->
  chosen_chars (fst st) <> [].
Proof.
  intros Hd -> Hc. rewrite save_config_unfold, Hc in Hd. simpl in Hd.
  destruct show_msg; simpl in Hd.
  - apply (f_equal dialogs) in Hd. simpl in Hd. by apply app_inv_head in Hd.
  - apply (f_equal dialogs) in Hd. simpl in Hd.
    apply (f_equal length) in Hd. rewrite length_app in Hd. simpl in Hd. lia.
Qed.

(** The exception [new_config] raises is the one of the first numeric
    control that cannot be read. *)
Lemma new_config_first_unreadable self chosen :
  match first_unreadable self with
  | Some e => new_config self chosen = Raises e
  | None => exists new, new_config self chosen = Returns new
  end.
Proof.
  unfold first_unreadable, new_config, outcome_bind.
  destruct (speed_var self); [|done].
  destruct (population_var self); [|done].
  destruct (scale_var self); [|done].
  destruct (rand_var self); [|done].
  destruct (bg_cycle_sec_var self); [|done]. eauto.
Qed.

Lemma some_non_numeric_first self :
  some_non_numeric self -> exists e, first_unreadable self = Some e.
Proof.
  unfold some_non_numeric, non_numeric, first_unreadable.
  destruct (speed_var self); [|eauto].
  destruct (population_var self); [|eauto].
  destruct (scale_var self); [|eauto].
  destruct (rand_var self); [|eauto].
  destruct (bg_cycle_sec_var self); [|eauto]. tauto.
Qed.

(** C8, amended.  With a non-numeric value in a numeric control (reading
    it raises, with whatever exception), [save_config] returns [False],
    reports an error when it may show messages, and leaves the object,
    hence the document in memory, and config.json as they were.  The
    error is the empty-selection error when no checkbox is ticked; with a
    checkbox ticked it is the numeric-format error whenever the reads
    raise nothing but [ValueError]. *)
Theorem numeric_rejection show_msg (st : session) :
  some_non_numeric (fst st) ->
  exists d message,
    save_config json_dump show_msg st
      = (Returns false, (fst st, report show_msg d (snd st)))
    /\ config_file (report show_msg d (snd st)) = config_file (snd st)
    /\ d = ShowError "Error" message
    /\ (chosen_chars (fst st) = [] -> d = MSG_EMPTY)
    /\ (chosen_chars (fst st) <> [] -> all_number_or_not (fst st) -> d = MSG_NUMERIC).
Proof.
  intros Hsome. rewrite save_config_unfold.
  destruct (chosen_chars (fst st)) as [|c cs] eqn:Hc.
  - exists MSG_EMPTY. eexists. rewrite config_file_report.
    do 3 (split; [reflexivity|]). by split.
  - destruct (some_non_numeric_first _ Hsome) as [e He].
    pose proof (new_config_first_unreadable (fst st) (c :: cs)) as Hn.
    rewrite He in Hn. rewrite Hn.
    exists (failure_dialog e). exists (match e with
                                        | ValueError _ => "Invalid numeric values entered."
                                        | Exception _ => "Could not save config: " ++ exn_str e
                                        end).
    rewrite config_file_report. do 2 (split; [reflexivity|]).
    split; [by destruct e|]. split; [done|].
    intros _ Hall.
    destruct (new_config_non_numeric (fst st) (c :: cs) Hsome Hall) as [msg Hv].
    rewrite Hv in Hn. by injection Hn as <-.
Qed.

(** C4.  When config.json does not exist, or exists and cannot be read
    or parsed, [load_config] raises nothing and returns the compiled-in
    defaults: speed 1.0, population 17, scale 1.0, randomness 0.5,
    background effect pure-black, no cycling, 10 seconds, lens effect
    none and no enabled character; config.json is left as it was. *)
Theorem load_config_default_fallback w :
  config_file w = None
  \/ (exists text,
        config_file w = Some text
        /\ (is_Some (read_fault w) \/ exists e, json_load text = Raises e)) ->
  exists w',
    load_config json_load w = (Returns (VDict DEFAULT_CONFIG), w')
    /\ config_file w' = config_file w
    /\ DEFAULT_CONFIG !! "speed" = Some (VFloat 1.0)
    /\ DEFAULT_CONFIG !! "population" = Some (VInt 17)
    /\ DEFAULT_CONFIG !! "scale" = Some (VFloat 1.0)
    /\ DEFAULT_CONFIG !! "randomness" = Some (VFloat 0.5)
    /\ DEFAULT_CONFIG !! "background_effect" = Some (VStr "pure-black")
    /\ DEFAULT_CONFIG !! "cycle_settings" = Some (VBool false)
    /\ DEFAULT_CONFIG !! "bg_cycle_seconds" = Some (VInt 10)
    /\ DEFAULT_CONFIG !! "lens_effect" = Some (VStr "none")
    /\ DEFAULT_CONFIG !! "enabled_characters" = Some (VList [])
    /\ size DEFAULT_CONFIG = 9%nat.
Proof.
  intros H. rewrite load_config_unfold.
  assert (Hfields :
    DEFAULT_CONFIG !! "speed" = Some (VFloat 1.0)
    /\ DEFAULT_CONFIG !! "population" = Some (VInt 17)
    /\ DEFAULT_CONFIG !! "scale" = Some (VFloat 1.0)
    /\ DEFAULT_CONFIG !! "randomness" = Some (VFloat 0.5)
    /\ DEFAULT_CONFIG !! "background_effect" = Some (VStr "pure-black")
    /\ DEFAULT_CONFIG !! "cycle_settings" = Some (VBool false)
    /\ DEFAULT_CONFIG !! "bg_cycle_seconds" = Some (VInt 10)
    /\ DEFAULT_CONFIG !! "lens_effect" = Some (VStr "none")
    /\ DEFAULT_CONFIG !! "enabled_characters" = Some (VList [])
    /\ size DEFAULT_CONFIG = 9%nat) by (repeat split; reflexivity).
  destruct H as [Hf|(text & Hf & [[e He]|[e He]])]; rewrite Hf.
  - exists w. by rewrite Hf.
  - rewrite He. eexists. split; [reflexivity|]. by split.
  - rewrite He. destruct (read_fault w); eexists; (split; [reflexivity|]); by split.
Qed.

(** C5.  At the start of a session on the document [doc] with the catalog
    [assets], provided the numeric fields of [doc] convert, so that the
    constructor gets through [build_config_tab]: the session starts; the
    catalog and every key other than the selection are as loaded; an
    empty selection in [doc] (an empty list, a missing key or a value
    that is not a list) is replaced by the whole catalog, in the order of
    the catalog; with an empty catalog it stays empty; a selection that
    is not empty leaves the document as it was loaded. *)
Theorem reconciliation_at_start w0 doc w1 :
  load_config json_load w0 = (Returns (VDict doc), w1) ->
  numeric_fields_convert builtin_str builtin_float builtin_int doc ->
  exists self assets,
    init json_load builtin_str builtin_float builtin_int w0 = (Returns self, w1)
    /\ get_available_assets w1 = (Returns assets, w1)
    /\ available_assets self = assets
    /\ (forall k, k <> "enabled_characters" -> config_data self !! k = doc !! k)
    /\ (saved_chars doc = [] ->
        config_data self = <["enabled_characters" := VList (VStr <$> assets)]> doc
        /\ saved_chars (config_data self) = VStr <$> assets)
    /\ (saved_chars doc = [] -> assets = [] -> saved_chars (config_data self) = [])
    /\ (saved_chars doc <> [] -> config_data self = doc).
Proof.
  intros Hload Hconvert.
  destruct (get_available_assets_world w1) as (Hw & assets & Ha).
  assert (Hget : get_available_assets w1 = (Returns assets, w1)).
  { destruct (get_available_assets w1) as [r w1']. simpl in Hw, Ha. by subst. }
  apply (build_config_tab_returns_iff doc assets) in Hconvert as [tab Htab].
  destruct (build_config_tab_frame _ _ Htab) as (Hdata & Hassets & _).
  destruct (build_chars_tab_frame tab) as (Hdata' & Hassets').
  simpl in Hdata, Hassets.
  exists (build_chars_tab tab), assets.
  split; [by rewrite (init_equation _ _ _ _ Hload Hget), Htab|].
  rewrite Hdata', Hassets', Hdata, Hassets. do 2 (split; [done|]).
  unfold initialize_enabled_characters. split; [|split; [|split]].
  - intros k Hk. destruct (saved_chars doc); [|done]. by rewrite lookup_insert_ne.
  - intros He. rewrite He. split; [done|]. unfold saved_chars. by rewrite lookup_insert_eq.
  - intros He ->. rewrite He. unfold saved_chars. by rewrite lookup_insert_eq.
  - intros Hne. by destruct (saved_chars doc).
Qed.

(** C7.  In a session started on the loaded document [doc], whatever the
    user did before, the document a successful save writes holds under
    every key that is not one of the nine managed keys what [doc] holds
    there: the same value, or nothing when [doc] has no such key. *)
Theorem extra_keys_preserved w0 doc w0' self0 w1 evs show_msg (st' : session) k :
  load_config json_load w0 = (Returns (VDict doc), w0') ->
  init json_load builtin_str builtin_float builtin_int w0 = (Returns self0, w1) ->
  save_config json_dump show_msg (run json_dump evs (self0, w1)) = (Returns true, st') ->
  k ∉ managed_keys ->
  config_file (snd st') = Some (json_dump (VDict (config_data (fst st'))))
  /\ config_data (fst st') !! k = doc !! k.
Proof.
  intros Hload Hinit Hsave Hk.
  destruct (init_inv _ _ _ Hinit) as (doc' & Hload' & _ & Hinv).
  rewrite Hload in Hload'. injection Hload' as <-.
  apply (run_preserves _ _ evs) in Hinv.
  pose proof (save_config_preserves _ _ show_msg _ Hinv) as (_ & _ & Hkeep).
  rewrite Hsave in Hkeep. split; [|by apply Hkeep].
  destruct (save_config_success _ _ _ Hsave) as (new & _ & _ & _ & _ & Hworld).
  rewrite Hworld at 1. by rewrite config_file_report.
Qed.

(** C10.  In a session, the selection a successful save writes is not
    empty and is a subsequence of the catalog of the session, in the order
    of the catalog. *)
Theorem saved_selection_is_catalog_subsequence w0 self0 w1 evs show_msg
    (st' : session) :
  init json_load builtin_str builtin_float builtin_int w0 = (Returns self0, w1) ->
  save_config json_dump show_msg (run json_dump evs (self0, w1)) = (Returns true, st') ->
  exists chosen,
    config_file (snd st') = Some (json_dump (VDict (config_data (fst st'))))
    /\ config_data (fst st') !! "enabled_characters" = Some (VList (VStr <$> chosen))
    /\ chosen <> []
    /\ chosen `sublist_of` available_assets self0
    /\ available_assets (fst st') = available_assets self0.
Proof.
  intros Hinit Hsave.
  destruct (init_inv _ _ _ Hinit) as (doc & _ & _ & Hinv).
  apply (run_preserves _ _ evs) in Hinv.
  pose proof (save_config_preserves _ _ show_msg _ Hinv) as (Hassets & _ & _).
  rewrite Hsave in Hassets. destruct Hinv as (_ & Hkeys & _).
  destruct (save_config_success _ _ _ Hsave) as (new & Hc & Hn & _ & Hself & Hworld).
  exists (chosen_chars (fst (run json_dump evs (self0, w1)))).
  split; [rewrite Hworld at 1; by rewrite config_file_report|].
  split; [|split; [done|split; [|done]]].
  - rewrite Hself. simpl. rewrite dict_update_lookup.
    by rewrite (new_config_enabled _ _ _ Hn).
  - etrans; [apply chosen_chars_sublist|done].
Qed.

(** C1, amended.  In a session whose catalog does not list [ghost],
    whatever the loaded document holds and whatever the user did, the
    document a successful save writes has as its selection exactly the
    ticked checkboxes, and [ghost] is not among them: a stale identifier
    is dropped by the first save that succeeds. *)
Theorem stale_identifier_not_saved w0 self0 w1 evs show_msg (st' : session) ghost :
  init json_load builtin_str builtin_float builtin_int w0 = (Returns self0, w1) ->
  ghost ∉ available_assets self0 ->
  save_config json_dump show_msg (run json_dump evs (self0, w1)) = (Returns true, st') ->
  config_file (snd st') = Some (json_dump (VDict (config_data (fst st'))))
  /\ saved_chars (config_data (fst st'))
     = VStr <$> chosen_chars (fst (run json_dump evs (self0, w1)))
  /\ VStr ghost ∉ saved_chars (config_data (fst st')).
Proof.
  intros Hinit Hghost Hsave.
  destruct (init_inv _ _ _ Hinit) as (doc & _ & _ & Hinv).
  apply (run_preserves _ _ evs) in Hinv. destruct Hinv as (_ & Hkeys & _).
  destruct (save_config_success _ _ _ Hsave) as (new & Hc & Hn & _ & Hself & Hworld).
  assert (Hsaved : saved_chars (config_data (fst st'))
                   = VStr <$> chosen_chars (fst (run json_dump evs (self0, w1)))).
  { unfold saved_chars. rewrite Hself. simpl. rewrite dict_update_lookup.
    by rewrite (new_config_enabled _ _ _ Hn). }
  split; [rewrite Hworld at 1; by rewrite config_file_report|].
  split; [done|]. rewrite Hsaved. intros Hin.
  apply list_elem_of_fmap in Hin as (x & [= <-] & Hin).
  apply Hghost. eapply elem_of_sublist; [exact Hin|].
  etrans; [apply chosen_chars_sublist|done].
Qed.

(** The silent save shows no message and asks for no process. *)
Lemma silent_save_world (st : session) :
  popen_calls (snd (snd (save_config json_dump false st))) = popen_calls (snd st)
  /\ dialogs (snd (snd (save_config json_dump false st))) = dialogs (snd st).
Proof.
  rewrite save_config_unfold.
  destruct (chosen_chars (fst st)); [done|].
  destruct (new_config (fst st) _); [|done].
  simpl. by destruct (write_fault (snd st)).
Qed.

(** The launch step catches what [Popen] raises. *)
Lemma launch_preview_returns w :
  exists w',
    launch_preview w = (Returns tt, w')
    /\ config_file w' = config_file w
    /\ forall e, launch_fault w = Some e ->
                 dialogs w' = (dialogs w ++ [MSG_PREVIEW e])%list.
Proof.
  rewrite launch_preview_unfold. unfold launch_fault.
  destruct (popen_fault w SERVER_CMD) as [e1|];
    [|destruct (popen_fault w BROWSER_CMD) as [e2|]];
    eexists; (split; [reflexivity|]); (split; [reflexivity|]);
    intros e [= <-]; reflexivity.
Qed.

(** C9.  The preview action raises nothing.  When its silent save fails
    it stops there: no process is asked for and no message is shown.  A
    process is asked for only after a successful save.  When the launch
    fails, the failure is shown as the preview error, and neither the
    object nor config.json is touched by the launch. *)
Theorem preview_sequencing (st : session) :
  exists st',
    preview_screensaver json_dump st = (Returns tt, st')
    /\ (forall st1,
          save_config json_dump false st = (Returns false, st1) ->
          st' = st1
          /\ popen_calls (snd st') = popen_calls (snd st)
          /\ dialogs (snd st') = dialogs (snd st))
    /\ (popen_calls (snd st') <> popen_calls (snd st) ->
        exists st1, save_config json_dump false st = (Returns true, st1))
    /\ (forall st1 e,
          save_config json_dump false st = (Returns true, st1) ->
          launch_fault (snd st1) = Some e ->
          dialogs (snd st') = (dialogs (snd st1) ++ [MSG_PREVIEW e])%list
          /\ fst st' = fst st1
          /\ config_file (snd st') = config_file (snd st1)).
Proof.
  rewrite preview_screensaver_unfold.
  destruct (silent_save_world st) as (Hcalls & Hdialogs).
  destruct (save_config_returns false st) as (b & st1 & Hsave).
  rewrite Hsave in *. simpl in Hcalls, Hdialogs. destruct b.
  - destruct (launch_preview_returns (snd st1)) as (w' & Hl & Hfile & Hshown).
    rewrite Hl. simpl. eexists. split; [reflexivity|]. simpl.
    split; [intros ? [=]|]. split; [eauto|].
    intros st2 e [= <-] He. by rewrite (Hshown e He).
  - exists st1. split; [done|]. split; [by intros st2 [= <-]|].
    split; [|intros ? ? [=]]. intros Hne. by destruct Hne.
Qed.
End Properties.

(** ** Saving and loading again *)

(** A successful save leaves a document of the schema one. *)
Lemma new_config_schema self chosen new :
  new_config self chosen = Returns new -> schema_document new.
Proof.
  intros H. apply new_config_inv in H
    as (speed & population & scale & randomness & bg & _ & _ & _ & _ & _ & ->).
  cbn [list_to_map foldr fst snd].
  repeat (apply map_Forall_insert_2; [try done|]).
  - cbn [schema_value]. apply Forall_fmap, Forall_true. by intros ?.
  - apply map_Forall_empty.
Qed.

Lemma dict_update_schema d new :
  schema_document d -> schema_document new -> schema_document (dict_update d new).
Proof.
  intros Hd Hnew k v. unfold dict_update. rewrite lookup_union_Some_raw.
  intros [H|[_ H]]; [by apply (Hnew k)|by apply (Hd k)].
Qed.

(** C6.  Saving and loading again give the configuration back.  For a
    session whose document is of the declared schema (every value a
    scalar or a list of strings): after a successful save the document
    in memory is of the schema and holds, under the nine keys of the
    schema, the values of the controls and the ticked checkboxes; it is
    the document written; the [json] module reads its text of this
    document back as the very document; and [load_config] returns
    exactly this document.  The [json] module is the reference one, which
    [load_dump] shows lossless on every document of the schema. *)
Theorem save_load_roundtrip show_msg (st st' : session) :
  schema_document (config_data (fst st)) ->
  save_config Json.dump show_msg st = (Returns true, st') ->
  read_fault (snd st') = None ->
  schema_document (config_data (fst st'))
  /\ config_file (snd st') = Some (Json.dump (VDict (config_data (fst st'))))
  /\ Json.load (Json.dump (VDict (config_data (fst st'))))
     = Returns (VDict (config_data (fst st')))
  /\ load_config Json.load (snd st') = (Returns (VDict (config_data (fst st'))), snd st')
  /\ exists speed population scale randomness bg_cycle_seconds,
       speed_var (fst st) = Returns speed
       /\ population_var (fst st) = Returns population
       /\ scale_var (fst st) = Returns scale
       /\ rand_var (fst st) = Returns randomness
       /\ bg_cycle_sec_var (fst st) = Returns bg_cycle_seconds
       /\ config_data (fst st') !! "speed" = Some (VFloat speed)
       /\ config_data (fst st') !! "population" = Some (VInt population)
       /\ config_data (fst st') !! "scale" = Some (VFloat scale)
       /\ config_data (fst st') !! "randomness" = Some (VFloat randomness)
       /\ config_data (fst st') !! "background_effect" = Some (VStr (bg_var (fst st)))
       /\ config_data (fst st') !! "cycle_settings"
          = Some (VBool (cycle_settings_var (fst st)))
       /\ config_data (fst st') !! "bg_cycle_seconds" = Some (VInt bg_cycle_seconds)
       /\ config_data (fst st') !! "lens_effect" = Some (VStr (lens_var (fst st)))
       /\ config_data (fst st') !! "enabled_characters"
          = Some (VList (VStr <$> chosen_chars (fst st))).
Proof.
  intros Hdoc Hsave Hread.
  destruct (save_config_success Json.dump show_msg st st' Hsave)
    as (new & Hc & Hn & Hw & Hself & Hworld).
  assert (Hfile : config_file (snd st')
                  = Some (Json.dump (VDict (config_data (fst st'))))).
  { rewrite Hworld at 1. by rewrite config_file_report. }
  assert (Hdoc' : schema_document (config_data (fst st'))).
  { rewrite Hself. simpl config_data.
    apply dict_update_schema; [done|]. by apply (new_config_schema _ _ _ Hn). }
  pose proof (load_dump _ Hdoc') as Hjson.
  split; [done|]. split; [done|]. split; [done|]. split.
  - rewrite load_config_unfold, Hfile, Hread, Hjson. done.
  - apply new_config_inv in Hn
      as (speed & population & scale & randomness & bg & H1 & H2 & H3 & H4 & H5 & ->).
    exists speed, population, scale, randomness, bg.
    rewrite Hself. simpl config_data.
    repeat split; try done; rewrite dict_update_lookup; reflexivity.
Qed.

(** ** Concrete sessions *)

Example ghost_session_starts :
  init Json.load Py.str Py.float Py.int ghost_world = (Returns ghost_self, ghost_world).
Proof. vm_compute. reflexivity. Qed.

(** C1, counterexample.  config.json selects ghost.svg, the catalog is
    a.svg; the user ticks a.svg and saves, never touching a control of
    ghost.svg (there is none).  The save succeeds and the document written
    selects a.svg only. *)
Lemma stale_identifier_dropped_on_save :
  init Json.load Py.str Py.float Py.int ghost_world = (Returns ghost_self, ghost_world)
  /\ VStr "ghost.svg" ∈ saved_chars (config_data ghost_self)
  /\ ("ghost.svg" ∉ available_assets ghost_self)
  /\ exists st' text,
       save_config Json.dump true (run Json.dump [Click "a.svg"] (ghost_self, ghost_world))
         = (Returns true, st')
       /\ config_file (snd st') = Some text
       /\ Json.load text = Returns (VDict (config_data (fst st')))
       /\ saved_chars (config_data (fst st')) = [VStr "a.svg"]
       /\ VStr "ghost.svg" ∉ saved_chars (config_data (fst st')).
Proof.
  split; [vm_compute; reflexivity|].
  split; [apply list_elem_of_here|].
  split; [by intros [= ]%list_elem_of_singleton|].
  eexists _, _. split; [vm_compute; reflexivity|].
  split; [vm_compute; reflexivity|].
  split; [vm_compute; reflexivity|].
  split; [vm_compute; reflexivity|].
  by intros [= ]%list_elem_of_singleton.
Qed.

(** C1, witness of the amended statement: the session of the
    counterexample. *)
Lemma stale_identifier_not_saved_witness :
  init Json.load Py.str Py.float Py.int ghost_world = (Returns ghost_self, ghost_world)
  /\ ("ghost.svg" ∉ available_assets ghost_self)
  /\ save_config Json.dump true (run Json.dump [Click "a.svg"] (ghost_self, ghost_world))
     = (Returns true, saved_session)
  /\ (config_file (snd saved_session)
        = Some (Json.dump (VDict (config_data (fst saved_session))))
      /\ saved_chars (config_data (fst saved_session))
         = VStr <$> chosen_chars (fst (run Json.dump [Click "a.svg"] (ghost_self, ghost_world)))
      /\ VStr "ghost.svg" ∉ saved_chars (config_data (fst saved_session))).
Proof.
  assert (H1 : init Json.load Py.str Py.float Py.int ghost_world
               = (Returns ghost_self, ghost_world)) by (vm_compute; reflexivity).
  assert (H2 : "ghost.svg" ∉ available_assets ghost_self)
    by (by intros [= ]%list_elem_of_singleton).
  assert (H3 : save_config Json.dump true
                 (run Json.dump [Click "a.svg"] (ghost_self, ghost_world))
               = (Returns true, saved_session)) by (vm_compute; reflexivity).
  split; [exact H1|]. split; [exact H2|]. split; [exact H3|].
  exact (stale_identifier_not_saved Json.dump Json.load Py.str Py.float Py.int ghost_world
           ghost_self ghost_world [Click "a.svg"] true saved_session "ghost.svg" H1 H2 H3).
Defined.

(** C2, witness: the session as it starts, with a.svg not ticked. *)
Lemma empty_selection_rejected_witness :
  chosen_chars ghost_self = []
  /\ exists w',
       save_config Json.dump true (ghost_self, ghost_world) = (Returns false, (ghost_self, w'))
       /\ w' = report true MSG_EMPTY ghost_world
       /\ config_file w' = config_file ghost_world
       /\ dialogs w' = (dialogs ghost_world ++ [MSG_EMPTY])%list.
Proof.
  split; [reflexivity|].
  exact (empty_selection_rejected Json.dump true (ghost_self, ghost_world) eq_refl).
Defined.

(** C3, counterexample.  No checkbox is ticked and the speed is not a
    number: the message shown is the empty-selection error, not the
    numeric-format error. *)
Lemma empty_selection_shown_for_bad_speed :
  chosen_chars (set_controls bad_speed_controls ghost_self) = []
  /\ non_numeric (speed_var (set_controls bad_speed_controls ghost_self))
  /\ dialogs (snd (snd (save_config Json.dump true
                          (set_controls bad_speed_controls ghost_self, ghost_world))))
     = [ShowError "Error" "You must select at least one character."]
  /\ ShowError "Error" "You must select at least one character."
     <> ShowError "Error" "Invalid numeric values entered.".
Proof. repeat split; try reflexivity. discriminate. Qed.

(** C3, witness of the amended statement. *)
Lemma empty_selection_checked_first_witness :
  chosen_chars (set_controls bad_speed_controls ghost_self) = []
  /\ some_non_numeric (set_controls bad_speed_controls ghost_self)
  /\ (save_config Json.dump true (set_controls bad_speed_controls ghost_self, ghost_world)
      = (Returns false,
         (set_controls bad_speed_controls ghost_self, add_dialog MSG_EMPTY ghost_world))
      /\ dialogs (snd (snd (save_config Json.dump true
                              (set_controls bad_speed_controls ghost_self, ghost_world))))
         = (dialogs ghost_world ++ [MSG_EMPTY])%list
      /\ MSG_EMPTY <> MSG_NUMERIC).
Proof.
  assert (H : some_non_numeric (set_controls bad_speed_controls ghost_self))
    by (left; exact I).
  split; [reflexivity|]. split; [exact H|].
  exact (empty_selection_checked_first Json.dump
           (set_controls bad_speed_controls ghost_self, ghost_world) eq_refl H).
Defined.

(** C8, counterexample.  The assets directory being absent, no checkbox
    exists; the user types a text as the cycle time and saves: the save
    fails with the empty-selection error, not with the numeric-format
    error. *)
Lemma numeric_error_hidden_by_empty_selection :
  init Json.load Py.str Py.float Py.int bare_world = (Returns bare_self, bare_world)
  /\ run Json.dump [Edit bad_cycle_controls] (bare_self, bare_world)
     = (set_controls bad_cycle_controls bare_self, bare_world)
  /\ non_numeric (bg_cycle_sec_var (set_controls bad_cycle_controls bare_self))
  /\ save_config Json.dump true (set_controls bad_cycle_controls bare_self, bare_world)
     = (Returns false,
        (set_controls bad_cycle_controls bare_self, add_dialog MSG_EMPTY bare_world))
  /\ config_file (add_dialog MSG_EMPTY bare_world) = config_file bare_world
  /\ MSG_EMPTY <> MSG_NUMERIC.
Proof.
  split; [vm_compute; reflexivity|]. split; [reflexivity|].
  split; [exact I|]. split; [vm_compute; reflexivity|].
  split; [reflexivity|]. discriminate.
Qed.

(** C8, witness of the amended statement: a.svg is ticked and the cycle
    time is a text, which the Tk variable refuses with a [TclError]. *)
Lemma numeric_rejection_witness :
  some_non_numeric (set_controls bad_cycle_controls (fst ticked_session))
  /\ exists d message,
       save_config Json.dump true
         (set_controls bad_cycle_controls (fst ticked_session), ghost_world)
       = (Returns false,
          (set_controls bad_cycle_controls (fst ticked_session), report true d ghost_world))
       /\ config_file (report true d ghost_world) = config_file ghost_world
       /\ d = ShowError "Error" message
       /\ (chosen_chars (set_controls bad_cycle_controls (fst ticked_session)) = []
           -> d = MSG_EMPTY)
       /\ (chosen_chars (set_controls bad_cycle_controls (fst ticked_session)) <> []
           -> all_number_or_not (set_controls bad_cycle_controls (fst ticked_session))
           -> d = MSG_NUMERIC).
Proof.
  assert (H1 : some_non_numeric (set_controls bad_cycle_controls (fst ticked_session)))
    by (do 4 right; exact I).
  split; [exact H1|].
  exact (numeric_rejection Json.dump true
           (set_controls bad_cycle_controls (fst ticked_session), ghost_world) H1).
Defined.

Example numeric_rejection_shown :
  save_config Json.dump true
    (set_controls bad_cycle_controls (fst ticked_session), ghost_world)
  = (Returns false,
     (set_controls bad_cycle_controls (fst ticked_session),
      add_dialog (MSG_NOT_SAVED (tcl_error "soon")) ghost_world)).
Proof. vm_compute. reflexivity. Qed.

(** C4, witness: no config.json, and a config.json that is not JSON. *)
Lemma load_config_default_fallback_witness :
  config_file bare_world = None
  /\ Json.load "{oops"
     = Raises (ValueError "Expecting property name enclosed in double quotes")
  /\ load_config Json.load bare_world = (Returns (VDict DEFAULT_CONFIG), bare_world)
  /\ load_config Json.load broken_world
     = (Returns (VDict DEFAULT_CONFIG),
        add_stdout
          "Error loading config: Expecting property name enclosed in double quotes"
          broken_world).
Proof.
  assert (H : Json.load "{oops"
              = Raises (ValueError "Expecting property name enclosed in double quotes"))
    by (vm_compute; reflexivity).
  split; [reflexivity|]. split; [exact H|]. split.
  - destruct (load_config_default_fallback Json.load bare_world (or_introl eq_refl))
      as (w' & Hl & _).
    vm_compute. reflexivity.
  - destruct (load_config_default_fallback Json.load broken_world
                (or_intror (ex_intro _ "{oops" (conj eq_refl (or_intror (ex_intro _ _ H))))))
      as (w' & Hl & _).
    vm_compute. reflexivity.
Defined.

(** C5, witness: no config.json, so the defaults with their empty
    selection are loaded, and the catalog a.svg, b.svg, c.svg. *)
Lemma reconciliation_at_start_witness :
  load_config Json.load fresh_world = (Returns (VDict DEFAULT_CONFIG), fresh_world)
  /\ numeric_fields_convert Py.str Py.float Py.int DEFAULT_CONFIG
  /\ saved_chars DEFAULT_CONFIG = []
  /\ init Json.load Py.str Py.float Py.int fresh_world = (Returns fresh_self, fresh_world)
  /\ saved_chars (config_data fresh_self) = [VStr "a.svg"; VStr "b.svg"; VStr "c.svg"]
  /\ exists self assets,
       init Json.load Py.str Py.float Py.int fresh_world = (Returns self, fresh_world)
       /\ get_available_assets fresh_world = (Returns assets, fresh_world)
       /\ available_assets self = assets
       /\ (forall k, k <> "enabled_characters" ->
           config_data self !! k = DEFAULT_CONFIG !! k)
       /\ (saved_chars DEFAULT_CONFIG = [] ->
           config_data self
           = <["enabled_characters" := VList (VStr <$> assets)]> DEFAULT_CONFIG
           /\ saved_chars (config_data self) = VStr <$> assets)
       /\ (saved_chars DEFAULT_CONFIG = [] -> assets = [] ->
           saved_chars (config_data self) = [])
       /\ (saved_chars DEFAULT_CONFIG <> [] -> config_data self = DEFAULT_CONFIG).
Proof.
  assert (H1 : load_config Json.load fresh_world
               = (Returns (VDict DEFAULT_CONFIG), fresh_world)) by (vm_compute; reflexivity).
  assert (H2 : numeric_fields_convert Py.str Py.float Py.int DEFAULT_CONFIG)
    by (repeat split; eexists; vm_compute; reflexivity).
  split; [exact H1|]. split; [exact H2|]. split; [reflexivity|].
  split; [vm_compute; reflexivity|]. split; [vm_compute; reflexivity|].
  exact (reconciliation_at_start Json.load Py.str Py.float Py.int fresh_world
           DEFAULT_CONFIG fresh_world H1 H2).
Defined.

(** C6, witness: the document of the ticked session is of the schema;
    its save is read back by [load_config] as the document saved. *)
Lemma save_load_roundtrip_witness :
  schema_document (config_data (fst ticked_session))
  /\ save_config Json.dump true ticked_session = (Returns true, saved_session)
  /\ read_fault (snd saved_session) = None
  /\ load_config Json.load (snd saved_session)
     = (Returns (VDict (config_data (fst saved_session))), snd saved_session)
  /\ config_data (fst saved_session)
     = <["enabled_characters" := VList [VStr "a.svg"]]> ghost_doc.
Proof.
  assert (H0 : schema_document (config_data (fst ticked_session)))
    by (apply (bool_decide_unpack (schema_document (config_data (fst ticked_session))));
        vm_compute; exact I).
  assert (H1 : save_config Json.dump true ticked_session = (Returns true, saved_session))
    by (vm_compute; reflexivity).
  assert (H2 : read_fault (snd saved_session) = None) by reflexivity.
  destruct (save_load_roundtrip true ticked_session saved_session H0 H1 H2)
    as (_ & _ & _ & Hload & _).
  split; [exact H0|]. split; [exact H1|]. split; [exact H2|]. split; [exact Hload|].
  vm_compute. reflexivity.
Defined.

(** C7, witness: config.json carries the key theme, which the editor
    does not manage; the document saved still maps it to dark. *)
Lemma extra_keys_preserved_witness :
  load_config Json.load ghost_world = (Returns (VDict ghost_doc), ghost_world)
  /\ init Json.load Py.str Py.float Py.int ghost_world = (Returns ghost_self, ghost_world)
  /\ save_config Json.dump true (run Json.dump [Click "a.svg"] (ghost_self, ghost_world))
     = (Returns true, saved_session)
  /\ ("theme" ∉ managed_keys)
  /\ ghost_doc !! "theme" = Some (VStr "dark")
  /\ (config_file (snd saved_session)
        = Some (Json.dump (VDict (config_data (fst saved_session))))
      /\ config_data (fst saved_session) !! "theme" = ghost_doc !! "theme").
Proof.
  assert (H1 : load_config Json.load ghost_world
               = (Returns (VDict ghost_doc), ghost_world)) by (vm_compute; reflexivity).
  assert (H2 : init Json.load Py.str Py.float Py.int ghost_world
               = (Returns ghost_self, ghost_world)) by (vm_compute; reflexivity).
  assert (H3 : save_config Json.dump true
                 (run Json.dump [Click "a.svg"] (ghost_self, ghost_world))
               = (Returns true, saved_session)) by (vm_compute; reflexivity).
  assert (H4 : "theme" ∉ managed_keys)
    by (apply (bool_decide_unpack ("theme" ∉ managed_keys)); vm_compute; exact I).
  split; [exact H1|]. split; [exact H2|]. split; [exact H3|]. split; [exact H4|].
  split; [vm_compute; reflexivity|].
  exact (extra_keys_preserved Json.dump Json.load Py.str Py.float Py.int ghost_world
           ghost_doc ghost_world ghost_self ghost_world [Click "a.svg"] true
           saved_session "theme" H1 H2 H3 H4).
Defined.

(** C10, witness: the catalog is a.svg, b.svg, c.svg and b.svg is
    unticked; the selection saved is a.svg, c.svg. *)
Lemma saved_selection_is_catalog_subsequence_witness :
  init Json.load Py.str Py.float Py.int fresh_world = (Returns fresh_self, fresh_world)
  /\ save_config Json.dump true (run Json.dump [Click "b.svg"] (fresh_self, fresh_world))
     = (Returns true, resaved_session)
  /\ saved_chars (config_data (fst resaved_session)) = [VStr "a.svg"; VStr "c.svg"]
  /\ exists chosen,
       config_file (snd resaved_session)
         = Some (Json.dump (VDict (config_data (fst resaved_session))))
       /\ config_data (fst resaved_session) !! "enabled_characters"
          = Some (VList (VStr <$> chosen))
       /\ chosen <> []
       /\ chosen `sublist_of` available_assets fresh_self
       /\ available_assets (fst resaved_session) = available_assets fresh_self.
Proof.
  assert (H1 : init Json.load Py.str Py.float Py.int fresh_world
               = (Returns fresh_self, fresh_world)) by (vm_compute; reflexivity).
  assert (H2 : save_config Json.dump true
                 (run Json.dump [Click "b.svg"] (fresh_self, fresh_world))
               = (Returns true, resaved_session)) by (vm_compute; reflexivity).
  split; [exact H1|]. split; [exact H2|]. split; [vm_compute; reflexivity|].
  exact (saved_selection_is_catalog_subsequence Json.dump Json.load Py.str Py.float Py.int
           fresh_world fresh_self fresh_world [Click "b.svg"] true resaved_session H1 H2).
Defined.

(** C9, witness: in the ticked session without a browser, the preview
    saves, asks for the two processes and shows the preview error; in the
    session as it starts, nothing is ticked, and the preview asks for no
    process. *)
Lemma preview_sequencing_witness :
  (exists st',
     preview_screensaver Json.dump (fst ticked_session, no_browser ghost_world)
       = (Returns tt, st')
     /\ popen_calls (snd st') = [SERVER_CMD; BROWSER_CMD]
     /\ processes (snd st') = [SERVER_CMD]
     /\ dialogs (snd st')
        = [MSG_PREVIEW (Exception "[Errno 2] No such file or directory: 'chromium-browser'")])
  /\ (exists st',
        preview_screensaver Json.dump (ghost_self, no_browser ghost_world) = (Returns tt, st')
        /\ fst (save_config Json.dump false (ghost_self, no_browser ghost_world))
           = Returns false
        /\ popen_calls (snd st') = []
        /\ dialogs (snd st') = []).
Proof.
  split.
  - destruct (preview_sequencing Json.dump (fst ticked_session, no_browser ghost_world))
      as (st' & Hp & _).
    eexists. split; [vm_compute; reflexivity|]. by repeat split.
  - eexists. split; [vm_compute; reflexivity|]. by repeat split.
Defined.

(** * Further properties of the editor *)

Section Coverage.

Variable json_dump : value -> string.
Variable json_load : string -> outcome value.
Variable builtin_str : value -> string.
Variable builtin_float : string -> outcome float.
Variable builtin_int : string -> outcome Z.

(** ** Asset discovery *)

Lemma append_snoc_assoc seen c rest :
  (seen ++ String c EmptyString) ++ rest = seen ++ String c rest.
Proof.
  induction seen as [|a seen IH]; [done|]. rewrite !append_cons. by f_equal.
Qed.

Lemma basename_from_plain name seen :
  plain_name name = true -> basename_from seen name = seen ++ name.
Proof.
  revert seen. induction name as [|c rest IH]; intros seen; simpl.
  - by rewrite append_empty_r.
  - intros [Hc Hrest]%andb_prop. apply negb_true_iff in Hc. rewrite Hc.
    rewrite IH by done. apply append_snoc_assoc.
Qed.

Lemma basename_from_dir dir name seen :
  basename_from seen (dir ++ String "/"%char name) = basename_from EmptyString name.
Proof.
  revert seen. induction dir as [|c dir IH]; intros seen; [done|].
  rewrite append_cons. simpl. destruct (Ascii.eqb c "/"%char); apply IH.
Qed.

Lemma basename_path_join dir name :
  plain_name name = true -> basename (path_join dir name) = name.
Proof.
  intros Hplain. unfold basename, path_join.
  change ("/" ++ name) with (String "/"%char name).
  rewrite basename_from_dir. by rewrite basename_from_plain.
Qed.

Lemma basename_glob_svg dir listing :
  Forall (fun name => plain_name name = true) listing ->
  basename <$> glob_svg dir listing = List.filter matches_svg listing.
Proof.
  unfold glob_svg. induction 1 as [|name listing Hname _ IH]; simpl; [done|].
  destruct (matches_svg name); csimpl; [|done].
  by rewrite basename_path_join, IH.
Qed.

(** X1.  [get_available_assets] on an assets directory that exists returns,
    in the order of the listing, the names of its entries that end in
    [.svg] and do not start with a dot: the directory is stripped from the
    paths [glob] gives, and the environment is left as it was. *)
Theorem get_available_assets_lists_svg_names w listing :
  assets_dir w = Some listing ->
  Forall (fun name => plain_name name = true) listing ->
  get_available_assets w = (Returns (List.filter matches_svg listing), w)
  /\ List.filter matches_svg listing `sublist_of` listing
  /\ Forall (fun asset => matches_svg asset = true) (List.filter matches_svg listing).
Proof.
  intros Hdir Hplain. unfold get_available_assets. rewrite Hdir.
  rewrite basename_glob_svg by done. split; [done|]. split.
  - clear. induction listing as [|name listing IH]; simpl; [done|].
    destruct (matches_svg name); by constructor.
  - clear. induction listing as [|name listing IH]; simpl; [done|].
    destruct (matches_svg name) eqn:Hm; [by constructor|done].
Qed.


(** ** The checkboxes at the start *)

Lemma dict_set_fresh {V} k (v : V) (d : list (string * V)) :
  k ∉ d.*1 -> dict_set k v d = (d ++ [(k, v)])%list.
Proof.
  induction d as [|[k' v'] d IH]; csimpl; [done|].
  rewrite not_elem_of_cons. intros [Hne Hin].
  destruct (String.eqb_spec k k'); [done|]. by rewrite IH.
Qed.

Lemma foldl_dict_set_fresh (f : string -> bool) assets (cv : list (string * bool)) :
  NoDup assets ->
  (forall a, a ∈ assets -> a ∉ cv.*1) ->
  foldl (fun cv asset => dict_set asset (f asset) cv) cv assets
  = (cv ++ ((fun a => (a, f a)) <$> assets))%list.
Proof.
  revert cv. induction assets as [|a assets IH]; intros cv Hnd Hfresh; csimpl.
  - by rewrite app_nil_r.
  - apply NoDup_cons in Hnd as [Hna Hnd].
    rewrite dict_set_fresh by (apply Hfresh, list_elem_of_here).
    rewrite IH; [by rewrite <- app_assoc|done|].
    intros b Hb. rewrite fmap_app. csimpl. rewrite not_elem_of_app. split.
    + by apply Hfresh, list_elem_of_further.
    + intros ->%list_elem_of_singleton. done.
Qed.

Lemma build_chars_tab_fresh self :
  char_vars self = [] ->
  NoDup (available_assets self) ->
  char_vars (build_chars_tab self)
  = checkbox_of (saved_chars (config_data self)) <$> available_assets self.
Proof.
  intros Hcv Hnd. unfold build_chars_tab.
  destruct (available_assets self) as [|a assets] eqn:Ha; [done|].
  cbn [char_vars set_char_vars]. rewrite Hcv.
  rewrite foldl_dict_set_fresh; [done|done|].
  intros ? _. apply not_elem_of_nil.
Qed.

Lemma chosen_of_checkboxes saved assets :
  (List.filter snd (checkbox_of saved <$> assets)).*1
  = List.filter (fun asset => py_in asset saved) assets.
Proof.
  induction assets as [|a assets IH]; csimpl; [done|].
  destruct (py_in a saved); csimpl; by rewrite IH.
Qed.

Lemma py_in_selection asset assets :
  py_in asset (VStr <$> assets) = bool_decide (asset ∈ assets).
Proof.
  unfold py_in. induction assets as [|a assets IH]; csimpl; [done|].
  rewrite IH. destruct (String.eqb_spec asset a) as [->|Hne]; simpl.
  - symmetry. apply bool_decide_eq_true_2, list_elem_of_here.
  - apply bool_decide_ext. rewrite elem_of_cons.
    split; [auto|by intros [?|?]].
Qed.

Lemma filter_all {A} (f : A -> bool) l :
  (forall a, a ∈ l -> f a = true) -> List.filter f l = l.
Proof.
  induction l as [|a l IH]; intros Hall; simpl; [done|].
  rewrite (Hall a) by apply list_elem_of_here.
  rewrite IH; [done|]. intros b Hb. by apply Hall, list_elem_of_further.
Qed.

(** What a session that starts went through. *)
Lemma init_success w0 self0 w1 :
  init json_load builtin_str builtin_float builtin_int w0 = (Returns self0, w1) ->
  exists doc assets,
    load_config json_load w0 = (Returns (VDict doc), w1)
    /\ get_available_assets w1 = (Returns assets, w1)
    /\ config_data self0 = initialize_enabled_characters doc assets
    /\ available_assets self0 = assets
    /\ (NoDup assets ->
        char_vars self0
        = checkbox_of (saved_chars (initialize_enabled_characters doc assets)) <$> assets).
Proof.
  intros (doc & assets & tab & Hload & Hget & Htab & ->)%init_returns.
  destruct (build_config_tab_frame _ _ _ _ _ Htab) as (Hdata & Hassets & Hcv).
  destruct (build_chars_tab_frame tab) as (Hdata' & Hassets').
  simpl in Hdata, Hassets, Hcv.
  exists doc, assets. rewrite Hdata', Hassets', Hdata, Hassets.
  do 4 (split; [done|]). intros Hnd.
  rewrite (build_chars_tab_fresh tab) by (by rewrite ?Hassets). by rewrite Hdata, Hassets.
Qed.

(** X2.  At the start of a session [build_chars_tab] makes one checkbox
    per asset of the catalog, in the order of the catalog, and ticks it
    exactly when the document in memory selects the asset: the checkboxes
    ticked at the start are the assets of the catalog that the document
    selects, entries of the selection that are not strings or not in the
    catalog counting for nothing. *)
Theorem initial_checkboxes_follow_document w0 self0 w1 :
  init json_load builtin_str builtin_float builtin_int w0 = (Returns self0, w1) ->
  NoDup (available_assets self0) ->
  char_vars self0
  = checkbox_of (saved_chars (config_data self0)) <$> available_assets self0
  /\ chosen_chars self0
     = List.filter (fun asset => py_in asset (saved_chars (config_data self0)))
         (available_assets self0).
Proof.
  intros Hinit Hnd.
  destruct (init_success _ _ _ Hinit) as (doc & assets & _ & _ & Hdata & Hassets & Hcv).
  rewrite Hassets in *. rewrite Hdata.
  specialize (Hcv Hnd). split; [done|].
  unfold chosen_chars. rewrite Hcv. apply chosen_of_checkboxes.
Qed.

(** X3.  When the document loaded holds no selection (no config.json, an
    empty list, a missing key or a value that is not a list), the session
    starts with every checkbox ticked: the selection a save would write
    is the whole catalog. *)
Theorem fresh_session_selects_whole_catalog w0 doc self0 w1 :
  fst (load_config json_load w0) = Returns (VDict doc) ->
  saved_chars doc = [] ->
  init json_load builtin_str builtin_float builtin_int w0 = (Returns self0, w1) ->
  NoDup (available_assets self0) ->
  chosen_chars self0 = available_assets self0
  /\ Forall (fun box => snd box = true) (char_vars self0).
Proof.
  intros Hload Hempty Hinit Hnd.
  destruct (init_success _ _ _ Hinit) as (doc' & assets & Hl & _ & Hdata & Hassets & Hcv).
  rewrite Hl in Hload. injection Hload as ->.
  rewrite Hassets in *. specialize (Hcv Hnd).
  assert (Hsel : saved_chars (initialize_enabled_characters doc assets) = VStr <$> assets).
  { unfold initialize_enabled_characters. rewrite Hempty.
    unfold saved_chars. by rewrite lookup_insert_eq. }
  rewrite Hsel in Hcv. split.
  - unfold chosen_chars. rewrite Hcv, chosen_of_checkboxes.
    apply filter_all. intros a Ha. rewrite py_in_selection.
    by apply bool_decide_eq_true_2.
  - rewrite Hcv. apply Forall_fmap, Forall_forall. intros a Ha. simpl.
    rewrite py_in_selection. by apply bool_decide_eq_true_2.
Qed.

(** X4.  A config.json that holds valid JSON which is not an object (a
    list, a number, a string, ...) is not replaced by the defaults:
    [load_config] returns it as it is, and the constructor raises when it
    asks the value for a key.  Nothing is printed or shown. *)
Theorem init_rejects_non_object_document w text v :
  config_file w = Some text ->
  read_fault w = None ->
  json_load text = Returns v ->
  (forall d, v <> VDict d) ->
  load_config json_load w = (Returns v, w)
  /\ exists e, init json_load builtin_str builtin_float builtin_int w = (Raises e, w).
Proof.
  intros Hfile Hread Hjson Hv.
  assert (Hload : load_config json_load w = (Returns v, w))
    by (by rewrite load_config_unfold, Hfile, Hread, Hjson).
  split; [done|]. unfold init, bind. rewrite Hload.
  destruct (get_available_assets_world w) as (Hw & assets & Ha).
  destruct (get_available_assets w) as [r w']. simpl in Hw, Ha. subst.
  destruct v; try (eexists; reflexivity). by destruct (Hv d).
Qed.

(** What [load_config] leaves in the environment: nothing, or the line
    that reports the failure. *)
Lemma load_config_world w :
  snd (load_config json_load w) = w
  \/ exists e, snd (load_config json_load w)
               = add_stdout ("Error loading config: " ++ exn_str e) w.
Proof.
  rewrite load_config_unfold.
  destruct (config_file w); [|by left].
  destruct (read_fault w); [eauto|]. destruct (json_load _); eauto.
Qed.

Lemma init_world w :
  snd (init json_load builtin_str builtin_float builtin_int w) = snd (load_config json_load w).
Proof.
  unfold init, bind.
  destruct (load_config json_load w) as [[loaded|e] w0]; [|done].
  destruct (get_available_assets_world w0) as (Hw & assets & Ha).
  destruct (get_available_assets w0) as [r w0']. simpl in Hw, Ha. subst.
  by destruct loaded.
Qed.

(** X5.  Starting the editor writes nothing and shows nothing: whatever
    config.json and the assets directory hold, and whether the
    constructor returns or raises, config.json, the assets directory, the
    message boxes and the processes are as before; at most one line is
    printed, the report of a configuration that could not be loaded.  The
    reconciled selection is in memory only. *)
Theorem init_only_prints w :
  config_file (snd (init json_load builtin_str builtin_float builtin_int w)) = config_file w
  /\ assets_dir (snd (init json_load builtin_str builtin_float builtin_int w)) = assets_dir w
  /\ dialogs (snd (init json_load builtin_str builtin_float builtin_int w)) = dialogs w
  /\ popen_calls (snd (init json_load builtin_str builtin_float builtin_int w)) = popen_calls w
  /\ processes (snd (init json_load builtin_str builtin_float builtin_int w)) = processes w
  /\ (stdout (snd (init json_load builtin_str builtin_float builtin_int w)) = stdout w
      \/ exists e, stdout (snd (init json_load builtin_str builtin_float builtin_int w))
                   = (stdout w ++ [("Error loading config: " ++ exn_str e)%string])%list).
Proof.
  rewrite init_world.
  destruct (load_config_world w) as [->|[e ->]]; simpl; repeat split; eauto.
Qed.

(** ** Saving *)

Lemma read_fault_report show_msg d w :
  read_fault (report show_msg d w) = read_fault w.
Proof. by destruct show_msg. Qed.

Lemma write_fault_report show_msg d w :
  write_fault (report show_msg d w) = write_fault w.
Proof. by destruct show_msg. Qed.

Lemma new_config_managed self chosen new k :
  new_config self chosen = Returns new -> k ∈ managed_keys -> is_Some (new !! k).
Proof.
  intros Hn Hk. apply new_config_inv in Hn as (?&?&?&?&?&_&_&_&_&_&->).
  unfold managed_keys in Hk.
  repeat (apply elem_of_cons in Hk as [->|Hk]; [eexists; reflexivity|]).
  by apply elem_of_nil in Hk.
Qed.

(** The keys of the document after [config_data.update(new_config)]. *)
Lemma dict_update_keys self chosen new k :
  new_config self chosen = Returns new ->
  is_Some (dict_update (config_data self) new !! k)
  <-> k ∈ managed_keys \/ is_Some (config_data self !! k).
Proof.
  intros Hn. rewrite dict_update_lookup.
  destruct (decide (k ∈ managed_keys)) as [Hk|Hk].
  - destruct (new_config_managed _ _ _ _ Hn Hk) as [v ->]. split; eauto.
  - rewrite (new_config_unmanaged _ _ _ _ Hn Hk). split; [auto|by intros [?|?]].
Qed.

(** X6.  [save_config] returns [True] exactly when a checkbox is ticked,
    the five numeric controls can be read and config.json can be written;
    in every other case it returns [False]. *)
Theorem save_succeeds_iff show_msg (st : session) :
  fst (save_config json_dump show_msg st) = Returns true
  <-> chosen_chars (fst st) <> []
      /\ first_unreadable (fst st) = None
      /\ write_fault (snd st) = WriteOk.
Proof.
  rewrite save_config_unfold.
  pose proof (new_config_first_unreadable (fst st) (chosen_chars (fst st))) as Hn.
  destruct (chosen_chars (fst st)) as [|c cs]; [by split; [|intros [? _]]|].
  destruct (first_unreadable (fst st)) as [e|].
  - rewrite Hn. by split; [|intros (_ & ? & _)].
  - destruct Hn as [new ->]. simpl.
    destruct (write_fault (snd st)); simpl; by split; [|intros (_ & _ & ?)].
Qed.

(** X7.  With a checkbox ticked, the first numeric control that cannot be
    read (speed, population, scale, randomness, cycle time, in this
    order) decides the outcome alone: [save_config] returns [False], the
    object and config.json stay as they were, and the message is the
    numeric-format error for a [ValueError] and the could-not-save error,
    with the text of the exception, for any other exception. *)
Theorem first_unreadable_control_aborts_save show_msg (st : session) e :
  chosen_chars (fst st) <> [] ->
  first_unreadable (fst st) = Some e ->
  save_config json_dump show_msg st
    = (Returns false, (fst st, report show_msg (failure_dialog e) (snd st)))
  /\ config_file (report show_msg (failure_dialog e) (snd st)) = config_file (snd st)
  /\ (failure_dialog e = MSG_NUMERIC \/ failure_dialog e = MSG_NOT_SAVED e).
Proof.
  intros Hc He. rewrite save_config_unfold.
  pose proof (new_config_first_unreadable (fst st) (chosen_chars (fst st))) as Hn.
  rewrite He in Hn. rewrite Hn.
  destruct (chosen_chars (fst st)); [done|].
  split; [done|]. split; [apply config_file_report|].
  destruct e; auto.
Qed.

(** X8.  A save that fails when config.json is opened for writing is not
    rolled back: [save_config] returns [False] and config.json is as
    before, but the document in memory has already taken the values of
    the controls and the ticked checkboxes. *)
Theorem failed_write_is_not_rolled_back show_msg (st : session) e :
  chosen_chars (fst st) <> [] ->
  first_unreadable (fst st) = None ->
  write_fault (snd st) = OpenFails e ->
  exists self',
    save_config json_dump show_msg st
      = (Returns false, (self', report show_msg (failure_dialog e) (snd st)))
    /\ config_file (report show_msg (failure_dialog e) (snd st)) = config_file (snd st)
    /\ config_data self' !! "enabled_characters"
       = Some (VList (VStr <$> chosen_chars (fst st)))
    /\ config_data self' !! "background_effect" = Some (VStr (bg_var (fst st)))
    /\ config_data self' !! "cycle_settings" = Some (VBool (cycle_settings_var (fst st)))
    /\ config_data self' !! "lens_effect" = Some (VStr (lens_var (fst st))).
Proof.
  intros Hc Hr Hw. rewrite save_config_unfold.
  pose proof (new_config_first_unreadable (fst st) (chosen_chars (fst st))) as Hn.
  rewrite Hr in Hn. destruct Hn as [new Hn]. rewrite Hn, Hw.
  destruct (chosen_chars (fst st)) as [|c cs] eqn:Hch; [done|].
  eexists. split; [reflexivity|]. split; [apply config_file_report|].
  apply new_config_inv in Hn as (?&?&?&?&?&_&_&_&_&_&->).
  simpl config_data. repeat split; rewrite dict_update_lookup; reflexivity.
Qed.

(** X9.  A write of config.json that is interrupted while the document
    is dumped leaves the part written in the file.  When that part is not
    JSON, the configuration on disk is lost: the next [load_config]
    returns the defaults. *)
Theorem interrupted_write_loses_configuration show_msg (st : session) e written e' :
  chosen_chars (fst st) <> [] ->
  first_unreadable (fst st) = None ->
  write_fault (snd st) = DumpFails e written ->
  read_fault (snd st) = None ->
  json_load written = Raises e' ->
  exists st',
    save_config json_dump show_msg st = (Returns false, st')
    /\ config_file (snd st') = Some written
    /\ fst (load_config json_load (snd st')) = Returns (VDict DEFAULT_CONFIG).
Proof.
  intros Hc Hr Hw Hread Hjson. rewrite save_config_unfold.
  pose proof (new_config_first_unreadable (fst st) (chosen_chars (fst st))) as Hn.
  rewrite Hr in Hn. destruct Hn as [new Hn]. rewrite Hn, Hw.
  destruct (chosen_chars (fst st)) as [|c cs] eqn:Hch; [done|].
  eexists. split; [reflexivity|]. simpl.
  split; [by rewrite config_file_report|].
  rewrite load_config_unfold, config_file_report, read_fault_report. simpl.
  by rewrite Hread, Hjson.
Qed.

(** X10.  Saving is idempotent: a save that follows a successful save,
    with nothing done in between, succeeds as well and leaves the
    document in memory and config.json as the first save left them. *)
Theorem save_is_idempotent show_msg show_msg' (st st' : session) :
  save_config json_dump show_msg st = (Returns true, st') ->
  exists st'',
    save_config json_dump show_msg' st' = (Returns true, st'')
    /\ fst st'' = fst st'
    /\ config_file (snd st'') = config_file (snd st').
Proof.
  intros Hsave.
  destruct (save_config_success _ _ _ _ Hsave) as (new & Hc & Hn & Hw & Hself & Hworld).
  rewrite save_config_unfold.
  assert (Hc' : chosen_chars (fst st') = chosen_chars (fst st)) by (by rewrite Hself).
  assert (Hn' : new_config (fst st') (chosen_chars (fst st')) = Returns new)
    by (by rewrite Hc', Hself).
  assert (Hw' : write_fault (snd st') = WriteOk)
    by (by rewrite Hworld, write_fault_report).
  rewrite Hn', Hw'. destruct (chosen_chars (fst st')) as [|c cs] eqn:Hch; [congruence|].
  assert (Hdoc : dict_update (config_data (fst st')) new = config_data (fst st')).
  { rewrite Hself. unfold dict_update. simpl.
    by rewrite (assoc_L (∪)), (idemp_L (∪)). }
  eexists. split; [reflexivity|]. simpl. rewrite Hdoc. split.
  - rewrite Hself. reflexivity.
  - rewrite config_file_report. simpl. rewrite Hworld.
    by rewrite config_file_report.
Qed.

(** X11.  Every save with [show_msg] shows exactly one message box, the
    success message when and only when it returns [True]; a save without
    [show_msg] shows none.  No save prints, or asks for a process. *)
Theorem save_shows_one_message (st : session) :
  (exists d,
     dialogs (snd (snd (save_config json_dump true st))) = (dialogs (snd st) ++ [d])%list
     /\ (d = MSG_SAVED <-> fst (save_config json_dump true st) = Returns true))
  /\ dialogs (snd (snd (save_config json_dump false st))) = dialogs (snd st)
  /\ forall show_msg,
       stdout (snd (snd (save_config json_dump show_msg st))) = stdout (snd st)
       /\ popen_calls (snd (snd (save_config json_dump show_msg st))) = popen_calls (snd st)
       /\ processes (snd (snd (save_config json_dump show_msg st))) = processes (snd st).
Proof.
  rewrite !save_config_unfold. split; [|split].
  - destruct (chosen_chars (fst st)); [by eexists|].
    destruct (new_config (fst st) _) as [new|e]; [|by eexists; split; [|destruct e]].
    simpl. destruct (write_fault (snd st)) as [|e|e written];
      eexists; (split; [reflexivity|]); simpl; try done; by destruct e.
  - destruct (chosen_chars (fst st)); [done|].
    destruct (new_config (fst st) _); [|done].
    simpl. by destruct (write_fault (snd st)).
  - intros show_msg. rewrite save_config_unfold.
    destruct (chosen_chars (fst st)); [by destruct show_msg|].
    destruct (new_config (fst st) _); [|by destruct show_msg].
    simpl. by destruct (write_fault (snd st)), show_msg.
Qed.

(** X12.  A successful save removes no key and defines the nine managed
    keys: the document written has a value under a key exactly when the
    key is managed or the document in memory had one before. *)
Theorem saved_document_keys show_msg (st st' : session) k :
  save_config json_dump show_msg st = (Returns true, st') ->
  config_file (snd st') = Some (json_dump (VDict (config_data (fst st'))))
  /\ (is_Some (config_data (fst st') !! k)
      <-> k ∈ managed_keys \/ is_Some (config_data (fst st) !! k)).
Proof.
  intros Hsave.
  destruct (save_config_success _ _ _ _ Hsave) as (new & Hc & Hn & Hw & Hself & Hworld).
  split; [rewrite Hworld at 1; by rewrite config_file_report|].
  rewrite Hself. simpl. by apply (dict_update_keys _ _ _ _ Hn).
Qed.


(** ** What a save and a preview leave alone *)

Lemma set_config_data_same self : set_config_data (config_data self) self = self.
Proof. by destruct self. Qed.

(** [save_config] changes the document of the object and nothing else of
    it. *)
Lemma save_config_object show_msg (st : session) :
  exists d, fst (snd (save_config json_dump show_msg st)) = set_config_data d (fst st).
Proof.
  destruct (save_config_self json_dump show_msg st) as [->|(new & _ & ->)]; [|eauto].
  exists (config_data (fst st)). by rewrite set_config_data_same.
Qed.

Lemma save_config_frame show_msg (st : session) :
  assets_dir (snd (snd (save_config json_dump show_msg st))) = assets_dir (snd st)
  /\ read_fault (snd (snd (save_config json_dump show_msg st))) = read_fault (snd st)
  /\ write_fault (snd (snd (save_config json_dump show_msg st))) = write_fault (snd st)
  /\ popen_fault (snd (snd (save_config json_dump show_msg st))) = popen_fault (snd st)
  /\ stdout (snd (snd (save_config json_dump show_msg st))) = stdout (snd st)
  /\ popen_calls (snd (snd (save_config json_dump show_msg st))) = popen_calls (snd st)
  /\ processes (snd (snd (save_config json_dump show_msg st))) = processes (snd st).
Proof.
  rewrite save_config_unfold.
  destruct (chosen_chars (fst st)); [by destruct show_msg|].
  destruct (new_config (fst st) _); [|by destruct show_msg].
  simpl. by destruct (write_fault (snd st)) eqn:Hw, show_msg.
Qed.

Lemma save_config_dialogs show_msg (st : session) :
  dialogs (snd st) `prefix_of` dialogs (snd (snd (save_config json_dump show_msg st))).
Proof.
  assert (Hreport : forall d w, dialogs (snd st) = dialogs w ->
            dialogs (snd st) `prefix_of` dialogs (report show_msg d w)).
  { intros d w ->. rewrite dialogs_report.
    destruct show_msg; [by apply prefix_app_r|done]. }
  rewrite save_config_unfold.
  destruct (chosen_chars (fst st)); [by apply Hreport|].
  destruct (new_config (fst st) _); simpl; [|by apply Hreport].
  destruct (write_fault (snd st)); simpl; by apply Hreport.
Qed.

Lemma save_config_keeps_file show_msg (st : session) :
  is_Some (config_file (snd st)) ->
  is_Some (config_file (snd (snd (save_config json_dump show_msg st)))).
Proof.
  intros Hfile. rewrite save_config_unfold.
  destruct (chosen_chars (fst st)); [cbn [snd]; by rewrite config_file_report|].
  destruct (new_config (fst st) _); [|cbn [snd]; by rewrite config_file_report].
  cbv zeta. destruct (write_fault (snd st)); cbn [snd];
    rewrite config_file_report; simpl; eauto.
Qed.

(** ** Preview *)

(** X13.  When the silent save succeeds and the operating system starts
    both processes, the preview starts the web server first and the
    browser second, shows no message, and leaves the object and
    config.json as the save left them. *)
Theorem preview_starts_server_then_browser (st st1 : session) :
  save_config json_dump false st = (Returns true, st1) ->
  launch_fault (snd st) = None ->
  exists st',
    preview_screensaver json_dump st = (Returns tt, st')
    /\ fst st' = fst st1
    /\ config_file (snd st') = config_file (snd st1)
    /\ popen_calls (snd st') = (popen_calls (snd st) ++ [SERVER_CMD; BROWSER_CMD])%list
    /\ processes (snd st') = (processes (snd st) ++ [SERVER_CMD; BROWSER_CMD])%list
    /\ dialogs (snd st') = dialogs (snd st).
Proof.
  intros Hsave Hfault.
  destruct (save_config_frame false st) as (_ & _ & _ & Hpf & _ & Hcalls & Hprocs).
  destruct (silent_save_world json_dump st) as (_ & Hdialogs).
  rewrite Hsave in Hpf, Hcalls, Hprocs, Hdialogs. simpl in *.
  rewrite preview_screensaver_unfold, Hsave, launch_preview_unfold.
  unfold launch_fault in Hfault. rewrite Hpf.
  destruct (popen_fault (snd st) SERVER_CMD); [done|]. rewrite Hfault.
  eexists. split; [reflexivity|]. simpl.
  rewrite Hcalls, Hprocs, Hdialogs, <- !app_assoc. done.
Qed.

(** X14.  When the web server cannot be started, the browser is not
    asked for: the only call of [Popen] is the one for the server, no
    process is started, and the preview error shows the cause.
    config.json holds the document saved all the same. *)
Theorem preview_server_failure_skips_browser (st st1 : session) e :
  save_config json_dump false st = (Returns true, st1) ->
  popen_fault (snd st) SERVER_CMD = Some e ->
  exists st',
    preview_screensaver json_dump st = (Returns tt, st')
    /\ config_file (snd st') = Some (json_dump (VDict (config_data (fst st'))))
    /\ popen_calls (snd st') = (popen_calls (snd st) ++ [SERVER_CMD])%list
    /\ processes (snd st') = processes (snd st)
    /\ dialogs (snd st') = (dialogs (snd st) ++ [MSG_PREVIEW e])%list.
Proof.
  intros Hsave Hfault.
  destruct (save_config_frame false st) as (_ & _ & _ & Hpf & _ & Hcalls & Hprocs).
  destruct (silent_save_world json_dump st) as (_ & Hdialogs).
  destruct (save_config_success _ _ _ _ Hsave) as (_ & _ & _ & _ & _ & Hworld).
  rewrite Hsave in Hpf, Hcalls, Hprocs, Hdialogs. simpl in *.
  rewrite preview_screensaver_unfold, Hsave, launch_preview_unfold.
  rewrite Hpf, Hfault.
  eexists. split; [reflexivity|]. simpl.
  rewrite Hcalls, Hprocs, Hdialogs. split; [|done].
  rewrite Hworld. reflexivity.
Qed.

(** X15.  When the web server starts and the browser does not, the
    server is left running: the preview error is shown, and the process
    of the server stays among the processes started. *)
Theorem preview_browser_failure_leaves_server (st st1 : session) e :
  save_config json_dump false st = (Returns true, st1) ->
  popen_fault (snd st) SERVER_CMD = None ->
  popen_fault (snd st) BROWSER_CMD = Some e ->
  exists st',
    preview_screensaver json_dump st = (Returns tt, st')
    /\ popen_calls (snd st') = (popen_calls (snd st) ++ [SERVER_CMD; BROWSER_CMD])%list
    /\ processes (snd st') = (processes (snd st) ++ [SERVER_CMD])%list
    /\ dialogs (snd st') = (dialogs (snd st) ++ [MSG_PREVIEW e])%list.
Proof.
  intros Hsave Hserver Hbrowser.
  destruct (save_config_frame false st) as (_ & _ & _ & Hpf & _ & Hcalls & Hprocs).
  destruct (silent_save_world json_dump st) as (_ & Hdialogs).
  rewrite Hsave in Hpf, Hcalls, Hprocs, Hdialogs. simpl in *.
  rewrite preview_screensaver_unfold, Hsave, launch_preview_unfold.
  rewrite Hpf, Hserver, Hbrowser.
  eexists. split; [reflexivity|]. simpl.
  rewrite Hcalls, Hprocs, Hdialogs, <- !app_assoc. done.
Qed.

(** One preview in a session where nothing stands in its way. *)
Lemma preview_once (st : session) :
  chosen_chars (fst st) <> [] ->
  first_unreadable (fst st) = None ->
  write_fault (snd st) = WriteOk ->
  launch_fault (snd st) = None ->
  chosen_chars (fst (snd (preview_screensaver json_dump st))) <> []
  /\ first_unreadable (fst (snd (preview_screensaver json_dump st))) = None
  /\ write_fault (snd (snd (preview_screensaver json_dump st))) = WriteOk
  /\ launch_fault (snd (snd (preview_screensaver json_dump st))) = None
  /\ processes (snd (snd (preview_screensaver json_dump st)))
     = (processes (snd st) ++ [SERVER_CMD; BROWSER_CMD])%list.
Proof.
  intros Hc Hr Hw Hl.
  destruct (save_config_frame false st) as (_ & _ & Hwf & Hpf & _ & _ & Hprocs).
  destruct (save_config_object false st) as [d Hobj].
  rewrite preview_screensaver_unfold.
  pose proof (new_config_first_unreadable (fst st) (chosen_chars (fst st))) as Hn.
  rewrite Hr in Hn. destruct Hn as [new Hn].
  assert (Hsave : fst (save_config json_dump false st) = Returns true).
  { rewrite save_config_unfold, Hn, Hw. by destruct (chosen_chars (fst st)). }
  destruct (save_config json_dump false st) as [r st1]. simpl in *. subst r.
  rewrite launch_preview_unfold. unfold launch_fault in *. rewrite Hpf.
  destruct (popen_fault (snd st) SERVER_CMD) eqn:Hs; [done|]. rewrite Hl. simpl.
  rewrite Hobj, Hpf, Hs, Hl, Hwf, Hprocs, <- !app_assoc.
  split; [exact Hc|]. split; [exact Hr|]. done.
Qed.

(** X16.  The preview does not look for a server that is already
    running: each preview that succeeds starts a web server and a browser
    of its own, so [n] previews in a row leave [n] servers and [n]
    browsers behind. *)
Theorem every_preview_starts_a_server n (st : session) :
  chosen_chars (fst st) <> [] ->
  first_unreadable (fst st) = None ->
  write_fault (snd st) = WriteOk ->
  launch_fault (snd st) = None ->
  processes (snd (run json_dump (replicate n PreviewButton) st))
  = (processes (snd st) ++ mjoin (replicate n [SERVER_CMD; BROWSER_CMD]))%list.
Proof.
  revert st. induction n as [|n IH]; intros st Hc Hr Hw Hl.
  - simpl. by rewrite app_nil_r.
  - destruct (preview_once st Hc Hr Hw Hl) as (Hc' & Hr' & Hw' & Hl' & Hprocs).
    change (run json_dump (replicate (S n) PreviewButton) st)
      with (run json_dump (replicate n PreviewButton)
              (snd (preview_screensaver json_dump st))).
    rewrite IH by done. rewrite Hprocs, <- !app_assoc. done.
Qed.

(** ** The whole session *)

Lemma continues_refl w : continues w w.
Proof. by repeat split. Qed.

Lemma continues_trans w1 w2 w3 : continues w1 w2 -> continues w2 w3 -> continues w1 w3.
Proof.
  intros (?&?&?&?&?&?) (?&?&?&?&?&?).
  repeat split; try (by etrans); auto.
Qed.

Lemma save_config_continues show_msg (st : session) :
  continues (snd st) (snd (snd (save_config json_dump show_msg st))).
Proof.
  destruct (save_config_frame show_msg st) as (Ha & _ & _ & _ & Hout & Hcalls & Hprocs).
  repeat split; [apply save_config_dialogs|by rewrite Hcalls|by rewrite Hprocs|done..|].
  apply save_config_keeps_file.
Qed.

Lemma launch_preview_continues w : continues w (snd (launch_preview w)).
Proof.
  rewrite launch_preview_unfold.
  destruct (popen_fault w SERVER_CMD); [|destruct (popen_fault w BROWSER_CMD)];
    repeat split; simpl; rewrite <- ?app_assoc; try done; try (by apply prefix_app_r).
Qed.

Lemma step_continues (st : session) ev :
  continues (snd st) (snd (step json_dump st ev)).
Proof.
  destruct ev; simpl; try apply continues_refl.
  - by repeat split.
  - apply save_config_continues.
  - rewrite preview_screensaver_unfold.
    pose proof (save_config_continues false st) as Hsave.
    destruct (save_config json_dump false st) as [[[|]|e] st1]; try done.
    simpl in *. eapply continues_trans; [done|]. apply launch_preview_continues.
Qed.

Lemma run_continues evs (st : session) :
  continues (snd st) (snd (run json_dump evs st)).
Proof.
  revert st. induction evs as [|ev evs IH]; intros st; simpl; [apply continues_refl|].
  eapply continues_trans; [apply step_continues|apply IH].
Qed.

(** X17.  Whatever the user does in a session, the message boxes shown,
    the calls of [Popen] and the processes started are only added to,
    nothing is printed, the assets directory is not touched, and a
    config.json that exists is never removed. *)
Theorem session_logs_only_grow evs (st : session) :
  dialogs (snd st) `prefix_of` dialogs (snd (run json_dump evs st))
  /\ popen_calls (snd st) `prefix_of` popen_calls (snd (run json_dump evs st))
  /\ processes (snd st) `prefix_of` processes (snd (run json_dump evs st))
  /\ stdout (snd (run json_dump evs st)) = stdout (snd st)
  /\ assets_dir (snd (run json_dump evs st)) = assets_dir (snd st)
  /\ (is_Some (config_file (snd st)) ->
      is_Some (config_file (snd (run json_dump evs st)))).
Proof. apply run_continues. Qed.


(** ** Sessions without a checkbox, and sessions after a failed load *)

Lemma save_config_no_checkbox show_msg (st : session) :
  char_vars (fst st) = [] ->
  save_config json_dump show_msg st
  = (Returns false, (fst st, report show_msg MSG_EMPTY (snd st))).
Proof.
  intros Hcv. rewrite save_config_unfold. unfold chosen_chars. by rewrite Hcv.
Qed.

Lemma step_no_checkbox (st : session) ev :
  char_vars (fst st) = [] ->
  char_vars (fst (step json_dump st ev)) = []
  /\ config_file (snd (step json_dump st ev)) = config_file (snd st)
  /\ popen_calls (snd (step json_dump st ev)) = popen_calls (snd st).
Proof.
  intros Hcv. destruct ev; simpl.
  - done.
  - by rewrite Hcv.
  - done.
  - by rewrite save_config_no_checkbox.
  - rewrite preview_screensaver_unfold, save_config_no_checkbox by done. done.
Qed.

Lemma run_no_checkbox evs (st : session) :
  char_vars (fst st) = [] ->
  char_vars (fst (run json_dump evs st)) = []
  /\ config_file (snd (run json_dump evs st)) = config_file (snd st)
  /\ popen_calls (snd (run json_dump evs st)) = popen_calls (snd st).
Proof.
  revert st. induction evs as [|ev evs IH]; intros st Hcv; [done|].
  destruct (step_no_checkbox st ev Hcv) as (Hcv' & Hfile & Hcalls).
  change (run json_dump (ev :: evs) st) with (run json_dump evs (step json_dump st ev)).
  destruct (IH _ Hcv') as (? & -> & ->). done.
Qed.

(** X18.  A session that starts with an empty catalog (no assets
    directory, or no svg in it) has no checkbox, and nothing the user
    does there gets written: every save returns [False], config.json
    stays as it was when the editor started, and no preview asks for a
    process. *)
Theorem empty_catalog_never_saves w0 self0 w1 evs show_msg :
  init json_load builtin_str builtin_float builtin_int w0 = (Returns self0, w1) ->
  available_assets self0 = [] ->
  fst (save_config json_dump show_msg (run json_dump evs (self0, w1))) = Returns false
  /\ config_file (snd (run json_dump evs (self0, w1))) = config_file w0
  /\ popen_calls (snd (run json_dump evs (self0, w1))) = popen_calls w0.
Proof.
  intros Hinit Hassets.
  destruct (init_success _ _ _ Hinit) as (doc & assets & Hload & _ & _ & Ha & Hcv).
  rewrite Hassets in Ha. subst assets. specialize (Hcv (NoDup_nil_2 (A:=string))).
  destruct (run_no_checkbox evs (self0, w1) Hcv) as (Hcv' & Hfile & Hcalls).
  rewrite save_config_no_checkbox by done. split; [done|].
  rewrite Hfile, Hcalls. simpl.
  destruct (load_config_world w0) as [Hw|[e Hw]]; rewrite Hload in Hw; simpl in Hw;
    by rewrite Hw.
Qed.

Lemma default_unmanaged k : k ∉ managed_keys -> DEFAULT_CONFIG !! k = None.
Proof.
  unfold managed_keys. rewrite !not_elem_of_cons.
  intros (?&?&?&?&?&?&?&?&?&_).
  unfold DEFAULT_CONFIG. simpl. rewrite !lookup_insert_ne by congruence.
  apply lookup_empty.
Qed.

(** X19.  A config.json that cannot be parsed is reported on the console
    only, never in a message box, and the first successful save replaces
    it: the document written holds the nine managed keys and nothing
    else, whatever the unreadable file held. *)
Theorem unreadable_config_is_replaced w0 text e self0 w1 evs show_msg
    (st' : session) :
  config_file w0 = Some text ->
  read_fault w0 = None ->
  json_load text = Raises e ->
  init json_load builtin_str builtin_float builtin_int w0 = (Returns self0, w1) ->
  save_config json_dump show_msg (run json_dump evs (self0, w1)) = (Returns true, st') ->
  dialogs w1 = dialogs w0
  /\ stdout w1 = (stdout w0 ++ [("Error loading config: " ++ exn_str e)%string])%list
  /\ config_file (snd st') = Some (json_dump (VDict (config_data (fst st'))))
  /\ forall k, is_Some (config_data (fst st') !! k) <-> k ∈ managed_keys.
Proof.
  intros Hfile Hread Hjson Hinit Hsave.
  assert (Hload : load_config json_load w0
                  = (Returns (VDict DEFAULT_CONFIG),
                     add_stdout ("Error loading config: " ++ exn_str e) w0))
    by (by rewrite load_config_unfold, Hfile, Hread, Hjson).
  destruct (init_success _ _ _ Hinit) as (doc & assets & Hl & _).
  rewrite Hload in Hl. injection Hl as <- <-.
  do 2 (split; [done|]).
  destruct (init_inv _ _ _ _ _ _ _ Hinit) as (doc & Hl & _ & Hinv).
  rewrite Hload in Hl. injection Hl as <-.
  apply (run_preserves json_dump _ _ evs) in Hinv. destruct Hinv as (_ & _ & Hkeep).
  destruct (save_config_success _ _ _ _ Hsave) as (new & _ & Hn & _ & Hself & Hworld).
  split; [rewrite Hworld at 1; by rewrite config_file_report|].
  intros k. rewrite Hself. simpl. rewrite (dict_update_keys _ _ _ _ Hn).
  split; [|auto]. intros [Hk|Hk]; [done|].
  destruct (decide (k ∈ managed_keys)) as [|Hno]; [done|].
  rewrite (Hkeep k Hno), (default_unmanaged k Hno) in Hk. by destruct Hk.
Qed.

(** X20.  The constructor returns a session exactly when the five
    numeric fields of the loaded document convert.  When one of them
    does not, the constructor raises once [load_config] and
    [get_available_assets] have run: there is no session. *)
Theorem constructor_returns_iff_fields_convert w0 doc w1 :
  load_config json_load w0 = (Returns (VDict doc), w1) ->
  (numeric_fields_convert builtin_str builtin_float builtin_int doc
   <-> exists self,
         init json_load builtin_str builtin_float builtin_int w0 = (Returns self, w1))
  /\ (~ numeric_fields_convert builtin_str builtin_float builtin_int doc ->
      exists e,
        init json_load builtin_str builtin_float builtin_int w0 = (Raises e, w1)).
Proof.
  intros Hload.
  destruct (get_available_assets_world w1) as (Hw & assets & Ha).
  assert (Hget : get_available_assets w1 = (Returns assets, w1)).
  { destruct (get_available_assets w1) as [r w1']. simpl in Hw, Ha. by subst. }
  rewrite (init_equation json_load builtin_str builtin_float builtin_int
             w0 doc w1 assets Hload Hget).
  rewrite (build_config_tab_returns_iff builtin_str builtin_float builtin_int doc assets).
  destruct (build_config_tab builtin_str builtin_float builtin_int _) as [tab|e].
  - split; [split; eauto|]. intros H. destruct H. eauto.
  - split; [|eauto]. split; intros [? [=]].
Qed.

End Coverage.

(** ** The properties above on concrete sessions *)

(** X1, witness: of six entries, the two whose names end in .svg and do
    not start with a dot are the catalog, in the order of the listing. *)
Lemma get_available_assets_lists_svg_names_witness :
  assets_dir cluttered_world = Some cluttered_listing
  /\ Forall (fun name => plain_name name = true) cluttered_listing
  /\ get_available_assets cluttered_world = (Returns ["b.svg"; "a.svg"], cluttered_world).
Proof.
  assert (Hplain : Forall (fun name => plain_name name = true) cluttered_listing)
    by (repeat constructor).
  split; [reflexivity|]. split; [exact Hplain|].
  exact (proj1 (get_available_assets_lists_svg_names
                  cluttered_world cluttered_listing eq_refl Hplain)).
Defined.

(** X2, witness: of a.svg, b.svg and c.svg, the document selects b.svg
    (and an asset that is gone): b.svg alone is ticked. *)
Lemma initial_checkboxes_follow_document_witness :
  init Json.load Py.str Py.float Py.int partial_world = (Returns partial_self, partial_world)
  /\ NoDup (available_assets partial_self)
  /\ char_vars partial_self = [("a.svg", false); ("b.svg", true); ("c.svg", false)]
  /\ chosen_chars partial_self = ["b.svg"].
Proof.
  assert (H1 : init Json.load Py.str Py.float Py.int partial_world
               = (Returns partial_self, partial_world)) by (vm_compute; reflexivity).
  assert (H2 : NoDup (available_assets partial_self))
    by (apply (bool_decide_unpack (NoDup (available_assets partial_self)));
        vm_compute; exact I).
  split; [exact H1|]. split; [exact H2|].
  exact (initial_checkboxes_follow_document Json.load Py.str Py.float Py.int
           partial_world partial_self partial_world H1 H2).
Defined.

(** X3, witness: without config.json, the session on a.svg, b.svg and
    c.svg starts with the three of them ticked. *)
Lemma fresh_session_selects_whole_catalog_witness :
  fst (load_config Json.load fresh_world) = Returns (VDict DEFAULT_CONFIG)
  /\ saved_chars DEFAULT_CONFIG = []
  /\ init Json.load Py.str Py.float Py.int fresh_world = (Returns fresh_self, fresh_world)
  /\ NoDup (available_assets fresh_self)
  /\ chosen_chars fresh_self = ["a.svg"; "b.svg"; "c.svg"]
  /\ Forall (fun box => snd box = true) (char_vars fresh_self).
Proof.
  assert (H1 : fst (load_config Json.load fresh_world) = Returns (VDict DEFAULT_CONFIG))
    by reflexivity.
  assert (H2 : saved_chars DEFAULT_CONFIG = []) by reflexivity.
  assert (H3 : init Json.load Py.str Py.float Py.int fresh_world
               = (Returns fresh_self, fresh_world)) by (vm_compute; reflexivity).
  assert (H4 : NoDup (available_assets fresh_self))
    by (apply (bool_decide_unpack (NoDup (available_assets fresh_self)));
        vm_compute; exact I).
  split; [exact H1|]. split; [exact H2|]. split; [exact H3|]. split; [exact H4|].
  exact (fresh_session_selects_whole_catalog Json.load Py.str Py.float Py.int fresh_world
           DEFAULT_CONFIG fresh_self fresh_world H1 H2 H3 H4).
Defined.

(** X4, witness: config.json holds the list [1, 2]; the editor does not
    start. *)
Lemma init_rejects_non_object_document_witness :
  config_file list_world = Some "[1, 2]"
  /\ read_fault list_world = None
  /\ Json.load "[1, 2]" = Returns (VList [VInt 1; VInt 2])
  /\ load_config Json.load list_world = (Returns (VList [VInt 1; VInt 2]), list_world)
  /\ exists e, init Json.load Py.str Py.float Py.int list_world = (Raises e, list_world).
Proof.
  assert (H : Json.load "[1, 2]" = Returns (VList [VInt 1; VInt 2]))
    by (vm_compute; reflexivity).
  split; [reflexivity|]. split; [reflexivity|]. split; [exact H|].
  apply (init_rejects_non_object_document Json.load Py.str Py.float Py.int list_world
           "[1, 2]" (VList [VInt 1; VInt 2]) eq_refl eq_refl H).
  intros d. discriminate.
Defined.

(** X7, witness: a.svg is ticked, the speed raises an exception that is
    not a [ValueError] and the cycle time raises a [ValueError]: the
    message is the one of the speed. *)
Lemma first_unreadable_control_aborts_save_witness :
  chosen_chars (set_controls unreadable_controls (fst ticked_session)) <> []
  /\ first_unreadable (set_controls unreadable_controls (fst ticked_session))
     = Some (Exception "expected floating-point number but got 'fast'")
  /\ save_config Json.dump true
       (set_controls unreadable_controls (fst ticked_session), ghost_world)
     = (Returns false,
        (set_controls unreadable_controls (fst ticked_session),
         add_dialog
           (ShowError "Error"
              "Could not save config: expected floating-point number but got 'fast'")
           ghost_world)).
Proof.
  assert (H1 : chosen_chars (set_controls unreadable_controls (fst ticked_session)) <> [])
    by discriminate.
  split; [exact H1|]. split; [reflexivity|].
  exact (proj1 (first_unreadable_control_aborts_save Json.dump true
                  (set_controls unreadable_controls (fst ticked_session), ghost_world)
                  _ H1 eq_refl)).
Defined.

(** X8, witness: a.svg is ticked and config.json is read-only: the file
    still selects ghost.svg, the document in memory selects a.svg. *)
Lemma failed_write_is_not_rolled_back_witness :
  chosen_chars (fst ticked_session) <> []
  /\ first_unreadable (fst ticked_session) = None
  /\ write_fault (read_only ghost_world)
     = OpenFails (Exception "[Errno 13] Permission denied: 'config.json'")
  /\ exists self',
       save_config Json.dump true (fst ticked_session, read_only ghost_world)
       = (Returns false,
          (self',
           report true
             (failure_dialog (Exception "[Errno 13] Permission denied: 'config.json'"))
             (read_only ghost_world)))
       /\ config_file
            (report true
               (failure_dialog (Exception "[Errno 13] Permission denied: 'config.json'"))
               (read_only ghost_world))
          = config_file (read_only ghost_world)
       /\ config_data self' !! "enabled_characters"
          = Some (VList (VStr <$> chosen_chars (fst ticked_session)))
       /\ config_data self' !! "background_effect"
          = Some (VStr (bg_var (fst ticked_session)))
       /\ config_data self' !! "cycle_settings"
          = Some (VBool (cycle_settings_var (fst ticked_session)))
       /\ config_data self' !! "lens_effect" = Some (VStr (lens_var (fst ticked_session))).
Proof.
  assert (H1 : chosen_chars (fst ticked_session) <> []) by discriminate.
  split; [exact H1|]. split; [reflexivity|]. split; [reflexivity|].
  exact (failed_write_is_not_rolled_back Json.dump true
           (fst ticked_session, read_only ghost_world) _ H1 eq_refl eq_refl).
Defined.

(** X9, witness: the disk is full after the opening brace; the next
    start of the editor finds the defaults. *)
Lemma interrupted_write_loses_configuration_witness :
  chosen_chars (fst ticked_session) <> []
  /\ first_unreadable (fst ticked_session) = None
  /\ write_fault (disk_full ghost_world)
     = DumpFails (Exception "[Errno 28] No space left on device") "{"
  /\ read_fault (disk_full ghost_world) = None
  /\ Json.load "{" = Raises (ValueError "Expecting property name enclosed in double quotes")
  /\ exists st',
       save_config Json.dump true (fst ticked_session, disk_full ghost_world)
       = (Returns false, st')
       /\ config_file (snd st') = Some "{"
       /\ fst (load_config Json.load (snd st')) = Returns (VDict DEFAULT_CONFIG).
Proof.
  assert (H1 : chosen_chars (fst ticked_session) <> []) by discriminate.
  assert (H5 : Json.load "{"
               = Raises (ValueError "Expecting property name enclosed in double quotes"))
    by (vm_compute; reflexivity).
  split; [exact H1|]. split; [reflexivity|]. split; [reflexivity|].
  split; [reflexivity|]. split; [exact H5|].
  exact (interrupted_write_loses_configuration Json.dump Json.load true
           (fst ticked_session, disk_full ghost_world) _ _ _ H1 eq_refl eq_refl eq_refl H5).
Defined.

(** X10, witness: the save of the ticked session, twice. *)
Lemma save_is_idempotent_witness :
  save_config Json.dump true ticked_session = (Returns true, saved_session)
  /\ exists st'',
       save_config Json.dump false saved_session = (Returns true, st'')
       /\ fst st'' = fst saved_session
       /\ config_file (snd st'') = config_file (snd saved_session).
Proof.
  assert (H1 : save_config Json.dump true ticked_session = (Returns true, saved_session))
    by (vm_compute; reflexivity).
  split; [exact H1|].
  exact (save_is_idempotent Json.dump true false ticked_session saved_session H1).
Defined.

(** X12, witness: the key theme, which the editor does not manage, is in
    the document saved because it was in the document loaded. *)
Lemma saved_document_keys_witness :
  save_config Json.dump true ticked_session = (Returns true, saved_session)
  /\ config_file (snd saved_session)
     = Some (Json.dump (VDict (config_data (fst saved_session))))
  /\ (is_Some (config_data (fst saved_session) !! "theme")
      <-> "theme" ∈ managed_keys \/ is_Some (config_data (fst ticked_session) !! "theme")).
Proof.
  assert (H1 : save_config Json.dump true ticked_session = (Returns true, saved_session))
    by (vm_compute; reflexivity).
  split; [exact H1|].
  exact (saved_document_keys Json.dump true ticked_session saved_session "theme" H1).
Defined.

(** X13, witness: the preview of the ticked session. *)
Lemma preview_starts_server_then_browser_witness :
  save_config Json.dump false ticked_session
  = (Returns true, snd (save_config Json.dump false ticked_session))
  /\ launch_fault (snd ticked_session) = None
  /\ exists st',
       preview_screensaver Json.dump ticked_session = (Returns tt, st')
       /\ fst st' = fst (snd (save_config Json.dump false ticked_session))
       /\ config_file (snd st')
          = config_file (snd (snd (save_config Json.dump false ticked_session)))
       /\ popen_calls (snd st')
          = (popen_calls (snd ticked_session) ++ [SERVER_CMD; BROWSER_CMD])%list
       /\ processes (snd st')
          = (processes (snd ticked_session) ++ [SERVER_CMD; BROWSER_CMD])%list
       /\ dialogs (snd st') = dialogs (snd ticked_session).
Proof.
  assert (H1 : save_config Json.dump false ticked_session
               = (Returns true, snd (save_config Json.dump false ticked_session)))
    by (vm_compute; reflexivity).
  split; [exact H1|]. split; [reflexivity|].
  exact (preview_starts_server_then_browser Json.dump ticked_session _ H1 eq_refl).
Defined.

(** X14, witness: python3 is not installed. *)
Lemma preview_server_failure_skips_browser_witness :
  fst (save_config Json.dump false (fst ticked_session, no_server ghost_world))
  = Returns true
  /\ popen_fault (no_server ghost_world) SERVER_CMD
     = Some (Exception "[Errno 2] No such file or directory: 'python3'")
  /\ exists st',
       preview_screensaver Json.dump (fst ticked_session, no_server ghost_world)
       = (Returns tt, st')
       /\ config_file (snd st') = Some (Json.dump (VDict (config_data (fst st'))))
       /\ popen_calls (snd st') = [SERVER_CMD]
       /\ processes (snd st') = []
       /\ dialogs (snd st')
          = [MSG_PREVIEW (Exception "[Errno 2] No such file or directory: 'python3'")].
Proof.
  assert (H1 : save_config Json.dump false (fst ticked_session, no_server ghost_world)
               = (Returns true,
                  snd (save_config Json.dump false
                         (fst ticked_session, no_server ghost_world))))
    by (vm_compute; reflexivity).
  split; [vm_compute; reflexivity|]. split; [reflexivity|].
  exact (preview_server_failure_skips_browser Json.dump
           (fst ticked_session, no_server ghost_world) _ _ H1 eq_refl).
Defined.

(** X15, witness: the browser is not installed; the server keeps
    running. *)
Lemma preview_browser_failure_leaves_server_witness :
  fst (save_config Json.dump false (fst ticked_session, no_browser ghost_world))
  = Returns true
  /\ popen_fault (no_browser ghost_world) SERVER_CMD = None
  /\ popen_fault (no_browser ghost_world) BROWSER_CMD
     = Some (Exception "[Errno 2] No such file or directory: 'chromium-browser'")
  /\ exists st',
       preview_screensaver Json.dump (fst ticked_session, no_browser ghost_world)
       = (Returns tt, st')
       /\ popen_calls (snd st') = [SERVER_CMD; BROWSER_CMD]
       /\ processes (snd st') = [SERVER_CMD]
       /\ dialogs (snd st')
          = [MSG_PREVIEW
               (Exception "[Errno 2] No such file or directory: 'chromium-browser'")].
Proof.
  assert (H1 : save_config Json.dump false (fst ticked_session, no_browser ghost_world)
               = (Returns true,
                  snd (save_config Json.dump false
                         (fst ticked_session, no_browser ghost_world))))
    by (vm_compute; reflexivity).
  split; [vm_compute; reflexivity|]. split; [reflexivity|]. split; [reflexivity|].
  exact (preview_browser_failure_leaves_server Json.dump
           (fst ticked_session, no_browser ghost_world) _ _ H1 eq_refl eq_refl).
Defined.

(** X16, witness: two previews of the ticked session start two servers
    and two browsers. *)
Lemma every_preview_starts_a_server_witness :
  chosen_chars (fst ticked_session) <> []
  /\ first_unreadable (fst ticked_session) = None
  /\ write_fault (snd ticked_session) = WriteOk
  /\ launch_fault (snd ticked_session) = None
  /\ processes (snd (run Json.dump [PreviewButton; PreviewButton] ticked_session))
     = [SERVER_CMD; BROWSER_CMD; SERVER_CMD; BROWSER_CMD].
Proof.
  assert (H1 : chosen_chars (fst ticked_session) <> []) by discriminate.
  split; [exact H1|]. split; [reflexivity|]. split; [reflexivity|]. split; [reflexivity|].
  exact (every_preview_starts_a_server Json.dump 2 ticked_session
           H1 eq_refl eq_refl eq_refl).
Defined.

(** X18, witness: no assets directory; a click, a save and a preview
    leave no config.json and ask for no process. *)
Lemma empty_catalog_never_saves_witness :
  init Json.load Py.str Py.float Py.int bare_world = (Returns bare_self, bare_world)
  /\ available_assets bare_self = []
  /\ fst (save_config Json.dump true
            (run Json.dump [Click "a.svg"; SaveButton; PreviewButton]
               (bare_self, bare_world)))
     = Returns false
  /\ config_file (snd (run Json.dump [Click "a.svg"; SaveButton; PreviewButton]
                         (bare_self, bare_world)))
     = config_file bare_world
  /\ popen_calls (snd (run Json.dump [Click "a.svg"; SaveButton; PreviewButton]
                         (bare_self, bare_world)))
     = popen_calls bare_world.
Proof.
  assert (H1 : init Json.load Py.str Py.float Py.int bare_world
               = (Returns bare_self, bare_world)) by (vm_compute; reflexivity).
  split; [exact H1|]. split; [reflexivity|].
  exact (empty_catalog_never_saves Json.dump Json.load Py.str Py.float Py.int bare_world
           bare_self bare_world [Click "a.svg"; SaveButton; PreviewButton] true
           H1 eq_refl).
Defined.

(** X19, witness: config.json is not JSON; the editor starts on the
    defaults, prints the failure, and its first save replaces the file. *)
Lemma unreadable_config_is_replaced_witness :
  config_file broken_world = Some "{oops"
  /\ read_fault broken_world = None
  /\ Json.load "{oops"
     = Raises (ValueError "Expecting property name enclosed in double quotes")
  /\ init Json.load Py.str Py.float Py.int broken_world
     = (Returns recovered_self,
        add_stdout
          "Error loading config: Expecting property name enclosed in double quotes"
          broken_world)
  /\ fst (save_config Json.dump true
            (recovered_self,
             add_stdout
               "Error loading config: Expecting property name enclosed in double quotes"
               broken_world))
     = Returns true
  /\ forall k,
       is_Some (config_data
                  (fst (snd (save_config Json.dump true
                               (recovered_self,
                                add_stdout
                                  "Error loading config: Expecting property name enclosed in double quotes"
                                  broken_world)))) !! k)
       <-> k ∈ managed_keys.
Proof.
  assert (H3 : Json.load "{oops"
               = Raises (ValueError "Expecting property name enclosed in double quotes"))
    by (vm_compute; reflexivity).
  assert (H4 : init Json.load Py.str Py.float Py.int broken_world
               = (Returns recovered_self,
                  add_stdout
                    "Error loading config: Expecting property name enclosed in double quotes"
                    broken_world)) by (vm_compute; reflexivity).
  assert (H5 : save_config Json.dump true
                 (run Json.dump []
                    (recovered_self,
                     add_stdout
                       "Error loading config: Expecting property name enclosed in double quotes"
                       broken_world))
               = (Returns true,
                  snd (save_config Json.dump true
                         (recovered_self,
                          add_stdout
                            "Error loading config: Expecting property name enclosed in double quotes"
                            broken_world))))
    by (vm_compute; reflexivity).
  split; [reflexivity|]. split; [reflexivity|]. split; [exact H3|]. split; [exact H4|].
  split; [vm_compute; reflexivity|].
  exact (proj2 (proj2 (proj2 (unreadable_config_is_replaced Json.dump Json.load
                  Py.str Py.float Py.int broken_world _ _ recovered_self _ [] true _
                  eq_refl eq_refl H3 H4 H5)))).
Defined.

(** X20, witness: the speed of config.json is the word fast; the
    constructor raises the [ValueError] of [float], and the editor does
    not start. *)
Lemma constructor_returns_iff_fields_convert_witness :
  load_config Json.load fast_world = (Returns (VDict fast_doc), fast_world)
  /\ ~ numeric_fields_convert Py.str Py.float Py.int fast_doc
  /\ init Json.load Py.str Py.float Py.int fast_world
     = (Raises (ValueError "could not convert string to float: 'fast'"), fast_world)
  /\ exists e, init Json.load Py.str Py.float Py.int fast_world = (Raises e, fast_world).
Proof.
  assert (H1 : load_config Json.load fast_world = (Returns (VDict fast_doc), fast_world))
    by (vm_compute; reflexivity).
  assert (H2 : ~ numeric_fields_convert Py.str Py.float Py.int fast_doc)
    by (intros ([x Hx] & _); vm_compute in Hx; discriminate).
  split; [exact H1|]. split; [exact H2|]. split; [vm_compute; reflexivity|].
  exact (proj2 (constructor_returns_iff_fields_convert Json.load Py.str Py.float Py.int
                  fast_world fast_doc fast_world H1) H2).
Defined.
